(** * FightDB: the archetype / fight store of [fight_db.py]

    A shallow embedding of the [FightDB] class: the two SQLite tables are
    lists of rows kept in rowid order, every method is a function in a small
    state-and-exception monad over the connection, and the statements below
    are the properties the specification gives for the store. *)

From Stdlib Require Import ZArith List String Bool Lia Arith.
Import ListNotations.
Local Open Scope Z_scope.
Local Open Scope string_scope.

(** ** Rows and tables *)

(** [class FIGHT_RESULT]: integer constants. *)
Module FIGHT_RESULT.
Definition DRAW : Z := 0.
Definition WIN : Z := 1.
Definition LOSE : Z := -1.
End FIGHT_RESULT.

(** A row of [Archetypes (id, shipname, parentid, description)];
    the nullable columns are options, [None] being SQL NULL.  The column
    [parentid] is declared TEXT but only ever receives the id of an archetype
    (or NULL) and is only compared with such ids, so it is an id here. *)
Record Archetype : Type := mkArchetype {
  a_id : Z;
  a_shipname : string;
  a_parentid : option Z;
  a_description : option string
}.

(** A row of [Fights (id, shipname1, shipname2, author, author_name, result)]. *)
Record Fight : Type := mkFight {
  f_id : Z;
  f_shipname1 : string;
  f_shipname2 : string;
  f_author : string;
  f_author_name : string;
  f_result : Z
}.

(** The two tables, rows listed in rowid order (the order of a table scan,
    hence the row [fetchone] returns first). *)
Record Tables : Type := mkTables {
  Archetypes : list Archetype;
  Fights : list Fight
}.

(** The connection [self.con]: [view] is what statements run on this
    connection read and write (it includes the pending transaction that the
    sqlite3 module opens before INSERT, UPDATE and DELETE), [committed] is
    what [self.con.commit()] last made durable. *)
Record FightDB : Type := mkFightDB {
  view : Tables;
  committed : Tables
}.

Definition empty_tables : Tables := mkTables [] [].

(** [FightDB()] on a fresh database file: both tables created empty. *)
Definition empty_db : FightDB := mkFightDB empty_tables empty_tables.

(** ** Exceptions and the method monad *)

(** The exceptions the methods raise.  The first four are the
    [raise ValueError(...)] sites of the source (their text is
    [exn_message]); [TypeError] is Python's error on [None[0]];
    [RecursionError] is the interpreter's recursion limit. *)
Inductive exn : Type :=
| ShipDoesNotExist (shipname : string)
| ShipAlreadyExists (shipname : string)
| OwnParent
| ChildAsParent
| TypeError
| RecursionError.

Definition exn_message (e : exn) : string :=
  match e with
  | ShipDoesNotExist n => "Ship '" ++ n ++ "' does not exist in the database"
  | ShipAlreadyExists n => "Ship '" ++ n ++ "' already exists in the database"
  | OwnParent => "Ship cant be its own parent"
  | ChildAsParent => "Cant have a child as parent"
  | TypeError => "'NoneType' object is not subscriptable"
  | RecursionError => "maximum recursion depth exceeded"
  end.

(** The error classes of the specification. *)
Definition is_NotFound (e : exn) : bool :=
  match e with ShipDoesNotExist _ => true | _ => false end.
Definition is_Conflict (e : exn) : bool :=
  match e with ShipAlreadyExists _ => true | _ => false end.
Definition is_InvalidHierarchy (e : exn) : bool :=
  match e with OwnParent | ChildAsParent => true | _ => false end.

Inductive outcome (A : Type) : Type :=
| Ok (a : A)
| Raise (e : exn).
Arguments Ok {A} a.
Arguments Raise {A} e.

(** A method: it runs on the connection and returns the connection together
    with a value or an exception.  A raised exception keeps every statement
    already executed: nothing in the source rolls back. *)
Definition M (A : Type) : Type := FightDB -> FightDB * outcome A.

Definition ret {A} (a : A) : M A := fun s => (s, Ok a).
Definition raise {A} (e : exn) : M A := fun s => (s, Raise e).
Definition bind {A B} (m : M A) (k : A -> M B) : M B :=
  fun s => match m s with
           | (s', Ok a) => k a s'
           | (s', Raise e) => (s', Raise e)
           end.

Notation "x <- m ;; k" := (bind m (fun x => k))
  (at level 61, m at next level, right associativity).
Notation "m ;;; k" := (bind m (fun _ => k))
  (at level 61, right associativity).

(** A SELECT: reads the connection's view. *)
Definition query {A} (q : Tables -> outcome A) : M A :=
  fun s => (s, q (view s)).

(** An INSERT, UPDATE or DELETE: rewrites the connection's view. *)
Definition execute (f : Tables -> Tables) : M unit :=
  fun s => (mkFightDB (f (view s)) (committed s), Ok tt).

(** [self.con.commit()]. *)
Definition commit : M unit :=
  fun s => (mkFightDB (view s) (view s), Ok tt).

(** [for x in xs: body(x)]: stops at the first exception. *)
Fixpoint for_each {A} (xs : list A) (body : A -> M unit) : M unit :=
  match xs with
  | [] => ret tt
  | x :: xs' => body x ;;; for_each xs' body
  end.

(** ** SQL helpers *)

(** [column = ?] on a nullable column: NULL equals nothing. *)
Definition sql_eqZ (col param : option Z) : bool :=
  match col, param with
  | Some a, Some b => Z.eqb a b
  | _, _ => false
  end.

(** The rowid SQLite gives an inserted row of an INTEGER PRIMARY KEY table:
    one more than the largest in use, 1 in an empty table. *)
Definition next_id (ids : list Z) : Z := fold_right Z.max 0 ids + 1.

(** The WHERE clause shared by the SELECT of [insert_fight] and the DELETE of
    [remove_fight]:
    [(shipname1 = n1 AND shipname2 = n2 AND author = x)
     OR (shipname1 = n2 AND shipname2 = n1 AND author = x)]. *)
Definition pair_author_match (n1 n2 x : string) (r : Fight) : bool :=
  (String.eqb (f_shipname1 r) n1 && String.eqb (f_shipname2 r) n2
     && String.eqb (f_author r) x)
  || (String.eqb (f_shipname1 r) n2 && String.eqb (f_shipname2 r) n1
     && String.eqb (f_author r) x).

(** ** Archetype Store queries *)

(** [archetype_exists]: [SELECT 1 FROM Archetypes WHERE shipname = ?]. *)
Definition archetype_exists (shipname : string) (t : Tables) : bool :=
  existsb (fun r => String.eqb (a_shipname r) shipname) (Archetypes t).

(** [get_ship_id]: [None] for [None]; otherwise [fetchone()[0]], which is a
    TypeError when no row has that name. *)
Definition get_ship_id (shipname : option string) (t : Tables)
  : outcome (option Z) :=
  match shipname with
  | None => Ok None
  | Some n =>
      match find (fun r => String.eqb (a_shipname r) n) (Archetypes t) with
      | Some r => Ok (Some (a_id r))
      | None => Raise TypeError
      end
  end.

(** [ship_is_leaf]: no row has [parentid = get_ship_id(shipname)]. *)
Definition ship_is_leaf (shipname : string) (t : Tables) : outcome bool :=
  match get_ship_id (Some shipname) t with
  | Raise e => Raise e
  | Ok i =>
      Ok (negb (existsb (fun r => sql_eqZ (a_parentid r) i) (Archetypes t)))
  end.

(** [archetypes_children]: the names of the rows whose parentid is the id of
    [shipname], in table order. *)
Definition archetypes_children (shipname : string) (t : Tables)
  : outcome (list string) :=
  match get_ship_id (Some shipname) t with
  | Raise e => Raise e
  | Ok i =>
      Ok (map a_shipname
            (filter (fun r => sql_eqZ (a_parentid r) i) (Archetypes t)))
  end.

(** [get_fights]: [SELECT * FROM Fights]. *)
Definition get_fights : M (list Fight) :=
  query (fun t => Ok (Fights t)).

(** ** Statements of the write path *)

(** [INSERT INTO Archetypes (shipname, parentid, description)]. *)
Definition insert_archetype (shipname : string) (parentid : option Z)
  (description : option string) (t : Tables) : Tables :=
  mkTables
    (Archetypes t ++
       [mkArchetype (next_id (map a_id (Archetypes t))) shipname parentid
          description])
    (Fights t).

(** [INSERT INTO Fights (shipname1, shipname2, author, author_name, result)]. *)
Definition insert_fight_row (shipname1 shipname2 author author_name : string)
  (result : Z) (t : Tables) : Tables :=
  mkTables (Archetypes t)
    (Fights t ++
       [mkFight (next_id (map f_id (Fights t))) shipname1 shipname2 author
          author_name result]).

(** [DELETE FROM Fights WHERE id = ?]. *)
Definition delete_fight_id (i : Z) (t : Tables) : Tables :=
  mkTables (Archetypes t)
    (filter (fun r => negb (Z.eqb (f_id r) i)) (Fights t)).

(** [DELETE FROM Fights WHERE <pair_author_match>]. *)
Definition delete_fight_pair (n1 n2 x : string) (t : Tables) : Tables :=
  mkTables (Archetypes t)
    (filter (fun r => negb (pair_author_match n1 n2 x r)) (Fights t)).

(** [UPDATE Fights SET shipname1 = new WHERE shipname1 = old]. *)
Definition update_shipname1 (new old : string) (r : Fight) : Fight :=
  if String.eqb (f_shipname1 r) old
  then mkFight (f_id r) new (f_shipname2 r) (f_author r) (f_author_name r)
         (f_result r)
  else r.

(** [UPDATE Fights SET shipname2 = new WHERE shipname2 = old]. *)
Definition update_shipname2 (new old : string) (r : Fight) : Fight :=
  if String.eqb (f_shipname2 r) old
  then mkFight (f_id r) (f_shipname1 r) new (f_author r) (f_author_name r)
         (f_result r)
  else r.

(** [UPDATE Archetypes SET shipname = new WHERE shipname = old]. *)
Definition update_shipname (new old : string) (r : Archetype) : Archetype :=
  if String.eqb (a_shipname r) old
  then mkArchetype (a_id r) new (a_parentid r) (a_description r)
  else r.

(** [UPDATE Archetypes SET parentid = p WHERE shipname = name]. *)
Definition update_parentid (p : option Z) (name : string) (r : Archetype)
  : Archetype :=
  if String.eqb (a_shipname r) name
  then mkArchetype (a_id r) (a_shipname r) p (a_description r)
  else r.

(** [UPDATE Archetypes SET description = d WHERE shipname = name]. *)
Definition update_description (d : string) (name : string) (r : Archetype)
  : Archetype :=
  if String.eqb (a_shipname r) name
  then mkArchetype (a_id r) (a_shipname r) (a_parentid r) (Some d)
  else r.

Definition map_fights (f : Fight -> Fight) (t : Tables) : Tables :=
  mkTables (Archetypes t) (map f (Fights t)).

Definition map_archetypes (f : Archetype -> Archetype) (t : Tables) : Tables :=
  mkTables (map f (Archetypes t)) (Fights t).

(** ** Methods *)

(** [insert_fight].  The recursion of the source follows the parent links of
    the table, which nothing bounds, so the embedding carries the depth the
    interpreter still allows: at depth 0 the call is a RecursionError. *)
Fixpoint insert_fight (depth : nat)
  (shipname1 shipname2 author author_name : string) (result : Z) : M unit :=
  match depth with
  | O => raise RecursionError
  | S depth' =>
      e1 <- query (fun t => Ok (archetype_exists shipname1 t)) ;;
      if negb e1 then raise (ShipDoesNotExist shipname1) else
      e2 <- query (fun t => Ok (archetype_exists shipname2 t)) ;;
      if negb e2 then raise (ShipDoesNotExist shipname2) else
      leaf1 <- query (ship_is_leaf shipname1) ;;
      (if leaf1 then
         leaf2 <- query (ship_is_leaf shipname2) ;;
         if leaf2 then
           existing_fight <-
             query (fun t =>
                      Ok (find (pair_author_match shipname1 shipname2 author)
                            (Fights t))) ;;
           match existing_fight with
           | Some r => execute (delete_fight_id (f_id r))
           | None => ret tt
           end ;;;
           execute
             (insert_fight_row shipname1 shipname2 author author_name result)
         else
           children <- query (archetypes_children shipname2) ;;
           for_each children
             (fun ship =>
                insert_fight depth' shipname1 ship author author_name result)
       else
         children <- query (archetypes_children shipname1) ;;
         for_each children
           (fun ship =>
              insert_fight depth' ship shipname2 author author_name result))
      ;;; commit
  end.

(** [remove_fight]. *)
Definition remove_fight (shipname1 shipname2 author : string) : M unit :=
  execute (delete_fight_pair shipname1 shipname2 author) ;;; commit.

(** [add_ship]. *)
Definition add_ship (shipname : string) (parent_name : option string)
  (description : option string) : M unit :=
  e <- query (fun t => Ok (archetype_exists shipname t)) ;;
  if negb e then
    parent_id <- query (get_ship_id parent_name) ;;
    execute (insert_archetype shipname parent_id description) ;;;
    commit
  else ret tt.

(** The three UPDATE statements of the [new_name] block of [rename_ship]. *)
Definition rename_statements (new_name old_name : string) : M unit :=
  execute (map_fights (update_shipname1 new_name old_name)) ;;;
  execute (map_fights (update_shipname2 new_name old_name)) ;;;
  execute (map_archetypes (update_shipname new_name old_name)).

(** [rename_ship], block [if new_name is not None]: the value is
    [(current_name, return_message)]. *)
Definition rename_new_name (old_name : string) (return_message : string)
  (new_name : option string) : M (string * string) :=
  match new_name with
  | Some new_name =>
      taken <- query (fun t => Ok (archetype_exists new_name t)) ;;
      if taken then raise (ShipAlreadyExists new_name) else
      rename_statements new_name old_name ;;;
      ret (new_name, return_message ++ " renamed to " ++ new_name ++ ", ")
  | None => ret (old_name, return_message)
  end.

(** [rename_ship], block [if new_parent_name is not None]. *)
Definition rename_new_parent (current_name : string) (return_message : string)
  (new_parent_name : option string) : M string :=
  match new_parent_name with
  | Some new_parent_name =>
      known <- query (fun t => Ok (archetype_exists new_parent_name t)) ;;
      if negb known then raise (ShipDoesNotExist new_parent_name) else
      if String.eqb new_parent_name current_name then raise OwnParent else
      children <- query (archetypes_children current_name) ;;
      for_each children
        (fun child =>
           if String.eqb child new_parent_name then raise ChildAsParent
           else ret tt) ;;;
      parent_id <- query (get_ship_id (Some new_parent_name)) ;;
      execute (map_archetypes (update_parentid parent_id current_name)) ;;;
      ret (return_message ++ " parent changed to " ++ new_parent_name ++ ", ")
  | None => ret return_message
  end.

(** [rename_ship], block [if new_description is not None]: the UPDATE
    filters on [old_name]. *)
Definition rename_new_description (old_name : string) (return_message : string)
  (new_description : option string) : M string :=
  match new_description with
  | Some new_description =>
      execute (map_archetypes (update_description new_description old_name)) ;;;
      ret (return_message ++ " description changed to " ++ new_description)
  | None => ret return_message
  end.

(** [rename_ship]: the existence check, the three blocks in the order of the
    source, the commit; the value is [return_message]. *)
Definition rename_ship (old_name : string)
  (new_name new_parent_name new_description : option string) : M string :=
  e <- query (fun t => Ok (archetype_exists old_name t)) ;;
  if negb e then raise (ShipDoesNotExist old_name) else
  let return_message := "Changes of " ++ old_name ++ ": " in
  st <- rename_new_name old_name return_message new_name ;;
  let current_name := fst st in
  let return_message := snd st in
  return_message <-
    rename_new_parent current_name return_message new_parent_name ;;
  return_message <-
    rename_new_description old_name return_message new_description ;;
  commit ;;;
  ret return_message.

(** [get_average_match]: the four counting SELECTs and the majority test. *)
Definition count_fights (shipname1 shipname2 : string) (result : Z)
  (t : Tables) : Z :=
  Z.of_nat
    (List.length
       (filter
          (fun r => String.eqb (f_shipname1 r) shipname1
                    && String.eqb (f_shipname2 r) shipname2
                    && Z.eqb (f_result r) result)
          (Fights t))).

Definition get_average_match (ship1 ship2 : string) (t : Tables) : Z :=
  let num_wins := count_fights ship1 ship2 1 t in
  let num_loss := count_fights ship2 ship1 1 t in
  let num_draw := count_fights ship1 ship2 0 t in
  let num_draw := num_draw + count_fights ship2 ship1 0 t in
  if Z.gtb num_wins num_loss && Z.gtb num_wins num_draw then 1
  else if Z.gtb num_loss num_wins && Z.gtb num_loss num_draw then -1
  else 0.

(** ** Sequences of operations *)

(** The state a method call leaves, whatever it returns or raises. *)
Definition run {A} (m : M A) (s : FightDB) : FightDB := fst (m s).

(** The write operations of the store.  [ReportFight] carries the recursion
    depth available to the call. *)
Inductive op : Type :=
| Add (shipname : string) (parent_name description : option string)
| ReportFight (depth : nat) (shipname1 shipname2 author author_name : string)
    (result : Z)
| RemoveFight (shipname1 shipname2 author : string)
| Rename (old_name : string)
    (new_name new_parent_name new_description : option string).

Definition step (o : op) (s : FightDB) : FightDB :=
  match o with
  | Add n p d => run (add_ship n p d) s
  | ReportFight depth n1 n2 x an res => run (insert_fight depth n1 n2 x an res) s
  | RemoveFight n1 n2 x => run (remove_fight n1 n2 x) s
  | Rename old nn np nd => run (rename_ship old nn np nd) s
  end.

(** The states of a store that started empty: every call counts, also one
    that raised. *)
Inductive reachable : FightDB -> Prop :=
| reachable_empty : reachable empty_db
| reachable_step (o : op) (s : FightDB) :
    reachable s -> reachable (step o s).

(** ** Properties of tables *)

(** At most one Fight row per unordered pair of names per author. *)
Definition fights_unique (fs : list Fight) : Prop :=
  forall n1 n2 x,
    (List.length (filter (pair_author_match n1 n2 x) fs) <= 1)%nat.

(** Every name in a Fight row is the name of an archetype. *)
Definition fight_names_known (t : Tables) : Prop :=
  Forall (fun r => archetype_exists (f_shipname1 r) t = true
                   /\ archetype_exists (f_shipname2 r) t = true)
    (Fights t).

(** The invariant of the tables: names and row ids are keys, Fight rows name
    archetypes, and the pair-and-author uniqueness. *)
Record wf (t : Tables) : Prop := mk_wf {
  wf_names : NoDup (map a_shipname (Archetypes t));
  wf_ids : NoDup (map f_id (Fights t));
  wf_known : fight_names_known t;
  wf_unique : fights_unique (Fights t)
}.

Definition db_wf (s : FightDB) : Prop := wf (view s) /\ wf (committed s).

(** The leaf-against-leaf branch of [insert_fight] as one table update:
    delete the row [fetchone] found, insert the new one. *)
Definition dedupe (shipname1 shipname2 author : string) (t : Tables) : Tables :=
  match find (pair_author_match shipname1 shipname2 author) (Fights t) with
  | Some r => delete_fight_id (f_id r) t
  | None => t
  end.

Definition leaf_write (shipname1 shipname2 author author_name : string)
  (result : Z) (t : Tables) : Tables :=
  insert_fight_row shipname1 shipname2 author author_name result
    (dedupe shipname1 shipname2 author t).

(** The tables after the three UPDATEs of a rename. *)
Definition renamed (new_name old_name : string) (t : Tables) : Tables :=
  map_archetypes (update_shipname new_name old_name)
    (map_fights (update_shipname2 new_name old_name)
       (map_fights (update_shipname1 new_name old_name) t)).

(** The parent relation on row ids, and its transitive closure. *)
Definition parent_link (t : Tables) (child parent : Z) : Prop :=
  exists r, In r (Archetypes t) /\ a_id r = child /\ a_parentid r = Some parent.

Inductive ancestor (t : Tables) : Z -> Z -> Prop :=
| ancestor_parent (c p : Z) : parent_link t c p -> ancestor t c p
| ancestor_step (c m p : Z) :
    parent_link t c m -> ancestor t m p -> ancestor t c p.

(** The parent relation is a forest: no archetype is its own ancestor. *)
Definition forest (t : Tables) : Prop := forall i, ~ ancestor t i i.

(** The counts of the majority prediction as the specification words them:
    rows storing [name1] as winner over [name2], and draw rows between the
    two in either order. *)
Definition wins_over (name1 name2 : string) (t : Tables) : nat :=
  List.length
    (filter (fun r => String.eqb (f_shipname1 r) name1
                      && String.eqb (f_shipname2 r) name2
                      && Z.eqb (f_result r) FIGHT_RESULT.WIN)
       (Fights t)).

Definition draws_between (name1 name2 : string) (t : Tables) : nat :=
  List.length
    (filter (fun r => Z.eqb (f_result r) FIGHT_RESULT.DRAW
                      && ((String.eqb (f_shipname1 r) name1
                           && String.eqb (f_shipname2 r) name2)
                          || (String.eqb (f_shipname1 r) name2
                              && String.eqb (f_shipname2 r) name1)))
       (Fights t)).

(** The majority prediction as the specification words it: the strictly
    greatest of the three counts decides, a tie among the top values is a
    draw. *)
Definition majority_prediction (name1 name2 : string) (t : Tables) : Z :=
  let w := wins_over name1 name2 t in
  let l := wins_over name2 name1 t in
  let d := draws_between name1 name2 t in
  if ((l <? w) && (d <? w))%nat then FIGHT_RESULT.WIN
  else if ((w <? l) && (d <? l))%nat then FIGHT_RESULT.LOSE
  else FIGHT_RESULT.DRAW.

(** ** The remaining queries of the store *)

(** [get_ships_parentid]: [None] for [None] and for a name without a row,
    otherwise the parentid of the first row of that name. *)
Definition get_ships_parentid (shipname : option string) (t : Tables)
  : option Z :=
  match shipname with
  | None => None
  | Some n =>
      match find (fun r => String.eqb (a_shipname r) n) (Archetypes t) with
      | None => None
      | Some parent => a_parentid parent
      end
  end.

(** [get_ship_description]: [None] for [None]; [fetchone()[0]] otherwise, a
    TypeError for a name without a row; a NULL description reads as the empty
    string. *)
Definition get_ship_description (shipname : option string) (t : Tables)
  : outcome (option string) :=
  match shipname with
  | None => Ok None
  | Some n =>
      match find (fun r => String.eqb (a_shipname r) n) (Archetypes t) with
      | None => Raise TypeError
      | Some r =>
          match a_description r with
          | None => Ok (Some "")
          | Some description => Ok (Some description)
          end
      end
  end.

(** [SELECT DISTINCT]: each value once, at its first occurrence. *)
Fixpoint distinct (l : list string) : list string :=
  match l with
  | [] => []
  | x :: xs => x :: filter (fun y => negb (String.eqb y x)) (distinct xs)
  end.

(** [get_archetypes]: [SELECT DISTINCT shipname FROM Archetypes]. *)
Definition get_archetypes (t : Tables) : list string :=
  distinct (map a_shipname (Archetypes t)).

(** [[ship for ship in ships if self.ship_is_leaf(ship)]]. *)
Fixpoint leaf_ships (ships : list string) (t : Tables)
  : outcome (list string) :=
  match ships with
  | [] => Ok []
  | ship :: ships' =>
      match ship_is_leaf ship t with
      | Raise e => Raise e
      | Ok leaf =>
          match leaf_ships ships' t with
          | Raise e => Raise e
          | Ok rest => Ok (if leaf then ship :: rest else rest)
          end
      end
  end.

(** [get_ships]: the names of [get_archetypes] that are leaves. *)
Definition get_ships (t : Tables) : outcome (list string) :=
  leaf_ships (get_archetypes t) t.

(** A Python dict from a ship name to the list of author names, its keys in
    insertion order. *)
Definition matchup_dict : Type := list (string * list string).

(** [if k in d: d[k].append(v) else: d[k] = [v]]. *)
Fixpoint dict_append (k v : string) (d : matchup_dict) : matchup_dict :=
  match d with
  | [] => [(k, [v])]
  | (k', vs) :: d' =>
      if String.eqb k' k then (k', (vs ++ [v])%list) :: d'
      else (k', vs) :: dict_append k v d'
  end.

(** [d.get(k)]. *)
Fixpoint dict_get (k : string) (d : matchup_dict) : option (list string) :=
  match d with
  | [] => None
  | (k', vs) :: d' => if String.eqb k' k then Some vs else dict_get k d'
  end.

(** [d.keys()]. *)
Definition dict_keys (d : matchup_dict) : list string := map fst d.

(** The test [player_name is None or author_name == player_name]. *)
Definition player_matches (player_name : option string) (r : Fight) : bool :=
  match player_name with
  | None => true
  | Some p => String.eqb (f_author_name r) p
  end.

(** The body of the loop of [get_matchups] on one row; the dicts are
    [(wins, draws, losses)]. *)
Definition matchup_row (ship_name : string) (player_name : option string)
  (acc : matchup_dict * matchup_dict * matchup_dict) (r : Fight)
  : matchup_dict * matchup_dict * matchup_dict :=
  let '(wins, draws, losses) := acc in
  if player_matches player_name r then
    if Z.eqb (f_result r) FIGHT_RESULT.DRAW then
      let opponent :=
        if negb (String.eqb (f_shipname1 r) ship_name) then f_shipname1 r
        else f_shipname2 r in
      (wins, dict_append opponent (f_author_name r) draws, losses)
    else if String.eqb (f_shipname1 r) ship_name then
      (dict_append (f_shipname2 r) (f_author_name r) wins, draws, losses)
    else
      (wins, draws, dict_append (f_shipname1 r) (f_author_name r) losses)
  else acc.

(** [get_matchups]: the value is [(wins, draws, losses)]. *)
Definition get_matchups (ship_name : string) (player_name : option string)
  (t : Tables) : outcome (matchup_dict * matchup_dict * matchup_dict) :=
  if negb (archetype_exists ship_name t)
  then Raise (ShipDoesNotExist ship_name)
  else
    let fight_data :=
      filter (fun r => String.eqb (f_shipname1 r) ship_name
                       || String.eqb (f_shipname2 r) ship_name)
        (Fights t) in
    Ok (fold_left (matchup_row ship_name player_name) fight_data ([], [], [])).

(** [get_unknown_matchups]: [get_ships] first, then [get_matchups]; the set
    [matchups] of the source is only tested for membership. *)
Definition get_unknown_matchups (shipname : string)
  (player_name : option string) (t : Tables) : outcome (list string) :=
  match get_ships t with
  | Raise e => Raise e
  | Ok ships =>
      match get_matchups shipname player_name t with
      | Raise e => Raise e
      | Ok (wins, draws, losses) =>
          let matchups :=
            (dict_keys wins ++ dict_keys draws ++ dict_keys losses)%list in
          Ok (filter
                (fun ship => negb (existsb (String.eqb ship) matchups))
                ships)
      end
  end.

(** The dict [simulate_fight] returns: the author names under the keys
    [FIGHT_RESULT.WIN], [FIGHT_RESULT.DRAW] and [FIGHT_RESULT.LOSE]. *)
Record result_authors : Type := mk_result_authors {
  authors_WIN : list string;
  authors_DRAW : list string;
  authors_LOSE : list string
}.

(** [simulate_fight]. *)
Definition simulate_fight (shipname1 shipname2 : string) (t : Tables)
  : outcome result_authors :=
  if negb (archetype_exists shipname1 t)
  then Raise (ShipDoesNotExist shipname1)
  else if negb (archetype_exists shipname2 t)
  then Raise (ShipDoesNotExist shipname2)
  else
    let winners :=
      map f_author_name
        (filter (fun r => String.eqb (f_shipname1 r) shipname1
                          && String.eqb (f_shipname2 r) shipname2
                          && Z.eqb (f_result r) FIGHT_RESULT.WIN)
           (Fights t)) in
    let losers :=
      map f_author_name
        (filter (fun r => String.eqb (f_shipname1 r) shipname2
                          && String.eqb (f_shipname2 r) shipname1
                          && Z.eqb (f_result r) FIGHT_RESULT.WIN)
           (Fights t)) in
    let draws :=
      map f_author_name
        (filter (fun r => (String.eqb (f_shipname1 r) shipname1
                           && String.eqb (f_shipname2 r) shipname2
                           && Z.eqb (f_result r) FIGHT_RESULT.DRAW)
                          || (String.eqb (f_shipname1 r) shipname2
                              && String.eqb (f_shipname2 r) shipname1
                              && Z.eqb (f_result r) FIGHT_RESULT.DRAW))
           (Fights t)) in
    Ok (mk_result_authors winners draws losers).

(** [d.get(k, [])]. *)
Definition dict_values (k : string) (d : matchup_dict) : list string :=
  match dict_get k d with
  | Some vs => vs
  | None => []
  end.

(** The rows of the store that [get_matchups ship_name player_name] files
    under the opponent [o]: as a win, as a loss, as a draw. *)
Definition won_against (ship_name o : string) (player_name : option string)
  (r : Fight) : bool :=
  player_matches player_name r
  && negb (Z.eqb (f_result r) FIGHT_RESULT.DRAW)
  && String.eqb (f_shipname1 r) ship_name && String.eqb (f_shipname2 r) o.

Definition lost_against (ship_name o : string) (player_name : option string)
  (r : Fight) : bool :=
  player_matches player_name r
  && negb (Z.eqb (f_result r) FIGHT_RESULT.DRAW)
  && negb (String.eqb (f_shipname1 r) ship_name)
  && String.eqb (f_shipname2 r) ship_name && String.eqb (f_shipname1 r) o.

Definition drew_against (ship_name o : string) (player_name : option string)
  (r : Fight) : bool :=
  player_matches player_name r
  && Z.eqb (f_result r) FIGHT_RESULT.DRAW
  && ((String.eqb (f_shipname1 r) ship_name && String.eqb (f_shipname2 r) o)
      || (negb (String.eqb (f_shipname1 r) ship_name)
          && String.eqb (f_shipname2 r) ship_name
          && String.eqb (f_shipname1 r) o)).

(** Referential integrity of the Archetypes table: ids are a key and every
    parentid is the id of a row. *)
Definition hierarchy_wf (t : Tables) : Prop :=
  NoDup (map a_id (Archetypes t))
  /\ forall r p, In r (Archetypes t) -> a_parentid r = Some p ->
                 In p (map a_id (Archetypes t)).



(** The renaming of one name. *)
Definition subst_name (new old n : string) : string :=
  if String.eqb n old then new else n.

(** ** Example stores *)

(** The archetypes of the specification's scenario: two roots, one of them
    with two leaf children. *)
Definition fleet_db : FightDB :=
  step (Add "RaiderMk2" (Some "Corvette") None)
    (step (Add "RaiderMk1" (Some "Corvette") None)
       (step (Add "Corvette" None None)
          (step (Add "Destroyer" None None) empty_db))).

(** The fleet after one fan-out report. *)
Definition fleet_fought_db : FightDB :=
  step (ReportFight 1000 "Destroyer" "Corvette" "u1" "Alice" FIGHT_RESULT.WIN)
    fleet_db.

(** A chain of three archetypes: [C] under [B] under [A]. *)
Definition chain_db : FightDB :=
  step (Add "C" (Some "B") None)
    (step (Add "B" (Some "A") None)
       (step (Add "A" None None) empty_db)).

(** Two archetypes and three reports by three authors: [A] over [B] twice,
    [B] over [A] once. *)
Definition tally_db : FightDB :=
  step (ReportFight 1000 "B" "A" "u3" "Carol" FIGHT_RESULT.WIN)
    (step (ReportFight 1000 "A" "B" "u2" "Bob" FIGHT_RESULT.WIN)
       (step (ReportFight 1000 "A" "B" "u1" "Alice" FIGHT_RESULT.WIN)
          (step (Add "B" None None)
             (step (Add "A" None None) empty_db)))).


(** Two root archetypes without children. *)
Definition two_roots_db : FightDB :=
  step (Add "Corvette" None None)
    (step (Add "Destroyer" None None) empty_db).

(** * Lists of rows *)

Section RowLists.
Context {A : Type}.

Lemma filter_filter_length (p q : A -> bool) (l : list A) :
  (List.length (filter p (filter q l)) <= List.length (filter p l))%nat.
Proof.
  induction l as [|a l IH]; simpl; [lia|].
  destruct (q a); simpl; destruct (p a); simpl; lia.
Qed.

Lemma filter_map_length {B : Type} (f : A -> B) (p : B -> bool)
  (q : A -> bool) (l : list A) :
  (forall a, In a l -> p (f a) = true -> q a = true) ->
  (List.length (filter p (map f l)) <= List.length (filter q l))%nat.
Proof.
  induction l as [|a l IH]; simpl; intros H; [lia|].
  assert (IH' := IH (fun b Hb => H b (or_intror Hb))).
  destruct (p (f a)) eqn:E.
  - rewrite (H a (or_introl eq_refl) E); simpl; lia.
  - destruct (q a); simpl; lia.
Qed.

Lemma filter_none (p : A -> bool) (l : list A) :
  (forall a, In a l -> p a = false) -> filter p l = [].
Proof.
  induction l as [|a l IH]; simpl; intros H; [reflexivity|].
  rewrite (H a (or_introl eq_refl)). apply IH. intros b Hb. apply H. now right.
Qed.

Lemma filter_nil_inv (p : A -> bool) (l : list A) (a : A) :
  filter p l = [] -> In a l -> p a = false.
Proof.
  intros E Ha. destruct (p a) eqn:Ep; [|reflexivity].
  assert (Hin : In a (filter p l)) by (apply filter_In; auto).
  rewrite E in Hin. destruct Hin.
Qed.

Lemma filter_filter_same (p q : A -> bool) (l : list A) :
  (forall a, In a l -> p a = true -> q a = true) ->
  filter p (filter q l) = filter p l.
Proof.
  induction l as [|a l IH]; simpl; intros H; [reflexivity|].
  assert (IH' := IH (fun b Hb => H b (or_intror Hb))).
  destruct (q a) eqn:Eq; simpl.
  - destruct (p a); [f_equal|]; exact IH'.
  - destruct (p a) eqn:Ep; [|exact IH'].
    rewrite (H a (or_introl eq_refl) Ep) in Eq. discriminate.
Qed.

Lemma singleton_filter (p : A -> bool) (l : list A) (a b : A) :
  (List.length (filter p l) <= 1)%nat ->
  In a l -> p a = true -> In b l -> p b = true -> a = b.
Proof.
  intros Hlen Ha Hpa Hb Hpb.
  assert (Ia : In a (filter p l)) by (apply filter_In; auto).
  assert (Ib : In b (filter p l)) by (apply filter_In; auto).
  destruct (filter p l) as [|x [|y r]]; simpl in *; try lia; try tauto.
  destruct Ia as [<-|[]]. destruct Ib as [<-|[]]. reflexivity.
Qed.

(** A key column stays a key when rows are deleted. *)
Lemma NoDup_map_filter {K : Type} (key : A -> K) (keep : A -> bool)
  (rows : list A) (Hkey : NoDup (map key rows)) :
  NoDup (map key (filter keep rows)).
Proof.
  induction rows as [|a l IH]; simpl; [constructor|].
  inversion Hkey as [|? ? Hn Hd]; subst.
  destruct (keep a); simpl; [constructor|]; auto.
  intros Hin. apply Hn. apply in_map_iff in Hin as (b & Eb & Hb).
  apply filter_In in Hb as [Hb _]. apply in_map_iff. eauto.
Qed.

Lemma NoDup_map_eq {B : Type} (f : A -> B) (l : list A) (a b : A) :
  NoDup (map f l) -> In a l -> In b l -> f a = f b -> a = b.
Proof.
  induction l as [|c l IH]; simpl; intros H Ha Hb E; [destruct Ha|].
  inversion H as [|? ? Hn Hd]; subst.
  destruct Ha as [<-|Ha], Hb as [<-|Hb]; auto.
  - exfalso. apply Hn. rewrite E. now apply in_map.
  - exfalso. apply Hn. rewrite <- E. now apply in_map.
Qed.

Lemma find_none_filter (p : A -> bool) (l : list A) :
  find p l = None -> filter p l = [].
Proof.
  intros H. apply filter_none. intros a Ha. exact (find_none p l H a Ha).
Qed.

End RowLists.

Lemma next_id_above (ids : list Z) (i : Z) : In i ids -> i < next_id ids.
Proof.
  unfold next_id. induction ids as [|j ids IH]; simpl; intros H; [destruct H|].
  destruct H as [->|H]; [lia|]. specialize (IH H). lia.
Qed.

Lemma next_id_fresh (ids : list Z) : ~ In (next_id ids) ids.
Proof. intros H. apply next_id_above in H. lia. Qed.

(** * The pair-and-author key *)

Lemma pair_author_match_sym (n1 n2 x : string) (r : Fight) :
  pair_author_match n1 n2 x r = pair_author_match n2 n1 x r.
Proof. unfold pair_author_match. apply orb_comm. Qed.

Lemma pair_author_match_spec (n1 n2 x : string) (r : Fight) :
  pair_author_match n1 n2 x r = true <->
  f_author r = x /\
  ((f_shipname1 r = n1 /\ f_shipname2 r = n2)
   \/ (f_shipname1 r = n2 /\ f_shipname2 r = n1)).
Proof.
  unfold pair_author_match.
  rewrite orb_true_iff, !andb_true_iff, !String.eqb_eq. tauto.
Qed.

(** Two keys that one row matches select the same rows. *)
Lemma pair_author_match_same_key (a b y n1 n2 x : string) (r0 r : Fight) :
  pair_author_match a b y r0 = true ->
  pair_author_match n1 n2 x r0 = true ->
  pair_author_match a b y r = pair_author_match n1 n2 x r.
Proof.
  intros H1 H2.
  apply pair_author_match_spec in H1 as [Hx1 H1].
  apply pair_author_match_spec in H2 as [Hx2 H2].
  assert (Ey : y = x) by congruence. rewrite Ey. clear Ey Hx1 Hx2.
  assert (Hab : (a = n1 /\ b = n2) \/ (a = n2 /\ b = n1)).
  { destruct H1 as [[E1 E2]|[E1 E2]], H2 as [[E3 E4]|[E3 E4]];
      subst; auto. }
  destruct Hab as [[-> ->]|[-> ->]];
    [reflexivity | apply pair_author_match_sym].
Qed.

Lemma pair_author_match_row (i : Z) (n1 n2 x an : string) (res : Z) :
  pair_author_match n1 n2 x (mkFight i n1 n2 x an res) = true.
Proof.
  unfold pair_author_match; simpl. now rewrite !String.eqb_refl.
Qed.

(** * The dedupe step *)

Lemma dedupe_Archetypes (n1 n2 x : string) (t : Tables) :
  Archetypes (dedupe n1 n2 x t) = Archetypes t.
Proof. unfold dedupe. now destruct (find _ _). Qed.

Lemma dedupe_Fights_incl (n1 n2 x : string) (t : Tables) (r : Fight) :
  In r (Fights (dedupe n1 n2 x t)) -> In r (Fights t).
Proof.
  unfold dedupe. destruct (find _ _); simpl; [|trivial].
  intros H. now apply filter_In in H.
Qed.

(** After the dedupe no row of that pair and author is left, provided there
    was at most one. *)
Lemma dedupe_clears (n1 n2 x : string) (t : Tables) :
  (List.length (filter (pair_author_match n1 n2 x) (Fights t)) <= 1)%nat ->
  filter (pair_author_match n1 n2 x) (Fights (dedupe n1 n2 x t)) = [].
Proof.
  intros Hu. unfold dedupe.
  destruct (find _ _) as [r|] eqn:Ef.
  - apply find_some in Ef as [Hr Hm]. simpl.
    apply filter_none. intros a Ha.
    apply filter_In in Ha as [Ha Hid].
    destruct (pair_author_match n1 n2 x a) eqn:Em; [|reflexivity].
    assert (a = r) by (eapply singleton_filter; eauto). subst a.
    rewrite Z.eqb_refl in Hid. discriminate.
  - now apply find_none_filter.
Qed.

(** With row ids a key, the dedupe removes nothing else. *)
Lemma dedupe_keeps_others (n1 n2 x : string) (t : Tables) (q : Fight -> bool) :
  NoDup (map f_id (Fights t)) ->
  (forall r, pair_author_match n1 n2 x r = true -> q r = false) ->
  filter q (Fights (dedupe n1 n2 x t)) = filter q (Fights t).
Proof.
  intros Hid Hq. unfold dedupe.
  destruct (find _ _) as [r|] eqn:Ef; [|reflexivity].
  apply find_some in Ef as [Hr Hm]. simpl.
  apply filter_filter_same. intros a Ha Hqa.
  destruct (Z.eqb_spec (f_id a) (f_id r)) as [E|E]; [|reflexivity].
  assert (a = r) by (eapply NoDup_map_eq; eauto). subst a.
  rewrite (Hq r Hm) in Hqa. discriminate.
Qed.

Lemma fights_unique_filter (p : Fight -> bool) (fs : list Fight) :
  fights_unique fs -> fights_unique (filter p fs).
Proof.
  intros H n1 n2 x. eapply Nat.le_trans; [apply filter_filter_length|apply H].
Qed.

Lemma fights_unique_dedupe (n1 n2 x : string) (t : Tables) :
  fights_unique (Fights t) -> fights_unique (Fights (dedupe n1 n2 x t)).
Proof.
  unfold dedupe. destruct (find _ _); simpl; [|trivial].
  apply fights_unique_filter.
Qed.

Lemma fights_unique_leaf_write (n1 n2 x an : string) (res : Z) (t : Tables) :
  fights_unique (Fights t) ->
  fights_unique (Fights (leaf_write n1 n2 x an res t)).
Proof.
  intros Hu a b y. unfold leaf_write, insert_fight_row. simpl.
  rewrite filter_app, length_app. simpl.
  set (r0 := mkFight _ n1 n2 x an res).
  destruct (pair_author_match a b y r0) eqn:Em; simpl.
  - assert (Hk : pair_author_match n1 n2 x r0 = true)
      by apply pair_author_match_row.
    rewrite (filter_ext _ _ (fun r => pair_author_match_same_key _ _ _ _ _ _ r0 r Em Hk)).
    rewrite dedupe_clears; [simpl; lia | apply Hu].
  - assert (H := fights_unique_dedupe n1 n2 x t Hu a b y). lia.
Qed.

(** * Names *)

Lemma archetype_exists_In (n : string) (t : Tables) :
  archetype_exists n t = true <-> In n (map a_shipname (Archetypes t)).
Proof.
  unfold archetype_exists. rewrite existsb_exists, in_map_iff.
  split; intros (r & H1 & H2); exists r.
  - apply String.eqb_eq in H2. auto.
  - rewrite H1, String.eqb_refl. auto.
Qed.

Lemma archetype_exists_same_names (n : string) (t t' : Tables) :
  map a_shipname (Archetypes t') = map a_shipname (Archetypes t) ->
  archetype_exists n t' = archetype_exists n t.
Proof.
  intros E. apply eq_true_iff_eq. now rewrite !archetype_exists_In, E.
Qed.

Lemma fight_names_known_mono (t t' : Tables) :
  (forall n, archetype_exists n t = true -> archetype_exists n t' = true) ->
  (forall r, In r (Fights t') -> In r (Fights t)) ->
  fight_names_known t -> fight_names_known t'.
Proof.
  unfold fight_names_known. rewrite !Forall_forall. intros Hn Hf H r Hr.
  destruct (H r (Hf r Hr)). split; now apply Hn.
Qed.

Lemma update_shipname_name (new old : string) (r : Archetype) :
  a_shipname (update_shipname new old r) = subst_name new old (a_shipname r).
Proof. unfold update_shipname, subst_name. now destruct (String.eqb _ _). Qed.

Lemma update_shipname_id (new old : string) (r : Archetype) :
  a_id (update_shipname new old r) = a_id r.
Proof. unfold update_shipname. now destruct (String.eqb _ _). Qed.

Lemma renamed_names (new old : string) (t : Tables) :
  map a_shipname (Archetypes (renamed new old t))
  = map (subst_name new old) (map a_shipname (Archetypes t)).
Proof.
  unfold renamed; simpl. rewrite !map_map. apply map_ext.
  apply update_shipname_name.
Qed.

Lemma renamed_Fights (new old : string) (t : Tables) :
  Fights (renamed new old t)
  = map (fun r => update_shipname2 new old (update_shipname1 new old r))
      (Fights t).
Proof. unfold renamed; simpl. now rewrite map_map. Qed.

Lemma rename_fight_fields (new old : string) (r : Fight) :
  let r' := update_shipname2 new old (update_shipname1 new old r) in
  f_id r' = f_id r /\ f_author r' = f_author r
  /\ f_author_name r' = f_author_name r /\ f_result r' = f_result r
  /\ f_shipname1 r' = subst_name new old (f_shipname1 r)
  /\ f_shipname2 r' = subst_name new old (f_shipname2 r).
Proof.
  unfold update_shipname2, update_shipname1, subst_name.
  destruct (String.eqb (f_shipname1 r) old) eqn:E1; simpl;
    destruct (String.eqb (f_shipname2 r) old) eqn:E2; simpl;
    rewrite ?E1, ?E2; auto 10.
Qed.

Lemma subst_name_inj (new old n m : string) :
  n <> new -> m <> new -> subst_name new old n = subst_name new old m -> n = m.
Proof.
  unfold subst_name. intros Hn Hm.
  destruct (String.eqb_spec n old), (String.eqb_spec m old); congruence.
Qed.

Lemma NoDup_subst_name (new old : string) (l : list string) :
  NoDup l -> ~ In new l -> NoDup (map (subst_name new old) l).
Proof.
  induction l as [|a l IH]; simpl; intros H Hnew; [constructor|].
  inversion H as [|? ? Hn Hd]; subst. constructor.
  - intros Hin. apply in_map_iff in Hin as (b & Eb & Hb).
    apply subst_name_inj in Eb.
    + subst b. contradiction.
    + intros ->. tauto.
    + intros ->. tauto.
  - apply IH; tauto.
Qed.

(** No name equals [old] once [old] has been renamed to another name. *)
Lemma subst_name_not_old (new old n : string) :
  new <> old -> subst_name new old n <> old.
Proof.
  unfold subst_name. intros H. destruct (String.eqb_spec n old); congruence.
Qed.

Lemma fights_unique_renamed (new old : string) (t : Tables) :
  archetype_exists new t = false ->
  fight_names_known t ->
  fights_unique (Fights t) ->
  fights_unique (Fights (renamed new old t)).
Proof.
  intros Hnew Hk Hu a b y. rewrite renamed_Fights.
  eapply Nat.le_trans;
    [|apply (Hu (subst_name old new a) (subst_name old new b) y)].
  apply filter_map_length. intros r Hr Hm.
  unfold fight_names_known in Hk. rewrite Forall_forall in Hk.
  destruct (Hk r Hr) as [K1 K2].
  assert (N1 : f_shipname1 r <> new) by (intros E; rewrite E in K1; congruence).
  assert (N2 : f_shipname2 r <> new) by (intros E; rewrite E in K2; congruence).
  destruct (rename_fight_fields new old r) as (_ & Ex & _ & _ & E1 & E2).
  apply pair_author_match_spec in Hm. rewrite Ex, E1, E2 in Hm.
  apply pair_author_match_spec.
  assert (back : forall n, n <> new ->
            subst_name old new (subst_name new old n) = n).
  { intros n Hn. unfold subst_name.
    destruct (String.eqb_spec n old) as [->|Ho].
    - now rewrite String.eqb_refl.
    - destruct (String.eqb_spec n new); congruence. }
  destruct Hm as [Hy [[<- <-]|[<- <-]]]; rewrite !back by assumption; auto.
Qed.

(** * The invariant is kept by every statement *)

Lemma wf_delete_fight_pair (n1 n2 x : string) (t : Tables) :
  wf t -> wf (delete_fight_pair n1 n2 x t).
Proof.
  intros [Hn Hi Hk Hu]. split; simpl; trivial.
  - now apply NoDup_map_filter.
  - eapply fight_names_known_mono; [| |exact Hk]; simpl; trivial.
    intros r Hr. now apply filter_In in Hr.
  - now apply fights_unique_filter.
Qed.

Lemma wf_dedupe (n1 n2 x : string) (t : Tables) :
  wf t -> wf (dedupe n1 n2 x t).
Proof.
  intros [Hn Hi Hk Hu]. unfold dedupe.
  destruct (find _ _) as [r|]; [|now split].
  split; simpl; trivial.
  - now apply NoDup_map_filter.
  - eapply fight_names_known_mono; [| |exact Hk]; simpl; trivial.
    intros r' Hr. now apply filter_In in Hr.
  - now apply fights_unique_filter.
Qed.

Lemma wf_leaf_write (n1 n2 x an : string) (res : Z) (t : Tables) :
  wf t ->
  archetype_exists n1 t = true -> archetype_exists n2 t = true ->
  wf (leaf_write n1 n2 x an res t).
Proof.
  intros W E1 E2. assert (W' := wf_dedupe n1 n2 x t W).
  destruct W' as [Hn Hi Hk Hu]. split.
  - exact Hn.
  - unfold leaf_write; simpl. rewrite map_app; simpl.
    apply NoDup_app; [exact Hi | repeat constructor; intros [] |].
    intros i Hin [<-|[]]. now apply next_id_fresh in Hin.
  - unfold fight_names_known, leaf_write in *; simpl.
    apply Forall_app; split.
    + exact Hk.
    + constructor; [|constructor]. simpl.
      unfold archetype_exists in *; simpl.
      now rewrite dedupe_Archetypes.
  - apply fights_unique_leaf_write. now destruct W.
Qed.

Lemma wf_insert_archetype (n : string) (p : option Z) (d : option string)
  (t : Tables) :
  wf t -> archetype_exists n t = false -> wf (insert_archetype n p d t).
Proof.
  intros [Hn Hi Hk Hu] E. split; simpl; trivial.
  - rewrite map_app; simpl.
    apply NoDup_app; [exact Hn | repeat constructor; intros [] |].
    intros m Hin [<-|[]]. apply archetype_exists_In in Hin. congruence.
  - eapply fight_names_known_mono; [| |exact Hk]; simpl; trivial.
    intros m. rewrite !archetype_exists_In; simpl. rewrite map_app, in_app_iff.
    auto.
Qed.

Lemma wf_renamed (new old : string) (t : Tables) :
  wf t -> archetype_exists new t = false -> wf (renamed new old t).
Proof.
  intros [Hn Hi Hk Hu] E. split.
  - rewrite renamed_names. apply NoDup_subst_name; [exact Hn|].
    intros Hin. apply archetype_exists_In in Hin. congruence.
  - rewrite renamed_Fights, map_map.
    erewrite map_ext; [exact Hi|].
    intros r. apply (rename_fight_fields new old r).
  - unfold fight_names_known in *. rewrite renamed_Fights.
    apply Forall_map. eapply Forall_impl; [|exact Hk].
    intros r [K1 K2].
    destruct (rename_fight_fields new old r) as (_ & _ & _ & _ & E1 & E2).
    rewrite E1, E2.
    rewrite !archetype_exists_In in *. rewrite renamed_names.
    split; now apply in_map.
  - now apply fights_unique_renamed.
Qed.

(** An UPDATE that leaves the names of the archetypes alone. *)
Lemma wf_map_archetypes (f : Archetype -> Archetype) (t : Tables) :
  (forall r, a_shipname (f r) = a_shipname r) ->
  wf t -> wf (map_archetypes f t).
Proof.
  intros Hf [Hn Hi Hk Hu].
  assert (E : map a_shipname (Archetypes (map_archetypes f t))
              = map a_shipname (Archetypes t)).
  { simpl. rewrite map_map. now apply map_ext. }
  split; simpl; trivial.
  - simpl in E. now rewrite E.
  - eapply fight_names_known_mono; [| |exact Hk]; simpl; trivial.
    intros n. now rewrite (archetype_exists_same_names n t _ E).
Qed.

Lemma update_parentid_name (p : option Z) (n : string) (r : Archetype) :
  a_shipname (update_parentid p n r) = a_shipname r.
Proof. unfold update_parentid. now destruct (String.eqb _ _). Qed.

Lemma update_description_name (d n : string) (r : Archetype) :
  a_shipname (update_description d n r) = a_shipname r.
Proof. unfold update_description. now destruct (String.eqb _ _). Qed.

(** * The methods, step by step *)

(** One call of [insert_fight], by cases on what its queries return. *)
Lemma insert_fight_unfold (depth : nat) (n1 n2 x an : string) (res : Z)
  (s : FightDB) :
  insert_fight (S depth) n1 n2 x an res s =
  if negb (archetype_exists n1 (view s)) then (s, Raise (ShipDoesNotExist n1))
  else if negb (archetype_exists n2 (view s))
  then (s, Raise (ShipDoesNotExist n2))
  else
    match ship_is_leaf n1 (view s) with
    | Raise e => (s, Raise e)
    | Ok true =>
        match ship_is_leaf n2 (view s) with
        | Raise e => (s, Raise e)
        | Ok true =>
            let t' := leaf_write n1 n2 x an res (view s) in
            (mkFightDB t' t', Ok tt)
        | Ok false =>
            match archetypes_children n2 (view s) with
            | Raise e => (s, Raise e)
            | Ok children =>
                (for_each children
                   (fun ship => insert_fight depth n1 ship x an res) ;;;
                 commit) s
            end
        end
    | Ok false =>
        match archetypes_children n1 (view s) with
        | Raise e => (s, Raise e)
        | Ok children =>
            (for_each children
               (fun ship => insert_fight depth ship n2 x an res) ;;;
             commit) s
        end
    end.
Proof.
  simpl. unfold bind at 1. unfold query at 1. simpl.
  destruct (archetype_exists n1 (view s)); simpl; [|reflexivity].
  unfold bind at 1. unfold query at 1. simpl.
  destruct (archetype_exists n2 (view s)); simpl; [|reflexivity].
  unfold bind at 1. unfold bind at 1. unfold query at 1. simpl.
  destruct (ship_is_leaf n1 (view s)) as [[|]|e]; simpl; try reflexivity.
  - unfold bind at 1. unfold bind at 1. unfold query at 1. simpl.
    destruct (ship_is_leaf n2 (view s)) as [[|]|e]; simpl; try reflexivity.
    + unfold leaf_write, dedupe, bind, query, execute, commit, ret. simpl.
      destruct (find _ _); reflexivity.
    + unfold bind at 1. unfold bind at 1. unfold query at 1. simpl.
      destruct (archetypes_children n2 (view s)); reflexivity.
  - unfold bind at 1. unfold bind at 1. unfold query at 1. simpl.
    destruct (archetypes_children n1 (view s)); reflexivity.
Qed.

Lemma run_bind {A B} (m : M A) (k : A -> M B) (s : FightDB) :
  run (bind m k) s =
  match snd (m s) with
  | Ok a => run (k a) (run m s)
  | Raise _ => run m s
  end.
Proof. unfold run, bind. now destruct (m s) as [s' [a|e]]. Qed.

Lemma db_wf_commit (s : FightDB) : db_wf s -> db_wf (run commit s).
Proof. intros [W _]. now split. Qed.

Lemma db_wf_execute (f : Tables -> Tables) (s : FightDB) :
  db_wf s -> wf (f (view s)) -> db_wf (run (execute f) s).
Proof. intros [_ W] H. now split. Qed.

Lemma db_wf_for_each {A} (xs : list A) (body : A -> M unit) :
  (forall x s, db_wf s -> db_wf (run (body x) s)) ->
  forall s, db_wf s -> db_wf (run (for_each xs body) s).
Proof.
  intros Hb. induction xs as [|x xs IH]; intros s W; simpl; [exact W|].
  rewrite run_bind. destruct (snd (body x s)); auto.
Qed.

Lemma db_wf_insert_fight (depth : nat) :
  forall n1 n2 x an res s,
    db_wf s -> db_wf (run (insert_fight depth n1 n2 x an res) s).
Proof.
  induction depth as [|depth IH]; intros n1 n2 x an res s W; [exact W|].
  unfold run. rewrite insert_fight_unfold.
  destruct (archetype_exists n1 (view s)) eqn:E1; simpl; [|exact W].
  destruct (archetype_exists n2 (view s)) eqn:E2; simpl; [|exact W].
  assert (loop : forall cs (body : string -> M unit),
            (forall c s0, db_wf s0 -> db_wf (run (body c) s0)) ->
            db_wf (fst ((for_each cs body ;;; commit) s))).
  { intros cs body Hb. fold (run (for_each cs body ;;; commit) s).
    rewrite run_bind.
    assert (W' := db_wf_for_each cs body Hb s W).
    destruct (snd _); [now apply db_wf_commit | exact W']. }
  destruct (ship_is_leaf n1 (view s)) as [[|]|e]; simpl; try exact W.
  - destruct (ship_is_leaf n2 (view s)) as [[|]|e]; simpl; try exact W.
    + destruct W as [W _].
      assert (wf (leaf_write n1 n2 x an res (view s)))
        by now apply wf_leaf_write.
      now split.
    + destruct (archetypes_children n2 (view s)) as [cs|e]; simpl;
        [|exact W].
      apply loop. intros c s0. apply IH.
  - destruct (archetypes_children n1 (view s)) as [cs|e]; simpl; [|exact W].
    apply loop. intros c s0. apply IH.
Qed.

Lemma db_wf_remove_fight (n1 n2 x : string) (s : FightDB) :
  db_wf s -> db_wf (run (remove_fight n1 n2 x) s).
Proof.
  intros [W _]. unfold run, remove_fight, bind, execute, commit; simpl.
  assert (wf (delete_fight_pair n1 n2 x (view s)))
    by now apply wf_delete_fight_pair.
  now split.
Qed.

Lemma db_wf_add_ship (n : string) (p d : option string) (s : FightDB) :
  db_wf s -> db_wf (run (add_ship n p d) s).
Proof.
  intros W. unfold run, add_ship, bind, query, execute, commit, ret; simpl.
  destruct (archetype_exists n (view s)) eqn:E; simpl; [exact W|].
  destruct (get_ship_id p (view s)) as [i|e]; simpl; [|exact W].
  destruct W as [W _].
  assert (wf (insert_archetype n i d (view s)))
    by now apply wf_insert_archetype.
  now split.
Qed.

(** The three blocks of [rename_ship], by cases. *)
Lemma rename_new_name_run (old msg : string) (nn : option string)
  (s : FightDB) :
  rename_new_name old msg nn s =
  match nn with
  | None => (s, Ok (old, msg))
  | Some n =>
      if archetype_exists n (view s) then (s, Raise (ShipAlreadyExists n))
      else (mkFightDB (renamed n old (view s)) (committed s),
            Ok (n, msg ++ " renamed to " ++ n ++ ", "))
  end.
Proof.
  destruct nn as [n|]; [|reflexivity].
  unfold rename_new_name, bind, query; simpl.
  destruct (archetype_exists n (view s)); reflexivity.
Qed.

Lemma child_check_run (p : string) (cs : list string) (s : FightDB) :
  for_each cs
    (fun child => if String.eqb child p then raise ChildAsParent else ret tt) s
  = if existsb (fun child => String.eqb child p) cs
    then (s, Raise ChildAsParent) else (s, Ok tt).
Proof.
  induction cs as [|c cs IH]; simpl; [reflexivity|].
  unfold bind at 1. destruct (String.eqb c p); simpl; [reflexivity|exact IH].
Qed.

Lemma rename_new_parent_run (cur msg : string) (np : option string)
  (s : FightDB) :
  rename_new_parent cur msg np s =
  match np with
  | None => (s, Ok msg)
  | Some p =>
      if negb (archetype_exists p (view s))
      then (s, Raise (ShipDoesNotExist p))
      else if String.eqb p cur then (s, Raise OwnParent)
      else
        match archetypes_children cur (view s) with
        | Raise e => (s, Raise e)
        | Ok cs =>
            if existsb (fun child => String.eqb child p) cs
            then (s, Raise ChildAsParent)
            else
              match get_ship_id (Some p) (view s) with
              | Raise e => (s, Raise e)
              | Ok pid =>
                  (mkFightDB (map_archetypes (update_parentid pid cur) (view s))
                     (committed s),
                   Ok (msg ++ " parent changed to " ++ p ++ ", "))
              end
        end
  end.
Proof.
  destruct np as [p|]; [|reflexivity].
  unfold rename_new_parent. unfold bind at 1. unfold query at 1. simpl.
  destruct (archetype_exists p (view s)); simpl; [|reflexivity].
  destruct (String.eqb p cur); [reflexivity|].
  unfold bind at 1. unfold query at 1. simpl.
  destruct (archetypes_children cur (view s)) as [cs|e]; [|reflexivity].
  unfold bind at 1. rewrite child_check_run.
  destruct (existsb _ cs); [reflexivity|].
  unfold bind, query, execute, ret; simpl.
  destruct (find _ _); reflexivity.
Qed.

Lemma rename_new_description_run (old msg : string) (nd : option string)
  (s : FightDB) :
  rename_new_description old msg nd s =
  match nd with
  | None => (s, Ok msg)
  | Some d =>
      (mkFightDB (map_archetypes (update_description d old) (view s))
         (committed s),
       Ok (msg ++ " description changed to " ++ d))
  end.
Proof. destruct nd; reflexivity. Qed.

Lemma rename_ship_unfold (old : string) (nn np nd : option string)
  (s : FightDB) :
  rename_ship old nn np nd s =
  if negb (archetype_exists old (view s))
  then (s, Raise (ShipDoesNotExist old))
  else
    match rename_new_name old ("Changes of " ++ old ++ ": ") nn s with
    | (s1, Raise e) => (s1, Raise e)
    | (s1, Ok st) =>
        match rename_new_parent (fst st) (snd st) np s1 with
        | (s2, Raise e) => (s2, Raise e)
        | (s2, Ok msg) =>
            match rename_new_description old msg nd s2 with
            | (s3, Raise e) => (s3, Raise e)
            | (s3, Ok msg') => (mkFightDB (view s3) (view s3), Ok msg')
            end
        end
    end.
Proof.
  unfold rename_ship. unfold bind at 1. unfold query at 1. simpl.
  destruct (archetype_exists old (view s)); simpl; [|reflexivity].
  unfold bind at 1. destruct (rename_new_name _ _ _ _) as [s1 [st|e]];
    [|reflexivity].
  unfold bind at 1. destruct (rename_new_parent _ _ _ _) as [s2 [m|e]];
    [|reflexivity].
  unfold bind at 1. destruct (rename_new_description _ _ _ _) as [s3 [m'|e]];
    reflexivity.
Qed.

Lemma db_wf_rename_ship (old : string) (nn np nd : option string)
  (s : FightDB) :
  db_wf s -> db_wf (run (rename_ship old nn np nd) s).
Proof.
  intros W. unfold run. rewrite rename_ship_unfold.
  destruct (archetype_exists old (view s)) eqn:Eo; simpl; [|exact W].
  assert (W1 : db_wf (fst (rename_new_name old ("Changes of " ++ old ++ ": ")
                             nn s))).
  { rewrite rename_new_name_run. destruct nn as [n|]; [|exact W].
    destruct (archetype_exists n (view s)) eqn:En; [exact W|].
    destruct W as [Wv Wc]. split; simpl; [|exact Wc].
    now apply wf_renamed. }
  destruct (rename_new_name _ _ _ _) as [s1 [st|e]]; simpl in *; [|exact W1].
  assert (W2 : db_wf (fst (rename_new_parent (fst st) (snd st) np s1))).
  { rewrite rename_new_parent_run. destruct np as [p|]; [|exact W1].
    destruct (negb _); [exact W1|].
    destruct (String.eqb _ _); [exact W1|].
    destruct (archetypes_children _ _) as [cs|e]; [|exact W1].
    destruct (existsb _ _); [exact W1|].
    destruct (get_ship_id _ _) as [pid|e]; [|exact W1].
    destruct W1 as [Wv Wc]. split; simpl; [|exact Wc].
    apply wf_map_archetypes; [apply update_parentid_name|exact Wv]. }
  destruct (rename_new_parent _ _ _ _) as [s2 [m|e]]; simpl in *; [|exact W2].
  assert (W3 : wf (view (fst (rename_new_description old m nd s2)))).
  { rewrite rename_new_description_run. destruct nd as [d|]; simpl.
    - apply wf_map_archetypes; [apply update_description_name|apply W2].
    - apply W2. }
  destruct (rename_new_description _ _ _ _) as [s3 [m'|e]] eqn:E3;
    simpl in *.
  - now split.
  - rewrite rename_new_description_run in E3. destruct nd; discriminate.
Qed.

Lemma db_wf_step (o : op) (s : FightDB) : db_wf s -> db_wf (step o s).
Proof.
  destruct o; simpl.
  - apply db_wf_add_ship.
  - apply db_wf_insert_fight.
  - apply db_wf_remove_fight.
  - apply db_wf_rename_ship.
Qed.

Lemma db_wf_empty : db_wf empty_db.
Proof.
  assert (wf empty_tables).
  { split; simpl; [constructor | constructor | constructor |].
    intros a b x. simpl. lia. }
  now split.
Qed.

Lemma reachable_db_wf (s : FightDB) : reachable s -> db_wf s.
Proof.
  induction 1 as [|o s _ IH]; [apply db_wf_empty | now apply db_wf_step].
Qed.

(** * Queries read the Archetypes table only *)

Lemma archetype_exists_same (n : string) (t t' : Tables) :
  Archetypes t' = Archetypes t ->
  archetype_exists n t' = archetype_exists n t.
Proof. unfold archetype_exists. now intros ->. Qed.

Lemma ship_is_leaf_same (n : string) (t t' : Tables) :
  Archetypes t' = Archetypes t -> ship_is_leaf n t' = ship_is_leaf n t.
Proof. unfold ship_is_leaf, get_ship_id. now intros ->. Qed.

Lemma leaf_write_Archetypes (n1 n2 x an : string) (res : Z) (t : Tables) :
  Archetypes (leaf_write n1 n2 x an res t) = Archetypes t.
Proof. unfold leaf_write; simpl. apply dedupe_Archetypes. Qed.

Lemma get_ship_id_exists (n : string) (t : Tables) :
  archetype_exists n t = true <-> exists i, get_ship_id (Some n) t = Ok (Some i).
Proof.
  unfold get_ship_id, archetype_exists. split.
  - intros H. apply existsb_exists in H as (r & Hr & E).
    destruct (find _ _) as [r'|] eqn:Ef; [eauto|].
    rewrite (find_none _ _ Ef r Hr) in E. discriminate.
  - intros [i H]. destruct (find _ _) as [r|] eqn:Ef; [|discriminate].
    apply find_some in Ef as [Hr E]. apply existsb_exists. eauto.
Qed.

Lemma get_ship_id_missing (n : string) (t : Tables) :
  archetype_exists n t = false -> get_ship_id (Some n) t = Raise TypeError.
Proof.
  intros H. unfold get_ship_id.
  destruct (find _ _) as [r|] eqn:Ef; [|reflexivity].
  assert (archetype_exists n t = true).
  { apply get_ship_id_exists. unfold get_ship_id. rewrite Ef. eauto. }
  congruence.
Qed.

Lemma get_ship_id_raise (n : option string) (t : Tables) (e : exn) :
  get_ship_id n t = Raise e -> e = TypeError.
Proof.
  unfold get_ship_id. destruct n; [|discriminate].
  destruct (find _ _); [discriminate|]. now intros H; injection H as <-.
Qed.

Lemma archetypes_children_raise (n : string) (t : Tables) (e : exn) :
  archetypes_children n t = Raise e -> e = TypeError.
Proof.
  unfold archetypes_children.
  destruct (get_ship_id (Some n) t) eqn:E; [discriminate|].
  intros H; injection H as <-. now apply get_ship_id_raise in E.
Qed.

Lemma ship_is_leaf_exists (n : string) (b : bool) (t : Tables) :
  ship_is_leaf n t = Ok b -> archetype_exists n t = true.
Proof.
  intros H. destruct (archetype_exists n t) eqn:E; [reflexivity|].
  unfold ship_is_leaf in H. rewrite (get_ship_id_missing n t E) in H.
  discriminate.
Qed.

Lemma archetypes_children_exists (n : string) (cs : list string) (t : Tables) :
  archetypes_children n t = Ok cs -> archetype_exists n t = true.
Proof.
  intros H. destruct (archetype_exists n t) eqn:E; [reflexivity|].
  unfold archetypes_children in H. rewrite (get_ship_id_missing n t E) in H.
  discriminate.
Qed.

(** An archetype with a child is not a leaf. *)
Lemma archetypes_children_leaf (n : string) (cs : list string) (t : Tables) :
  archetypes_children n t = Ok cs ->
  ship_is_leaf n t = Ok (match cs with [] => true | _ => false end).
Proof.
  unfold archetypes_children, ship_is_leaf.
  destruct (get_ship_id (Some n) t) as [i|e]; [|discriminate].
  intros H. injection H as <-. f_equal.
  induction (Archetypes t) as [|r l IH]; simpl; [reflexivity|].
  destruct (sql_eqZ (a_parentid r) i); simpl; [reflexivity|exact IH].
Qed.

(** The children of an archetype have different names. *)
Lemma archetypes_children_NoDup (n : string) (cs : list string) (t : Tables) :
  NoDup (map a_shipname (Archetypes t)) ->
  archetypes_children n t = Ok cs -> NoDup cs.
Proof.
  unfold archetypes_children. intros Hn H.
  destruct (get_ship_id (Some n) t) as [i|e]; [|discriminate].
  injection H as <-. now apply NoDup_map_filter.
Qed.

(** * The leaf-against-leaf write *)

Lemma insert_fight_leaves (depth : nat) (n1 n2 x an : string) (res : Z)
  (s : FightDB) :
  ship_is_leaf n1 (view s) = Ok true ->
  ship_is_leaf n2 (view s) = Ok true ->
  insert_fight (S depth) n1 n2 x an res s =
  (mkFightDB (leaf_write n1 n2 x an res (view s))
     (leaf_write n1 n2 x an res (view s)), Ok tt).
Proof.
  intros L1 L2. rewrite insert_fight_unfold.
  rewrite (ship_is_leaf_exists _ _ _ L1), (ship_is_leaf_exists _ _ _ L2).
  simpl. now rewrite L1, L2.
Qed.

Lemma leaf_write_key (n1 n2 x an : string) (res : Z) (t : Tables) :
  fights_unique (Fights t) ->
  filter (pair_author_match n1 n2 x) (Fights (leaf_write n1 n2 x an res t))
  = [mkFight (next_id (map f_id (Fights (dedupe n1 n2 x t)))) n1 n2 x an res].
Proof.
  intros Hu. unfold leaf_write; simpl.
  rewrite filter_app, dedupe_clears by apply Hu. simpl.
  now rewrite pair_author_match_row.
Qed.

Lemma leaf_write_others (n1 n2 x an : string) (res : Z) (t : Tables)
  (q : Fight -> bool) :
  NoDup (map f_id (Fights t)) ->
  (forall r, pair_author_match n1 n2 x r = true -> q r = false) ->
  filter q (Fights (leaf_write n1 n2 x an res t)) = filter q (Fights t).
Proof.
  intros Hid Hq. unfold leaf_write; simpl.
  rewrite filter_app, dedupe_keeps_others by assumption. simpl.
  rewrite Hq by apply pair_author_match_row. apply app_nil_r.
Qed.

Lemma pair_author_match_other (c1 c2 b x : string) (r : Fight) :
  c1 <> c2 ->
  pair_author_match c2 b x r = true -> pair_author_match c1 b x r = false.
Proof.
  intros Hc H2. destruct (pair_author_match c1 b x r) eqn:H1; [|reflexivity].
  apply pair_author_match_spec in H1 as [_ H1].
  apply pair_author_match_spec in H2 as [_ H2].
  exfalso. apply Hc.
  destruct H1 as [[E1 E2]|[E1 E2]], H2 as [[E3 E4]|[E3 E4]]; congruence.
Qed.

(** * Reporting fights *)

(** C1.  In a reachable store, when the children of [p] are the two leaves
    [c1] and [c2] and [b] is a leaf, [insert_fight p b x an DRAW] returns
    normally and leaves exactly two rows for the pairs [{c1,b}] and [{c2,b}]
    of author [x]: the row [(c1, b, x, an, DRAW)] and the row
    [(c2, b, x, an, DRAW)]; every other row is as it was, and the result is
    committed. *)
Theorem insert_fight_fans_out (depth : nat) (s : FightDB)
  (p c1 c2 b x an : string) :
  reachable s ->
  archetypes_children p (view s) = Ok [c1; c2] ->
  ship_is_leaf c1 (view s) = Ok true ->
  ship_is_leaf c2 (view s) = Ok true ->
  ship_is_leaf b (view s) = Ok true ->
  exists s' i1 i2,
    insert_fight (S (S depth)) p b x an FIGHT_RESULT.DRAW s = (s', Ok tt)
    /\ filter (fun r => pair_author_match c1 b x r || pair_author_match c2 b x r)
         (Fights (view s'))
       = [mkFight i1 c1 b x an FIGHT_RESULT.DRAW;
          mkFight i2 c2 b x an FIGHT_RESULT.DRAW]
    /\ filter (fun r => negb (pair_author_match c1 b x r
                              || pair_author_match c2 b x r))
         (Fights (view s'))
       = filter (fun r => negb (pair_author_match c1 b x r
                                || pair_author_match c2 b x r))
           (Fights (view s))
    /\ committed s' = view s'.
Proof.
  intros R Hc L1 L2 Lb.
  destruct (reachable_db_wf s R) as [W _].
  assert (Hne : c1 <> c2).
  { assert (Hd := archetypes_children_NoDup p _ _ (wf_names _ W) Hc).
    inversion Hd as [|? ? Hn _]; subst. intros ->. apply Hn. now left. }
  set (t1 := leaf_write c1 b x an FIGHT_RESULT.DRAW (view s)).
  set (t2 := leaf_write c2 b x an FIGHT_RESULT.DRAW t1).
  assert (A1 : Archetypes t1 = Archetypes (view s))
    by apply leaf_write_Archetypes.
  assert (W1 : wf t1).
  { apply wf_leaf_write; [exact W| |]; eapply ship_is_leaf_exists; eauto. }
  exists (mkFightDB t2 t2).
  exists (next_id (map f_id (Fights (dedupe c1 b x (view s))))).
  exists (next_id (map f_id (Fights (dedupe c2 b x t1)))).
  split; [|split; [|split]].
  - rewrite insert_fight_unfold.
    rewrite (archetypes_children_exists _ _ _ Hc).
    rewrite (ship_is_leaf_exists _ _ _ Lb).
    rewrite (archetypes_children_leaf _ _ _ Hc), Hc.
    cbv beta iota delta [negb for_each].
    unfold bind.
    rewrite (insert_fight_leaves depth c1 b x an _ s L1 Lb). fold t1.
    rewrite (insert_fight_leaves depth c2 b x an _ (mkFightDB t1 t1)).
    + reflexivity.
    + simpl. now rewrite (ship_is_leaf_same c2 _ _ A1).
    + simpl. now rewrite (ship_is_leaf_same b _ _ A1).
  - cbn [view]. unfold t2, leaf_write at 1, insert_fight_row. cbn [Fights].
    rewrite filter_app. cbn [filter].
    rewrite pair_author_match_row, orb_true_r.
    assert (E2 : filter (pair_author_match c2 b x) (Fights (dedupe c2 b x t1))
                 = []) by (apply dedupe_clears, (wf_unique _ W1)).
    rewrite (filter_ext_in _ (pair_author_match c1 b x)).
    + rewrite dedupe_keeps_others.
      * unfold t1. rewrite leaf_write_key by apply (wf_unique _ W).
        reflexivity.
      * apply (wf_ids _ W1).
      * intros r. now apply pair_author_match_other.
    + intros r Hr. rewrite (filter_nil_inv _ _ r E2 Hr). apply orb_false_r.
  - cbn [view]. unfold t2. rewrite leaf_write_others.
    + unfold t1. rewrite leaf_write_others; [reflexivity|apply (wf_ids _ W)|].
      intros r ->. reflexivity.
    + apply (wf_ids _ W1).
    + intros r ->. now rewrite orb_true_r.
  - reflexivity.
Qed.

Lemma insert_fight_fans_out_witness :
  exists s' i1 i2,
    insert_fight 2 "Corvette" "Destroyer" "u1" "Alice" FIGHT_RESULT.DRAW
      fleet_db = (s', Ok tt)
    /\ filter (fun r => pair_author_match "RaiderMk1" "Destroyer" "u1" r
                        || pair_author_match "RaiderMk2" "Destroyer" "u1" r)
         (Fights (view s'))
       = [mkFight i1 "RaiderMk1" "Destroyer" "u1" "Alice" FIGHT_RESULT.DRAW;
          mkFight i2 "RaiderMk2" "Destroyer" "u1" "Alice" FIGHT_RESULT.DRAW]
    /\ filter (fun r => negb (pair_author_match "RaiderMk1" "Destroyer" "u1" r
                              || pair_author_match "RaiderMk2" "Destroyer"
                                   "u1" r))
         (Fights (view s'))
       = filter (fun r => negb (pair_author_match "RaiderMk1" "Destroyer"
                                  "u1" r
                                || pair_author_match "RaiderMk2" "Destroyer"
                                     "u1" r))
           (Fights (view fleet_db))
    /\ committed s' = view s'.
Proof.
  apply (insert_fight_fans_out 0 fleet_db "Corvette" "RaiderMk1" "RaiderMk2"
           "Destroyer" "u1" "Alice").
  - unfold fleet_db. repeat apply reachable_step. apply reachable_empty.
  - reflexivity.
  - reflexivity.
  - reflexivity.
  - reflexivity.
Defined.

(** C2.  In a reachable store, for leaves [a] and [b] and an author [x],
    [insert_fight a b x _ WIN] followed by [insert_fight b a x _ WIN] both
    return normally and leave exactly one row for the pair [{a,b}] of author
    [x], the row [(b, a, x, _, WIN)] of the second report, which stores [b]
    as the winner. *)
Theorem insert_fight_supersedes (d1 d2 : nat) (s : FightDB)
  (a b x an1 an2 : string) :
  reachable s ->
  ship_is_leaf a (view s) = Ok true ->
  ship_is_leaf b (view s) = Ok true ->
  exists s1 s2 i,
    insert_fight (S d1) a b x an1 FIGHT_RESULT.WIN s = (s1, Ok tt)
    /\ insert_fight (S d2) b a x an2 FIGHT_RESULT.WIN s1 = (s2, Ok tt)
    /\ filter (pair_author_match a b x) (Fights (view s2))
       = [mkFight i b a x an2 FIGHT_RESULT.WIN]
    /\ committed s2 = view s2.
Proof.
  intros R La Lb.
  destruct (reachable_db_wf s R) as [W _].
  set (t1 := leaf_write a b x an1 FIGHT_RESULT.WIN (view s)).
  set (t2 := leaf_write b a x an2 FIGHT_RESULT.WIN t1).
  assert (A1 : Archetypes t1 = Archetypes (view s))
    by apply leaf_write_Archetypes.
  assert (W1 : wf t1).
  { apply wf_leaf_write; [exact W| |]; eapply ship_is_leaf_exists; eauto. }
  exists (mkFightDB t1 t1), (mkFightDB t2 t2).
  exists (next_id (map f_id (Fights (dedupe b a x t1)))).
  split; [|split; [|split]].
  - now apply insert_fight_leaves.
  - apply insert_fight_leaves; simpl.
    + now rewrite (ship_is_leaf_same b _ _ A1).
    + now rewrite (ship_is_leaf_same a _ _ A1).
  - simpl. rewrite (filter_ext _ _ (pair_author_match_sym a b x)).
    unfold t2. apply leaf_write_key, (wf_unique _ W1).
  - reflexivity.
Qed.

Lemma insert_fight_supersedes_witness :
  exists s1 s2 i,
    insert_fight 1 "RaiderMk1" "Destroyer" "u1" "Alice" FIGHT_RESULT.WIN
      fleet_fought_db = (s1, Ok tt)
    /\ insert_fight 1 "Destroyer" "RaiderMk1" "u1" "Al" FIGHT_RESULT.WIN s1
       = (s2, Ok tt)
    /\ filter (pair_author_match "RaiderMk1" "Destroyer" "u1")
         (Fights (view s2))
       = [mkFight i "Destroyer" "RaiderMk1" "u1" "Al" FIGHT_RESULT.WIN]
    /\ committed s2 = view s2.
Proof.
  apply (insert_fight_supersedes 0 0 fleet_fought_db "RaiderMk1" "Destroyer"
           "u1" "Alice" "Al").
  - unfold fleet_fought_db, fleet_db. repeat apply reachable_step.
    apply reachable_empty.
  - reflexivity.
  - reflexivity.
Defined.

(** C3.  In every state reachable by add, reportFight, removeFight and rename
    calls (whatever they return or raise), the Fights table holds at most one
    row per unordered pair of names per author, in the connection's view and
    in what is committed; in particular a further rename, with its rewrite of
    the old name to the new one in the Fight rows, keeps it so. *)
Theorem fights_unique_reachable (s : FightDB) :
  reachable s ->
  fights_unique (Fights (view s))
  /\ fights_unique (Fights (committed s))
  /\ forall old nn np nd,
       fights_unique (Fights (view (run (rename_ship old nn np nd) s))).
Proof.
  intros R. split; [|split].
  - apply (reachable_db_wf s R).
  - apply (reachable_db_wf s R).
  - intros old nn np nd.
    apply (reachable_db_wf _ (reachable_step (Rename old nn np nd) s R)).
Qed.

Lemma fights_unique_reachable_witness :
  fights_unique (Fights (view fleet_fought_db))
  /\ fights_unique (Fights (committed fleet_fought_db))
  /\ forall old nn np nd,
       fights_unique
         (Fights (view (run (rename_ship old nn np nd) fleet_fought_db))).
Proof.
  apply (fights_unique_reachable fleet_fought_db).
  unfold fleet_fought_db, fleet_db. repeat apply reachable_step.
  apply reachable_empty.
Defined.

(** * The hierarchy *)

Lemma chain_db_links (c p : Z) :
  parent_link (view chain_db) c p -> (c = 2 /\ p = 1) \/ (c = 3 /\ p = 2).
Proof.
  intros (r & Hr & Hc & Hp). vm_compute in Hr.
  destruct Hr as [<-|[<-|[<-|[]]]]; simpl in *; try discriminate;
    injection Hp as <-; subst; auto.
Qed.

Lemma chain_db_ancestor (c p : Z) : ancestor (view chain_db) c p -> p < c.
Proof.
  induction 1 as [c p H|c m p H _ IH].
  - apply chain_db_links in H. lia.
  - apply chain_db_links in H. lia.
Qed.

(** C4.  The store with [C] under [B] under [A], built by three adds, is a
    forest; [rename_ship A (new_parent_name = C)] is accepted there, because
    [C] is neither [A] nor a direct child of [A], and it makes [A] its own
    ancestor: the state it leaves and commits is not a forest. *)
Theorem rename_ship_closes_cycle :
  reachable chain_db
  /\ forest (view chain_db)
  /\ exists s' msg,
       rename_ship "A" None (Some "C") None chain_db = (s', Ok msg)
       /\ ancestor (view s') 1 1
       /\ ~ forest (view s')
       /\ committed s' = view s'.
Proof.
  split; [|split].
  - unfold chain_db. repeat apply reachable_step. apply reachable_empty.
  - intros i H. apply chain_db_ancestor in H. lia.
  - eexists. eexists. split; [vm_compute; reflexivity|].
    assert (A : ancestor
                  (mkTables
                     [mkArchetype 1 "A" (Some 3) None;
                      mkArchetype 2 "B" (Some 1) None;
                      mkArchetype 3 "C" (Some 2) None] []) 1 1).
    { apply ancestor_step with 3;
        [exists (mkArchetype 1 "A" (Some 3) None); simpl; auto|].
      apply ancestor_step with 2;
        [exists (mkArchetype 3 "C" (Some 2) None); simpl; auto|].
      apply ancestor_parent.
      exists (mkArchetype 2 "B" (Some 1) None); simpl; auto. }
    split; [exact A|]. split; [|reflexivity].
    intros F. exact (F 1 A).
Qed.

(** What the two checks of the parent block do reject: the archetype itself
    and its direct children, before any statement runs. *)
Lemma rename_ship_rejects_direct_cycle (s : FightDB) (old p : string)
  (nd : option string) (cs : list string) :
  archetypes_children old (view s) = Ok cs ->
  p = old \/ In p cs ->
  exists e, rename_ship old None (Some p) nd s = (s, Raise e)
            /\ is_InvalidHierarchy e = true.
Proof.
  intros Hc Hp.
  assert (Eo := archetypes_children_exists _ _ _ Hc).
  assert (Ep : archetype_exists p (view s) = true).
  { destruct Hp as [->|Hp]; [exact Eo|].
    apply archetype_exists_In. unfold archetypes_children in Hc.
    destruct (get_ship_id _ _); [|discriminate]. injection Hc as <-.
    apply in_map_iff in Hp as (r & <- & Hr). apply filter_In in Hr as [Hr _].
    now apply in_map. }
  rewrite rename_ship_unfold, rename_new_name_run, Eo. cbn [negb fst snd].
  rewrite rename_new_parent_run, Ep, Hc. cbn [negb].
  destruct (String.eqb_spec p old) as [E|E]; [exists OwnParent; auto|].
  destruct Hp as [Hp|Hp]; [contradiction|].
  assert (X : existsb (fun child => String.eqb child p) cs = true).
  { apply existsb_exists. exists p. split; [exact Hp|apply String.eqb_refl]. }
  rewrite X. exists ChildAsParent. auto.
Qed.

(** * Errors of rename *)

(** C5, as stated, fails: with a new name and that same name as new parent,
    [rename_ship] raises "Ship cant be its own parent" after the three
    UPDATEs of the rename have run; both tables of the connection differ from
    those before the call, and the next commit makes the change durable. *)
Lemma rename_ship_raises_after_rename :
  exists s' e,
    rename_ship "Destroyer" (Some "Cruiser") (Some "Cruiser") None
      fleet_fought_db = (s', Raise e)
    /\ is_InvalidHierarchy e = true
    /\ Archetypes (view s') <> Archetypes (view fleet_fought_db)
    /\ Fights (view s') <> Fights (view fleet_fought_db)
    /\ committed (run (add_ship "Scout" None None) s')
       = view (run (add_ship "Scout" None None) s')
    /\ Fights (committed (run (add_ship "Scout" None None) s'))
       = Fights (view s').
Proof.
  eexists. eexists. split; [vm_compute; reflexivity|].
  split; [reflexivity|].
  split; [vm_compute; discriminate|].
  split; [vm_compute; discriminate|].
  split; vm_compute; reflexivity.
Qed.

(** C5, amended.  Whenever [rename_ship] raises one of the two hierarchy
    errors, nothing has been committed; when no new name was given the tables
    of the connection are those before the call, and when one was given they
    are those after the rename of the old name to the new one, with no other
    change. *)
Theorem rename_ship_invalid_hierarchy (s s' : FightDB) (old : string)
  (nn np nd : option string) (e : exn) :
  rename_ship old nn np nd s = (s', Raise e) ->
  is_InvalidHierarchy e = true ->
  committed s' = committed s
  /\ view s' = match nn with
               | None => view s
               | Some n => renamed n old (view s)
               end.
Proof.
  rewrite rename_ship_unfold, rename_new_name_run.
  destruct (negb _); [intros H; injection H as <- <-; discriminate|].
  assert (P : forall cur msg s1,
            match rename_new_parent cur msg np s1 with
            | (s2, Raise e2) => s2 = s1
            | (s2, Ok m) =>
                match rename_new_description old m nd s2 with
                | (_, Raise _) => False
                | (_, Ok _) => True
                end
            end).
  { intros cur msg s1. rewrite rename_new_parent_run.
    assert (D : forall m s2,
              match rename_new_description old m nd s2 with
              | (_, Raise _) => False
              | (_, Ok _) => True
              end).
    { intros m s2. rewrite rename_new_description_run. now destruct nd. }
    destruct np as [p|]; [|apply D].
    destruct (negb _); [reflexivity|].
    destruct (String.eqb _ _); [reflexivity|].
    destruct (archetypes_children _ _); [|reflexivity].
    destruct (existsb _ _); [reflexivity|].
    destruct (get_ship_id _ _); [apply D|reflexivity]. }
  destruct nn as [n|].
  - destruct (archetype_exists n (view s)).
    + intros H; injection H as <- <-; discriminate.
    + cbn [fst snd].
      match goal with
      | |- context [rename_new_parent ?c ?m np ?s1] =>
          specialize (P c m s1);
          destruct (rename_new_parent c m np s1) as [s2 [m2|e2]]
      end.
      * destruct (rename_new_description _ _ _ _) as [s3 [m3|e3]];
          [discriminate|destruct P].
      * intros H _. injection H as <- <-. subst s2. now split.
  - cbn [fst snd].
    match goal with
    | |- context [rename_new_parent ?c ?m np ?s1] =>
        specialize (P c m s1);
        destruct (rename_new_parent c m np s1) as [s2 [m2|e2]]
    end.
    + destruct (rename_new_description _ _ _ _) as [s3 [m3|e3]];
        [discriminate|destruct P].
    + intros H _. injection H as <- <-. subst s2. now split.
Qed.

Lemma rename_ship_invalid_hierarchy_witness :
  committed (run (rename_ship "Corvette" (Some "Frigate") (Some "RaiderMk1")
                    None) fleet_fought_db)
  = committed fleet_fought_db
  /\ view (run (rename_ship "Corvette" (Some "Frigate") (Some "RaiderMk1")
                  None) fleet_fought_db)
     = renamed "Frigate" "Corvette" (view fleet_fought_db).
Proof.
  apply (rename_ship_invalid_hierarchy fleet_fought_db _ "Corvette"
           (Some "Frigate") (Some "RaiderMk1") None ChildAsParent).
  - vm_compute. reflexivity.
  - reflexivity.
Defined.

(** C6, as stated, fails: renaming an existing archetype to its own name
    raises "already exists", the Conflict error, and changes nothing. *)
Lemma rename_ship_own_name_conflict :
  rename_ship "Destroyer" (Some "Destroyer") None None fleet_db
  = (fleet_db, Raise (ShipAlreadyExists "Destroyer"))
  /\ is_Conflict (ShipAlreadyExists "Destroyer") = true.
Proof. split; vm_compute; reflexivity. Qed.

(** C6, amended.  [rename_ship old (new_name = n)] raises the Conflict error
    exactly when [old] exists and [n] is the name of an archetype, [old]
    itself included; the error names [n] and nothing has changed.  So for
    every existing archetype [a], renaming [a] to [a] raises Conflict. *)
Theorem rename_ship_conflict (s : FightDB) (old n : string)
  (np nd : option string) :
  ((exists s' e, rename_ship old (Some n) np nd s = (s', Raise e)
                 /\ is_Conflict e = true)
   <-> archetype_exists old (view s) = true
       /\ archetype_exists n (view s) = true)
  /\ (archetype_exists old (view s) && archetype_exists n (view s) = true ->
      rename_ship old (Some n) np nd s = (s, Raise (ShipAlreadyExists n)))
  /\ (archetype_exists n (view s) = true ->
      rename_ship n (Some n) np nd s = (s, Raise (ShipAlreadyExists n))).
Proof.
  assert (F : archetype_exists old (view s) = true ->
              archetype_exists n (view s) = true ->
              rename_ship old (Some n) np nd s
              = (s, Raise (ShipAlreadyExists n))).
  { intros Eo En.
    rewrite rename_ship_unfold, rename_new_name_run, Eo, En. reflexivity. }
  split; [split|split].
  - intros (s' & e & H & Hc).
    rewrite rename_ship_unfold, rename_new_name_run in H.
    destruct (archetype_exists old (view s)); simpl in H;
      [|injection H as <- <-; discriminate].
    split; [reflexivity|].
    destruct (archetype_exists n (view s)); [reflexivity|].
    exfalso. cbn [fst snd] in H.
    rewrite rename_new_parent_run in H.
    destruct np as [p|].
    + destruct (negb _); [injection H as <- <-; discriminate|].
      destruct (String.eqb _ _); [injection H as <- <-; discriminate|].
      destruct (archetypes_children _ _) as [cs|e1] eqn:Ec.
      * destruct (existsb _ _); [injection H as <- <-; discriminate|].
        destruct (get_ship_id _ _) as [pid|e2] eqn:Eg.
        -- rewrite rename_new_description_run in H.
           destruct nd; discriminate.
        -- injection H as <- <-.
           apply get_ship_id_raise in Eg. subst. discriminate.
      * injection H as <- <-.
        apply archetypes_children_raise in Ec. subst. discriminate.
    + rewrite rename_new_description_run in H. destruct nd; discriminate.
  - intros [Eo En]. exists s, (ShipAlreadyExists n). split; [now apply F|].
    reflexivity.
  - intros H. apply andb_true_iff in H as [Eo En]. now apply F.
  - intros En. rewrite rename_ship_unfold, rename_new_name_run, En.
    reflexivity.
Qed.

Lemma rename_ship_conflict_witness :
  rename_ship "Corvette" (Some "Destroyer") None None fleet_db
  = (fleet_db, Raise (ShipAlreadyExists "Destroyer")).
Proof.
  apply (proj1 (proj2 (rename_ship_conflict fleet_db "Corvette" "Destroyer"
                         None None))).
  reflexivity.
Defined.

(** * Leaves *)

(** C7.  For a name that no archetype has, [ship_is_leaf] does not return:
    [get_ship_id] subscripts the [None] that [fetchone] gave and the
    TypeError reaches the caller. *)
Theorem ship_is_leaf_unknown_name (t : Tables) (name : string) :
  archetype_exists name t = false ->
  get_ship_id (Some name) t = Raise TypeError
  /\ ship_is_leaf name t = Raise TypeError.
Proof.
  intros H. assert (G := get_ship_id_missing name t H).
  split; [exact G|]. unfold ship_is_leaf. now rewrite G.
Qed.

Lemma ship_is_leaf_unknown_name_witness :
  get_ship_id (Some "Ghost") (view fleet_db) = Raise TypeError
  /\ ship_is_leaf "Ghost" (view fleet_db) = Raise TypeError.
Proof.
  apply (ship_is_leaf_unknown_name (view fleet_db) "Ghost"). reflexivity.
Defined.

(** * The majority prediction *)

Lemma filter_length_split {A : Type} (f g h : A -> bool) (l : list A) :
  (forall a, f a = g a || h a) ->
  (forall a, g a && h a = false) ->
  List.length (filter f l)
  = (List.length (filter g l) + List.length (filter h l))%nat.
Proof.
  intros Hf Hd. induction l as [|a l IH]; simpl; [reflexivity|].
  rewrite Hf. specialize (Hd a).
  destruct (g a), (h a); simpl in *; try discriminate; lia.
Qed.

Lemma count_fights_wins (a b : string) (t : Tables) :
  count_fights a b 1 t = Z.of_nat (wins_over a b t).
Proof. reflexivity. Qed.

(** The draw count of the code is the number of draw rows between the two
    names, counted twice when the two names are the same. *)
Lemma count_fights_draws (a b : string) (t : Tables) :
  count_fights a b 0 t + count_fights b a 0 t
  = if String.eqb a b then 2 * Z.of_nat (draws_between a b t)
    else Z.of_nat (draws_between a b t).
Proof.
  unfold count_fights, draws_between.
  destruct (String.eqb_spec a b) as [->|Hab].
  - rewrite (filter_ext
               (fun r => Z.eqb (f_result r) FIGHT_RESULT.DRAW
                         && ((String.eqb (f_shipname1 r) b
                              && String.eqb (f_shipname2 r) b)
                             || (String.eqb (f_shipname1 r) b
                                 && String.eqb (f_shipname2 r) b)))
               (fun r => String.eqb (f_shipname1 r) b
                         && String.eqb (f_shipname2 r) b
                         && Z.eqb (f_result r) 0)).
    + lia.
    + intros r. rewrite orb_diag. apply andb_comm.
  - rewrite <- Nat2Z.inj_add. f_equal. symmetry.
    apply filter_length_split.
    + intros r. unfold FIGHT_RESULT.DRAW.
      destruct (Z.eqb (f_result r) 0); simpl;
        [now rewrite !andb_true_r | now rewrite !andb_false_r].
    + intros r.
      destruct (String.eqb_spec (f_shipname1 r) a) as [E1|E1]; simpl;
        [|reflexivity].
      destruct (String.eqb_spec (f_shipname2 r) b) as [E2|E2]; simpl;
        [|reflexivity].
      destruct (String.eqb_spec (f_shipname1 r) b) as [E3|E3]; simpl;
        [congruence|]. now rewrite andb_false_r.
Qed.

(** C8.  [get_average_match n1 n2] is 1 (WIN) exactly when the rows storing
    [n1] as winner over [n2] strictly outnumber both the rows storing [n2] as
    winner over [n1] and the draw rows between the two; it is -1 (LOSE)
    exactly when the rows storing [n2] as winner are strictly the most; it is
    0 (DRAW) in every other case, so it is the majority prediction of the
    specification.  With [A] over [B] stored twice, [B] over [A] once and no
    draw, the prediction for [A] against [B] is WIN. *)
Theorem get_average_match_majority :
  (forall (t : Tables) (n1 n2 : string),
      (get_average_match n1 n2 t = FIGHT_RESULT.WIN
       <-> (wins_over n2 n1 t < wins_over n1 n2 t
            /\ draws_between n1 n2 t < wins_over n1 n2 t)%nat)
      /\ (get_average_match n1 n2 t = FIGHT_RESULT.LOSE
          <-> (wins_over n1 n2 t < wins_over n2 n1 t
               /\ draws_between n1 n2 t < wins_over n2 n1 t)%nat)
      /\ (get_average_match n1 n2 t = FIGHT_RESULT.DRAW
          <-> ~ (wins_over n2 n1 t < wins_over n1 n2 t
                 /\ draws_between n1 n2 t < wins_over n1 n2 t)%nat
              /\ ~ (wins_over n1 n2 t < wins_over n2 n1 t
                    /\ draws_between n1 n2 t < wins_over n2 n1 t)%nat)
      /\ get_average_match n1 n2 t = majority_prediction n1 n2 t)
  /\ map (fun r => (f_shipname1 r, f_shipname2 r, f_result r))
       (Fights (view tally_db))
     = [("A", "B", FIGHT_RESULT.WIN); ("A", "B", FIGHT_RESULT.WIN);
        ("B", "A", FIGHT_RESULT.WIN)]
  /\ get_average_match "A" "B" (view tally_db) = FIGHT_RESULT.WIN.
Proof.
  split; [|split; reflexivity].
  intros t n1 n2.
  unfold get_average_match, majority_prediction.
  rewrite count_fights_draws, !count_fights_wins.
  unfold FIGHT_RESULT.WIN, FIGHT_RESULT.LOSE, FIGHT_RESULT.DRAW.
  set (w := wins_over n1 n2 t). set (d := draws_between n1 n2 t).
  assert (Hl : String.eqb n1 n2 = true -> wins_over n2 n1 t = w).
  { intros E. apply String.eqb_eq in E. subst n2. reflexivity. }
  set (l := wins_over n2 n1 t) in *.
  rewrite !Z.gtb_ltb.
  destruct (String.eqb n1 n2).
  - rewrite (Hl eq_refl).
    rewrite !Z.ltb_irrefl, !Nat.ltb_irrefl. simpl.
    repeat split; intros; try discriminate; lia.
  - destruct (Z.ltb_spec (Z.of_nat l) (Z.of_nat w)),
      (Z.ltb_spec (Z.of_nat d) (Z.of_nat w)),
      (Z.ltb_spec (Z.of_nat w) (Z.of_nat l)),
      (Z.ltb_spec (Z.of_nat d) (Z.of_nat l)),
      (Nat.ltb_spec l w), (Nat.ltb_spec d w),
      (Nat.ltb_spec w l), (Nat.ltb_spec d l);
      simpl; try lia;
      repeat split; intros; try discriminate; try lia.
Qed.

(** * Renaming *)

Lemma rename_ship_name_only (s : FightDB) (old n : string) :
  archetype_exists old (view s) = true ->
  archetype_exists n (view s) = false ->
  rename_ship old (Some n) None None s
  = (mkFightDB (renamed n old (view s)) (renamed n old (view s)),
     Ok (("Changes of " ++ old ++ ": ") ++ " renamed to " ++ n ++ ", ")).
Proof.
  intros Eo En. rewrite rename_ship_unfold, rename_new_name_run, Eo, En.
  reflexivity.
Qed.

Lemma subst_name_round (a b n : string) :
  subst_name a b (subst_name b a n) = if String.eqb n b then a else n.
Proof.
  unfold subst_name.
  destruct (String.eqb_spec n a) as [->|Ha].
  - rewrite String.eqb_refl. now destruct (String.eqb_spec a b).
  - reflexivity.
Qed.

Lemma update_shipname_round (a b : string) (r : Archetype) :
  a_shipname r <> b ->
  update_shipname a b (update_shipname b a r) = r.
Proof.
  intros Hb. destruct r as [i n p d]. simpl in Hb.
  unfold update_shipname; simpl.
  destruct (String.eqb_spec n a) as [->|Ha]; simpl.
  - now rewrite String.eqb_refl.
  - now destruct (String.eqb_spec n b).
Qed.

Lemma rename_fight_round (a b : string) (r : Fight) :
  f_shipname1 r <> b -> f_shipname2 r <> b ->
  update_shipname2 a b
    (update_shipname1 a b (update_shipname2 b a (update_shipname1 b a r))) = r.
Proof.
  intros H1 H2.
  assert (F := rename_fight_fields a b
                 (update_shipname2 b a (update_shipname1 b a r))).
  assert (G := rename_fight_fields b a r).
  cbv zeta in F, G.
  destruct F as (F1 & F2 & F3 & F4 & F5 & F6).
  destruct G as (G1 & G2 & G3 & G4 & G5 & G6).
  rewrite G5 in F5. rewrite G6 in F6.
  rewrite subst_name_round in F5, F6.
  destruct (String.eqb_spec (f_shipname1 r) b); [contradiction|].
  destruct (String.eqb_spec (f_shipname2 r) b); [contradiction|].
  destruct (update_shipname2 a b _) as [i s1 s2 x an res].
  destruct r as [i' s1' s2' x' an' res']. simpl in *. congruence.
Qed.

(** C9.  For an existing archetype [a] and a name [b] that no archetype has,
    [rename_ship a (new_name = b)] and then [rename_ship b (new_name = a)]
    both return normally; afterwards the Archetypes table is as before, each
    Fight row is the row it was with every side that named [a] naming [a]
    again, and when all Fight rows named archetypes (as in every reachable
    state) the Fights table is as before. *)
Theorem rename_ship_round_trip (s : FightDB) (a b : string) :
  archetype_exists a (view s) = true ->
  archetype_exists b (view s) = false ->
  exists s1 s2 m1 m2,
    rename_ship a (Some b) None None s = (s1, Ok m1)
    /\ rename_ship b (Some a) None None s1 = (s2, Ok m2)
    /\ Archetypes (view s2) = Archetypes (view s)
    /\ Forall2
         (fun r r' =>
            f_id r' = f_id r /\ f_author r' = f_author r
            /\ f_author_name r' = f_author_name r /\ f_result r' = f_result r
            /\ (f_shipname1 r = a -> f_shipname1 r' = a)
            /\ (f_shipname2 r = a -> f_shipname2 r' = a)
            /\ (f_shipname1 r <> b -> f_shipname1 r' = f_shipname1 r)
            /\ (f_shipname2 r <> b -> f_shipname2 r' = f_shipname2 r))
         (Fights (view s)) (Fights (view s2))
    /\ (fight_names_known (view s) -> Fights (view s2) = Fights (view s)).
Proof.
  intros Ea Eb.
  assert (Hab : a <> b) by (intros ->; congruence).
  set (t1 := renamed b a (view s)).
  set (t2 := renamed a b t1).
  assert (Eb1 : archetype_exists b t1 = true).
  { apply archetype_exists_In. unfold t1. rewrite renamed_names.
    apply archetype_exists_In in Ea.
    apply (in_map (subst_name b a)) in Ea.
    unfold subst_name at 1 in Ea. now rewrite String.eqb_refl in Ea. }
  assert (Ea1 : archetype_exists a t1 = false).
  { destruct (archetype_exists a t1) eqn:E; [|reflexivity].
    apply archetype_exists_In in E. unfold t1 in E.
    rewrite renamed_names in E. apply in_map_iff in E as (n & En & _).
    exfalso. revert En. apply subst_name_not_old. congruence. }
  exists (mkFightDB t1 t1), (mkFightDB t2 t2). eexists. eexists.
  split; [now apply rename_ship_name_only|].
  split; [now apply rename_ship_name_only|].
  cbn [view]. unfold t2, t1. split; [|split].
  - unfold renamed; cbn [Archetypes map_archetypes map_fights].
    rewrite map_map. rewrite <- (map_id (Archetypes (view s))) at 2.
    apply map_ext_in. intros r Hr. apply update_shipname_round.
    intros E. assert (archetype_exists b (view s) = true); [|congruence].
    apply archetype_exists_In. rewrite <- E. now apply in_map.
  - rewrite !renamed_Fights, map_map.
    induction (Fights (view s)) as [|r l IH]; simpl; constructor; [|exact IH].
    assert (F := rename_fight_fields a b
                   (update_shipname2 b a (update_shipname1 b a r))).
    assert (G := rename_fight_fields b a r).
    cbv zeta in F, G.
    destruct F as (F1 & F2 & F3 & F4 & F5 & F6).
    destruct G as (G1 & G2 & G3 & G4 & G5 & G6).
    rewrite G5 in F5. rewrite G6 in F6.
    rewrite subst_name_round in F5, F6.
    repeat split; try congruence.
    + intros E. rewrite F5, E. now destruct (String.eqb a b).
    + intros E. rewrite F6, E. now destruct (String.eqb a b).
    + intros N. rewrite F5. now destruct (String.eqb_spec (f_shipname1 r) b).
    + intros N. rewrite F6. now destruct (String.eqb_spec (f_shipname2 r) b).
  - intros K. rewrite !renamed_Fights, map_map.
    rewrite <- (map_id (Fights (view s))) at 2.
    apply map_ext_in. intros r Hr.
    unfold fight_names_known in K. rewrite Forall_forall in K.
    destruct (K r Hr) as [K1 K2].
    apply rename_fight_round; intros E; rewrite E in *; congruence.
Qed.

Lemma rename_ship_round_trip_witness :
  exists s1 s2 m1 m2,
    rename_ship "Destroyer" (Some "Cruiser") None None fleet_fought_db
    = (s1, Ok m1)
    /\ rename_ship "Cruiser" (Some "Destroyer") None None s1 = (s2, Ok m2)
    /\ Archetypes (view s2) = Archetypes (view fleet_fought_db)
    /\ Forall2
         (fun r r' =>
            f_id r' = f_id r /\ f_author r' = f_author r
            /\ f_author_name r' = f_author_name r /\ f_result r' = f_result r
            /\ (f_shipname1 r = "Destroyer" -> f_shipname1 r' = "Destroyer")
            /\ (f_shipname2 r = "Destroyer" -> f_shipname2 r' = "Destroyer")
            /\ (f_shipname1 r <> "Cruiser" -> f_shipname1 r' = f_shipname1 r)
            /\ (f_shipname2 r <> "Cruiser" -> f_shipname2 r' = f_shipname2 r))
         (Fights (view fleet_fought_db)) (Fights (view s2))
    /\ (fight_names_known (view fleet_fought_db) ->
        Fights (view s2) = Fights (view fleet_fought_db)).
Proof.
  apply (rename_ship_round_trip fleet_fought_db "Destroyer" "Cruiser").
  - reflexivity.
  - reflexivity.
Defined.

(** The id and description of every archetype row, in table order. *)
Lemma map_archetypes_descriptions (f : Archetype -> Archetype) (t : Tables) :
  (forall r, In r (Archetypes t) ->
             a_id (f r) = a_id r /\ a_description (f r) = a_description r) ->
  map (fun r => (a_id r, a_description r)) (Archetypes (map_archetypes f t))
  = map (fun r => (a_id r, a_description r)) (Archetypes t).
Proof.
  intros H. simpl. rewrite map_map. apply map_ext_in. intros r Hr.
  destruct (H r Hr) as [-> ->]. reflexivity.
Qed.

Lemma update_description_other (d old : string) (t : Tables) :
  archetype_exists old t = false ->
  map_archetypes (update_description d old) t = t.
Proof.
  intros E. destruct t as [archs fs]. unfold map_archetypes; simpl. f_equal.
  rewrite <- (map_id archs) at 2. apply map_ext_in. intros r Hr.
  unfold update_description.
  destruct (String.eqb_spec (a_shipname r) old) as [En|]; [|reflexivity].
  assert (archetype_exists old (mkTables archs fs) = true); [|congruence].
  apply archetype_exists_In. rewrite <- En. now apply in_map.
Qed.

Lemma renamed_old_gone (new old : string) (t : Tables) :
  new <> old -> archetype_exists old (renamed new old t) = false.
Proof.
  intros H. destruct (archetype_exists old _) eqn:E; [|reflexivity].
  apply archetype_exists_In in E. rewrite renamed_names in E.
  apply in_map_iff in E as (n & En & _).
  now apply subst_name_not_old in En.
Qed.

(** C10.  When [rename_ship] is called with a new name and a new description,
    every archetype row keeps the description it had, whatever the call
    returns or raises: once the rename has run no row has the old name, which
    is the name the description UPDATE filters on.  A call that returns
    normally still reports the description as changed. *)
Theorem rename_ship_description_lost (s : FightDB) (old n d : string)
  (np : option string) :
  map (fun r => (a_id r, a_description r))
    (Archetypes (view (run (rename_ship old (Some n) np (Some d)) s)))
  = map (fun r => (a_id r, a_description r)) (Archetypes (view s))
  /\ match rename_ship old (Some n) np (Some d) s with
     | (s', Ok msg) =>
         committed s' = view s'
         /\ exists prefix, msg = prefix ++ " description changed to " ++ d
     | (_, Raise _) => True
     end.
Proof.
  unfold run. rewrite rename_ship_unfold, rename_new_name_run.
  destruct (archetype_exists old (view s)) eqn:Eo; cbn [negb fst snd];
    [|auto].
  destruct (archetype_exists n (view s)) eqn:En; cbn [negb fst snd]; [auto|].
  assert (Hne : n <> old) by (intros ->; congruence).
  set (t1 := renamed n old (view s)).
  assert (D1 : map (fun r => (a_id r, a_description r)) (Archetypes t1)
               = map (fun r => (a_id r, a_description r))
                   (Archetypes (view s))).
  { unfold t1, renamed. rewrite map_archetypes_descriptions; [reflexivity|].
    intros r _. unfold update_shipname. now destruct (String.eqb _ _). }
  assert (G1 : archetype_exists old t1 = false)
    by now apply renamed_old_gone.
  rewrite rename_new_parent_run.
  destruct np as [p|]; cbn [view committed].
  - destruct (negb _); [auto|].
    destruct (String.eqb _ _); [auto|].
    destruct (archetypes_children _ _) as [cs|e]; [|auto].
    destruct (existsb _ _); [auto|].
    destruct (get_ship_id _ _) as [pid|e]; [|auto].
    rewrite rename_new_description_run. cbn [fst snd view committed].
    rewrite update_description_other.
    + split; [|split; [reflexivity|eauto]].
      rewrite map_archetypes_descriptions; [exact D1|].
      intros r _. unfold update_parentid. now destruct (String.eqb _ _).
    + rewrite <- G1. apply archetype_exists_same_names.
      simpl. rewrite map_map. apply map_ext. apply update_parentid_name.
  - rewrite rename_new_description_run. cbn [fst snd view committed].
    rewrite update_description_other by exact G1.
    split; [exact D1|split; [reflexivity|eauto]].
Qed.

(** On the fleet: the call returns normally, its message reports the new
    description, and the renamed row still has none. *)
Example fleet_rename_keeps_description :
  exists s',
    rename_ship "Destroyer" (Some "Cruiser") None (Some "big") fleet_db
    = (s', Ok "Changes of Destroyer:  renamed to Cruiser,  description changed to big")
    /\ find (fun r => String.eqb (a_shipname r) "Cruiser")
         (Archetypes (view s'))
       = Some (mkArchetype 1 "Cruiser" None None)
    /\ archetype_exists "Destroyer" (view s') = false.
Proof. eexists. split; [vm_compute; reflexivity|]. split; reflexivity. Qed.

(** * Matchup dicts *)

Lemma dict_values_append (o k v : string) (d : matchup_dict) :
  dict_values o (dict_append k v d)
  = if String.eqb k o then (dict_values o d ++ [v])%list else dict_values o d.
Proof.
  unfold dict_values. induction d as [|[k' vs] d IH]; simpl.
  - destruct (String.eqb k o); reflexivity.
  - destruct (String.eqb_spec k' k) as [->|Hk]; simpl.
    + destruct (String.eqb k o); reflexivity.
    + destruct (String.eqb_spec k' o) as [->|Ho]; [|exact IH].
      destruct (String.eqb_spec k o); [congruence|reflexivity].
Qed.

Lemma dict_keys_append (o k v : string) (d : matchup_dict) :
  In o (dict_keys (dict_append k v d)) <-> o = k \/ In o (dict_keys d).
Proof.
  unfold dict_keys. induction d as [|[k' vs] d IH]; simpl.
  - intuition congruence.
  - destruct (String.eqb_spec k' k) as [->|Hk]; simpl.
    + intuition congruence.
    + rewrite IH. intuition congruence.
Qed.

Lemma dict_keys_append_NoDup (k v : string) (d : matchup_dict) :
  NoDup (dict_keys d) -> NoDup (dict_keys (dict_append k v d)).
Proof.
  unfold dict_keys. induction d as [|[k' vs] d IH]; simpl; intros H.
  - repeat constructor. intros [].
  - inversion H as [|? ? Hn Hd]; subst.
    destruct (String.eqb_spec k' k) as [->|Hk]; simpl; [now constructor|].
    constructor; [|now apply IH].
    intros Hin. apply (dict_keys_append k' k v d) in Hin.
    destruct Hin; [congruence|contradiction].
Qed.

(** The loop of [get_matchups], dict by dict. *)
Lemma matchup_rows_fold (ship : string) (pn : option string)
  (rows : list Fight) :
  Forall (fun r => String.eqb (f_shipname1 r) ship
                   || String.eqb (f_shipname2 r) ship = true) rows ->
  forall w d l,
    NoDup (dict_keys w) -> NoDup (dict_keys d) -> NoDup (dict_keys l) ->
    exists w' d' l',
      fold_left (matchup_row ship pn) rows (w, d, l) = (w', d', l')
      /\ NoDup (dict_keys w') /\ NoDup (dict_keys d') /\ NoDup (dict_keys l')
      /\ (forall o,
             dict_values o w'
             = (dict_values o w
                ++ map f_author_name (filter (won_against ship o pn) rows))%list
             /\ dict_values o d'
                = (dict_values o d
                   ++ map f_author_name
                        (filter (drew_against ship o pn) rows))%list
             /\ dict_values o l'
                = (dict_values o l
                   ++ map f_author_name
                        (filter (lost_against ship o pn) rows))%list)
      /\ (forall o,
             (In o (dict_keys w') <->
              In o (dict_keys w)
              \/ exists r, In r rows /\ won_against ship o pn r = true)
             /\ (In o (dict_keys d') <->
                 In o (dict_keys d)
                 \/ exists r, In r rows /\ drew_against ship o pn r = true)
             /\ (In o (dict_keys l') <->
                 In o (dict_keys l)
                 \/ exists r, In r rows /\ lost_against ship o pn r = true)).
Proof.
  induction 1 as [|r rows Hsel _ IH]; intros w d l Nw Nd Nl.
  - exists w, d, l. simpl. repeat split; trivial;
      try (now rewrite app_nil_r); try tauto;
      intros [?|(r & [] & _)]; assumption.
  - cbn [fold_left].
    assert (step : exists w1 d1 l1,
              matchup_row ship pn (w, d, l) r = (w1, d1, l1)
              /\ NoDup (dict_keys w1) /\ NoDup (dict_keys d1)
              /\ NoDup (dict_keys l1)
              /\ (forall o,
                     dict_values o w1
                     = (dict_values o w
                        ++ (if won_against ship o pn r
                            then [f_author_name r] else []))%list
                     /\ dict_values o d1
                        = (dict_values o d
                           ++ (if drew_against ship o pn r
                               then [f_author_name r] else []))%list
                     /\ dict_values o l1
                        = (dict_values o l
                           ++ (if lost_against ship o pn r
                               then [f_author_name r] else []))%list)
              /\ (forall o,
                     (In o (dict_keys w1) <->
                      In o (dict_keys w) \/ won_against ship o pn r = true)
                     /\ (In o (dict_keys d1) <->
                         In o (dict_keys d) \/ drew_against ship o pn r = true)
                     /\ (In o (dict_keys l1) <->
                         In o (dict_keys l)
                         \/ lost_against ship o pn r = true))).
    { unfold matchup_row, won_against, drew_against, lost_against.
      destruct (player_matches pn r); simpl.
      - destruct (Z.eqb (f_result r) FIGHT_RESULT.DRAW); simpl;
          destruct (String.eqb_spec (f_shipname1 r) ship) as [E1|E1]; simpl;
          try (simpl in Hsel; rewrite Hsel; simpl);
          (eexists _, _, _; split; [reflexivity|]);
          (split; [auto using dict_keys_append_NoDup|]);
          (split; [auto using dict_keys_append_NoDup|]);
          (split; [auto using dict_keys_append_NoDup|]);
          (split; intros o;
           [ rewrite ?dict_values_append, ?app_nil_r, ?orb_false_r;
             match goal with
             | |- context [String.eqb ?a o] => destruct (String.eqb a o)
             end; simpl; rewrite ?app_nil_r; repeat split; reflexivity
           | rewrite ?dict_keys_append, ?orb_false_r;
             match goal with
             | |- context [String.eqb ?a o] =>
                 destruct (String.eqb_spec a o)
             end; simpl; repeat split; intuition congruence ]).
      - eexists _, _, _. split; [reflexivity|].
        repeat split; trivial; try (now rewrite app_nil_r);
          intuition congruence. }
    destruct step as (w1 & d1 & l1 & E & Nw1 & Nd1 & Nl1 & V1 & K1).
    rewrite E.
    destruct (IH w1 d1 l1 Nw1 Nd1 Nl1)
      as (w' & d' & l' & E' & Nw' & Nd' & Nl' & V' & K').
    exists w', d', l'. split; [exact E'|].
    split; [exact Nw'|]. split; [exact Nd'|]. split; [exact Nl'|].
    split; intros o.
    + destruct (V' o) as (Vw & Vd & Vl). destruct (V1 o) as (Ww & Wd & Wl).
      rewrite Vw, Vd, Vl, Ww, Wd, Wl. simpl.
      destruct (won_against ship o pn r), (drew_against ship o pn r),
        (lost_against ship o pn r); simpl;
        rewrite <- ?app_assoc; simpl; rewrite ?app_nil_r; auto.
    + destruct (K' o) as (Kw & Kd & Kl). destruct (K1 o) as (Jw & Jd & Jl).
      rewrite Kw, Kd, Kl, Jw, Jd, Jl. simpl.
      repeat split.
      all: try (intros [[?|?]|(r' & ? & ?)]; eauto 6).
      all: try (intros [?|(r' & [<-|?] & ?)]; eauto 6).
Qed.

(** * The read path *)

(** What [get_matchups] returns for an existing ship, row by row. *)
Lemma get_matchups_rows (t : Tables) (ship : string)
  (pn : option string) :
  archetype_exists ship t = true ->
  exists w d l,
    get_matchups ship pn t = Ok (w, d, l)
    /\ NoDup (dict_keys w) /\ NoDup (dict_keys d) /\ NoDup (dict_keys l)
    /\ (forall o,
           dict_values o w
           = map f_author_name (filter (won_against ship o pn) (Fights t))
           /\ dict_values o d
              = map f_author_name (filter (drew_against ship o pn) (Fights t))
           /\ dict_values o l
              = map f_author_name (filter (lost_against ship o pn) (Fights t)))
    /\ (forall o,
           (In o (dict_keys w) <->
            exists r, In r (Fights t) /\ won_against ship o pn r = true)
           /\ (In o (dict_keys d) <->
               exists r, In r (Fights t) /\ drew_against ship o pn r = true)
           /\ (In o (dict_keys l) <->
               exists r, In r (Fights t) /\ lost_against ship o pn r = true)).
Proof.
  intros E. unfold get_matchups. rewrite E. cbn [negb].
  set (sel := fun r => String.eqb (f_shipname1 r) ship
                       || String.eqb (f_shipname2 r) ship).
  assert (Hsel : Forall (fun r => sel r = true) (filter sel (Fights t))).
  { apply Forall_forall. intros r Hr. now apply filter_In in Hr. }
  destruct (matchup_rows_fold ship pn _ Hsel [] [] []
              (NoDup_nil _) (NoDup_nil _) (NoDup_nil _))
    as (w & d & l & Ef & Nw & Nd & Nl & V & K).
  assert (sub : forall f : Fight -> bool,
            (forall r, f r = true -> sel r = true) ->
            filter f (filter sel (Fights t)) = filter f (Fights t)).
  { intros f Hf. apply filter_filter_same. intros r _. apply Hf. }
  assert (Sw : forall o r, won_against ship o pn r = true -> sel r = true).
  { unfold won_against, sel. intros o r H.
    apply andb_true_iff in H as [H _]. apply andb_true_iff in H as [_ H].
    now rewrite H. }
  assert (Sd : forall o r, drew_against ship o pn r = true -> sel r = true).
  { unfold drew_against, sel. intros o r H.
    apply andb_true_iff in H as [_ H].
    destruct (String.eqb (f_shipname1 r) ship); [reflexivity|].
    simpl in H. apply andb_true_iff in H as [H _]. now rewrite H. }
  assert (Sl : forall o r, lost_against ship o pn r = true -> sel r = true).
  { unfold lost_against, sel. intros o r H.
    apply andb_true_iff in H as [H _]. apply andb_true_iff in H as [_ H].
    rewrite H. apply orb_true_r. }
  exists w, d, l. split; [now rewrite <- Ef|].
  split; [exact Nw|]. split; [exact Nd|]. split; [exact Nl|].
  split; intros o.
  - destruct (V o) as (Vw & Vd & Vl). rewrite Vw, Vd, Vl.
    unfold dict_values; simpl.
    rewrite (sub _ (Sw o)), (sub _ (Sd o)), (sub _ (Sl o)). auto.
  - destruct (K o) as (Kw & Kd & Kl). rewrite Kw, Kd, Kl.
    unfold dict_keys; simpl.
    repeat split.
    all: try (intros [[]|(r & Hr & Hm)]; exists r; split; [|exact Hm];
              now apply filter_In in Hr).
    all: intros (r & Hr & Hm); right; exists r; split; [|exact Hm];
      apply filter_In; split; [exact Hr|]; eauto.
Qed.

(** X1.  For an existing ship, [get_matchups] returns three dicts with
    distinct keys; under each opponent [o] the wins list the author names of
    the rows [(ship, o)] that are not draws, the losses those of the rows
    [(o, ship)] with [o] another name, the draws those of the draw rows
    between the two, all in table order and restricted to [player_name] when
    one is given; an opponent is a key exactly when such a row exists. *)
Theorem get_matchups_entries (t : Tables) (ship : string)
  (pn : option string) :
  archetype_exists ship t = true ->
  exists w d l,
    get_matchups ship pn t = Ok (w, d, l)
    /\ NoDup (dict_keys w) /\ NoDup (dict_keys d) /\ NoDup (dict_keys l)
    /\ (forall o,
           dict_values o w
           = map f_author_name (filter (won_against ship o pn) (Fights t))
           /\ dict_values o d
              = map f_author_name (filter (drew_against ship o pn) (Fights t))
           /\ dict_values o l
              = map f_author_name (filter (lost_against ship o pn) (Fights t)))
    /\ (forall o,
           (In o (dict_keys w) <->
            exists r, In r (Fights t) /\ won_against ship o pn r = true)
           /\ (In o (dict_keys d) <->
               exists r, In r (Fights t) /\ drew_against ship o pn r = true)
           /\ (In o (dict_keys l) <->
               exists r, In r (Fights t) /\ lost_against ship o pn r = true)).
Proof.
  intros E.
  destruct (get_matchups_rows t ship pn E)
    as (w & d & l & Eg & Nw & Nd & Nl & V & K).
  exists w, d, l. split; [exact Eg|].
  split; [exact Nw|]. split; [exact Nd|]. split; [exact Nl|].
  split; [exact V|exact K].
Qed.

Lemma get_matchups_entries_witness :
  exists w d l,
    get_matchups "RaiderMk1" None (view fleet_fought_db) = Ok (w, d, l)
    /\ NoDup (dict_keys w) /\ NoDup (dict_keys d) /\ NoDup (dict_keys l)
    /\ (forall o,
           dict_values o w
           = map f_author_name
               (filter (won_against "RaiderMk1" o None)
                  (Fights (view fleet_fought_db)))
           /\ dict_values o d
              = map f_author_name
                  (filter (drew_against "RaiderMk1" o None)
                     (Fights (view fleet_fought_db)))
           /\ dict_values o l
              = map f_author_name
                  (filter (lost_against "RaiderMk1" o None)
                     (Fights (view fleet_fought_db))))
    /\ (forall o,
           (In o (dict_keys w) <->
            exists r, In r (Fights (view fleet_fought_db))
                      /\ won_against "RaiderMk1" o None r = true)
           /\ (In o (dict_keys d) <->
               exists r, In r (Fights (view fleet_fought_db))
                         /\ drew_against "RaiderMk1" o None r = true)
           /\ (In o (dict_keys l) <->
               exists r, In r (Fights (view fleet_fought_db))
                         /\ lost_against "RaiderMk1" o None r = true)).
Proof.
  apply (get_matchups_entries (view fleet_fought_db) "RaiderMk1" None).
  reflexivity.
Defined.

Lemma mirror_rows (a b : string) (pn : option string) (r : Fight) :
  a <> b ->
  won_against a b pn r = lost_against b a pn r
  /\ drew_against a b pn r = drew_against b a pn r.
Proof.
  intros Hab. unfold won_against, lost_against, drew_against.
  destruct (player_matches pn r), (Z.eqb (f_result r) FIGHT_RESULT.DRAW),
    (String.eqb_spec (f_shipname1 r) a), (String.eqb_spec (f_shipname1 r) b),
    (String.eqb_spec (f_shipname2 r) a), (String.eqb_spec (f_shipname2 r) b);
    simpl; split; try reflexivity; congruence.
Qed.

(** X2.  For two different existing ships [a] and [b] and the same player
    filter, what [get_matchups a] lists as wins against [b] is what
    [get_matchups b] lists as losses against [a], and conversely; the draws
    against each other are the same list. *)
Theorem get_matchups_mirror (t : Tables) (a b : string) (pn : option string) :
  archetype_exists a t = true ->
  archetype_exists b t = true ->
  a <> b ->
  exists wa da la wb db lb,
    get_matchups a pn t = Ok (wa, da, la)
    /\ get_matchups b pn t = Ok (wb, db, lb)
    /\ dict_values b wa = dict_values a lb
    /\ dict_values b la = dict_values a wb
    /\ dict_values b da = dict_values a db.
Proof.
  intros Ea Eb Hab.
  destruct (get_matchups_rows t a pn Ea)
    as (wa & da & la & Ega & _ & _ & _ & Va & _).
  destruct (get_matchups_rows t b pn Eb)
    as (wb & db & lb & Egb & _ & _ & _ & Vb & _).
  exists wa, da, la, wb, db, lb.
  destruct (Va b) as (Vaw & Vad & Val). destruct (Vb a) as (Vbw & Vbd & Vbl).
  split; [exact Ega|]. split; [exact Egb|].
  rewrite Vaw, Vad, Val, Vbw, Vbd, Vbl.
  assert (Hba : b <> a) by congruence.
  split; [|split]; f_equal; apply filter_ext; intros r.
  - apply (mirror_rows a b pn r Hab).
  - symmetry. apply (mirror_rows b a pn r Hba).
  - apply (mirror_rows a b pn r Hab).
Qed.

Lemma get_matchups_mirror_witness :
  exists wa da la wb db lb,
    get_matchups "Destroyer" None (view fleet_fought_db) = Ok (wa, da, la)
    /\ get_matchups "RaiderMk1" None (view fleet_fought_db) = Ok (wb, db, lb)
    /\ dict_values "RaiderMk1" wa = dict_values "Destroyer" lb
    /\ dict_values "RaiderMk1" la = dict_values "Destroyer" wb
    /\ dict_values "RaiderMk1" da = dict_values "Destroyer" db.
Proof.
  apply (get_matchups_mirror (view fleet_fought_db) "Destroyer" "RaiderMk1"
           None).
  - reflexivity.
  - reflexivity.
  - discriminate.
Defined.

(** * Leaves of the store *)

Lemma distinct_In (x : string) (l : list string) :
  In x (distinct l) <-> In x l.
Proof.
  induction l as [|y l IH]; simpl; [tauto|].
  rewrite filter_In, IH, negb_true_iff, String.eqb_neq.
  destruct (String.eqb_spec x y); intuition congruence.
Qed.

Lemma distinct_NoDup (l : list string) : NoDup (distinct l).
Proof.
  induction l as [|y l IH]; simpl; constructor.
  - rewrite filter_In, String.eqb_refl. intros [_ H]. discriminate.
  - now apply NoDup_filter.
Qed.

Lemma distinct_of_NoDup (l : list string) : NoDup l -> distinct l = l.
Proof.
  induction 1 as [|x l Hn Hd IH]; simpl; [reflexivity|].
  rewrite IH. f_equal. rewrite <- (filter_ext_in (fun _ => true)).
  - clear. induction l; simpl; congruence.
  - intros y Hy. symmetry. apply negb_true_iff, String.eqb_neq.
    intros ->. contradiction.
Qed.

Lemma leaf_ships_run (t : Tables) (ships : list string) :
  (forall n, In n ships -> archetype_exists n t = true) ->
  exists l,
    leaf_ships ships t = Ok l
    /\ (forall n, In n l <-> In n ships /\ ship_is_leaf n t = Ok true)
    /\ (NoDup ships -> NoDup l).
Proof.
  induction ships as [|x xs IH]; intros Hex.
  - exists []. simpl. split; [reflexivity|]. split; [tauto|auto].
  - destruct (IH (fun n Hn => Hex n (or_intror Hn))) as (l & El & Hl & Nl).
    assert (Ex := Hex x (or_introl eq_refl)).
    apply get_ship_id_exists in Ex as [i Ei].
    simpl. unfold ship_is_leaf at 1. rewrite Ei, El.
    set (leaf := negb (existsb _ _)).
    assert (Lx : ship_is_leaf x t = Ok leaf)
      by (unfold ship_is_leaf; now rewrite Ei).
    exists (if leaf then x :: l else l). split; [reflexivity|]. split.
    + intros n. destruct leaf; simpl; rewrite Hl.
      * split; [intros [<-|[? ?]]; auto|]. intros [[<-|?] ?]; auto.
      * split; [intros [? ?]; auto|]. intros [[<-|?] ?]; [congruence|auto].
    + intros N. inversion N as [|? ? Hn Hd]; subst.
      destruct leaf; [|auto]. constructor; [|auto].
      intros Hin. apply Hl in Hin. tauto.
Qed.

Lemma get_ships_run (t : Tables) :
  exists l,
    get_ships t = Ok l /\ NoDup l
    /\ forall n, In n l <->
                 archetype_exists n t = true /\ ship_is_leaf n t = Ok true.
Proof.
  unfold get_ships, get_archetypes.
  destruct (leaf_ships_run t (distinct (map a_shipname (Archetypes t))))
    as (l & El & Hl & Nl).
  - intros n Hn. apply (proj1 (distinct_In _ _)) in Hn.
    apply archetype_exists_In. exact Hn.
  - exists l. split; [exact El|]. split; [apply Nl, distinct_NoDup|].
    intros n. rewrite Hl, distinct_In, archetype_exists_In. tauto.
Qed.

(** X3.  [get_ships] never raises: it returns, without repetition, exactly
    the names of the archetypes that [ship_is_leaf] accepts, all of them
    names [get_archetypes] returns; [get_archetypes] returns every archetype
    name once. *)
Theorem get_ships_leaves (t : Tables) :
  exists l,
    get_ships t = Ok l /\ NoDup l
    /\ (forall n, In n l <->
                  archetype_exists n t = true /\ ship_is_leaf n t = Ok true)
    /\ incl l (get_archetypes t)
    /\ NoDup (get_archetypes t)
    /\ (forall n, In n (get_archetypes t) <-> archetype_exists n t = true).
Proof.
  destruct (get_ships_run t) as (l & El & Nl & Hl).
  assert (A : forall n, In n (get_archetypes t) <->
                        archetype_exists n t = true).
  { intros n. unfold get_archetypes.
    now rewrite distinct_In, archetype_exists_In. }
  exists l. split; [exact El|]. split; [exact Nl|]. split; [exact Hl|].
  split; [|split; [apply distinct_NoDup|exact A]].
  intros n Hn. apply A. now apply Hl in Hn.
Qed.

Lemma matchup_row_pair (ship o : string) (pn : option string) (r : Fight) :
  won_against ship o pn r || drew_against ship o pn r
  || lost_against ship o pn r
  = player_matches pn r
    && ((String.eqb (f_shipname1 r) ship && String.eqb (f_shipname2 r) o)
        || (String.eqb (f_shipname1 r) o && String.eqb (f_shipname2 r) ship)).
Proof.
  unfold won_against, lost_against, drew_against.
  destruct (player_matches pn r), (Z.eqb (f_result r) FIGHT_RESULT.DRAW),
    (String.eqb_spec (f_shipname1 r) ship), (String.eqb_spec (f_shipname1 r) o),
    (String.eqb_spec (f_shipname2 r) ship), (String.eqb_spec (f_shipname2 r) o);
    simpl; try reflexivity; congruence.
Qed.

(** What [get_unknown_matchups] returns, by cases on the ship. *)
Lemma get_unknown_matchups_run (t : Tables) (ship : string)
  (pn : option string) :
  (archetype_exists ship t = false ->
   get_unknown_matchups ship pn t = Raise (ShipDoesNotExist ship))
  /\ (archetype_exists ship t = true ->
      exists l,
        get_unknown_matchups ship pn t = Ok l /\ NoDup l
        /\ forall n,
             In n l <->
             ship_is_leaf n t = Ok true
             /\ forall r, In r (Fights t) -> player_matches pn r = true ->
                          ~ ((f_shipname1 r = ship /\ f_shipname2 r = n)
                             \/ (f_shipname1 r = n /\ f_shipname2 r = ship))).
Proof.
  unfold get_unknown_matchups.
  destruct (get_ships_run t) as (ships & Es & Ns & Hs). rewrite Es.
  split; intros E.
  - unfold get_matchups. now rewrite E.
  - destruct (get_matchups_rows t ship pn E)
      as (w & d & l & Eg & _ & _ & _ & _ & K).
    rewrite Eg. eexists. split; [reflexivity|].
    split; [now apply NoDup_filter|].
    intros n. rewrite filter_In, Hs, negb_true_iff.
    assert (keys : existsb (String.eqb n)
                     (dict_keys w ++ dict_keys d ++ dict_keys l) = true
                   <-> exists r, In r (Fights t)
                                 /\ (won_against ship n pn r
                                     || drew_against ship n pn r
                                     || lost_against ship n pn r) = true).
    { rewrite existsb_exists. destruct (K n) as (Kw & Kd & Kl). split.
      - intros (k & Hk & Hn). apply String.eqb_eq in Hn. subst k.
        rewrite !in_app_iff, Kw, Kd, Kl in Hk.
        destruct Hk as [(r & Hr & H)|[(r & Hr & H)|(r & Hr & H)]];
          exists r; rewrite H, ?orb_true_r; auto.
      - intros (r & Hr & H). exists n. split; [|apply String.eqb_refl].
        rewrite !in_app_iff, Kw, Kd, Kl.
        apply orb_true_iff in H as [H|H];
          [apply orb_true_iff in H as [H|H]|]; eauto 6. }
    split.
    + intros [[_ Ln] Hk]. split; [exact Ln|]. intros r Hr Hp Hpair.
      assert (X : existsb (String.eqb n)
                    (dict_keys w ++ dict_keys d ++ dict_keys l) = true).
      { apply keys. exists r. split; [exact Hr|].
        rewrite matchup_row_pair, Hp. simpl.
        destruct Hpair as [[-> ->]|[-> ->]]; rewrite !String.eqb_refl;
          simpl; auto using orb_true_r. }
      congruence.
    + intros [Ln Hno]. split; [split; [eapply ship_is_leaf_exists|]; eauto|].
      apply not_true_is_false. intros X.
      apply keys in X as (r & Hr & H). rewrite matchup_row_pair in H.
      apply andb_true_iff in H as [Hp H]. apply (Hno r Hr Hp).
      apply orb_true_iff in H as [H|H]; apply andb_true_iff in H as [H1 H2];
        apply String.eqb_eq in H1, H2; auto.
Qed.

(** X4.  [get_unknown_matchups ship] raises the not-found error when no
    archetype has the name; otherwise it returns, without repetition, exactly
    the leaves [n] for which no Fight row (of the given player, when one is
    given) has the two names [ship] and [n], in either order. *)
Theorem get_unknown_matchups_leaves (t : Tables) (ship : string)
  (pn : option string) :
  (archetype_exists ship t = false ->
   get_unknown_matchups ship pn t = Raise (ShipDoesNotExist ship))
  /\ (archetype_exists ship t = true ->
      exists l,
        get_unknown_matchups ship pn t = Ok l /\ NoDup l
        /\ forall n,
             In n l <->
             ship_is_leaf n t = Ok true
             /\ forall r, In r (Fights t) -> player_matches pn r = true ->
                          ~ ((f_shipname1 r = ship /\ f_shipname2 r = n)
                             \/ (f_shipname1 r = n /\ f_shipname2 r = ship))).
Proof.
  destruct (get_unknown_matchups_run t ship pn) as [Hmiss Hok].
  split; [exact Hmiss|]. intros E.
  destruct (Hok E) as (l & El & Nl & Hl).
  exists l. split; [exact El|]. split; [exact Nl|exact Hl].
Qed.

Lemma get_unknown_matchups_leaves_witness :
  exists l,
    get_unknown_matchups "Destroyer" None (view fleet_fought_db) = Ok l
    /\ NoDup l
    /\ forall n,
         In n l <->
         ship_is_leaf n (view fleet_fought_db) = Ok true
         /\ forall r, In r (Fights (view fleet_fought_db)) ->
                      player_matches None r = true ->
                      ~ ((f_shipname1 r = "Destroyer" /\ f_shipname2 r = n)
                         \/ (f_shipname1 r = n
                             /\ f_shipname2 r = "Destroyer")).
Proof.
  apply (proj2 (get_unknown_matchups_leaves (view fleet_fought_db)
                  "Destroyer" None)).
  reflexivity.
Defined.

(** * Tallies *)

Lemma get_average_match_counts (t : Tables) (n1 n2 : string) :
  get_average_match n1 n2 t = majority_prediction n1 n2 t.
Proof.
  unfold get_average_match, majority_prediction.
  rewrite count_fights_draws, !count_fights_wins.
  unfold FIGHT_RESULT.WIN, FIGHT_RESULT.LOSE, FIGHT_RESULT.DRAW.
  set (w := wins_over n1 n2 t). set (d := draws_between n1 n2 t).
  assert (Hl : String.eqb n1 n2 = true -> wins_over n2 n1 t = w).
  { intros E. apply String.eqb_eq in E. subst n2. reflexivity. }
  set (l := wins_over n2 n1 t) in *.
  rewrite !Z.gtb_ltb.
  destruct (String.eqb n1 n2).
  - rewrite (Hl eq_refl). now rewrite !Z.ltb_irrefl, !Nat.ltb_irrefl.
  - destruct (Z.ltb_spec (Z.of_nat l) (Z.of_nat w)),
      (Z.ltb_spec (Z.of_nat d) (Z.of_nat w)),
      (Z.ltb_spec (Z.of_nat w) (Z.of_nat l)),
      (Z.ltb_spec (Z.of_nat d) (Z.of_nat l)),
      (Nat.ltb_spec l w), (Nat.ltb_spec d w),
      (Nat.ltb_spec w l), (Nat.ltb_spec d l);
      simpl; try lia; reflexivity.
Qed.

(** X5.  [simulate_fight] raises the not-found error for a missing first
    name, then for a missing second name; for two existing names it returns
    the author names of the rows storing [n1] over [n2] as WIN, of the rows
    storing [n2] over [n1] as LOSE and of the draw rows between the two as
    DRAW, and [get_average_match] is the strict majority of the three list
    lengths (a draw when no list is strictly the longest). *)
Theorem simulate_fight_tally (t : Tables) (n1 n2 : string) :
  (archetype_exists n1 t = false ->
   simulate_fight n1 n2 t = Raise (ShipDoesNotExist n1))
  /\ (archetype_exists n1 t = true -> archetype_exists n2 t = false ->
      simulate_fight n1 n2 t = Raise (ShipDoesNotExist n2))
  /\ (archetype_exists n1 t = true -> archetype_exists n2 t = true ->
      exists ra,
        simulate_fight n1 n2 t = Ok ra
        /\ List.length (authors_WIN ra) = wins_over n1 n2 t
        /\ List.length (authors_LOSE ra) = wins_over n2 n1 t
        /\ List.length (authors_DRAW ra) = draws_between n1 n2 t
        /\ get_average_match n1 n2 t
           = if ((List.length (authors_LOSE ra) <? List.length (authors_WIN ra))
                 && (List.length (authors_DRAW ra)
                     <? List.length (authors_WIN ra)))%nat
             then FIGHT_RESULT.WIN
             else if ((List.length (authors_WIN ra)
                       <? List.length (authors_LOSE ra))
                      && (List.length (authors_DRAW ra)
                          <? List.length (authors_LOSE ra)))%nat
                  then FIGHT_RESULT.LOSE
                  else FIGHT_RESULT.DRAW).
Proof.
  unfold simulate_fight. split; [|split].
  - now intros ->.
  - now intros -> ->.
  - intros -> ->. cbn [negb]. eexists. split; [reflexivity|].
    cbn [authors_WIN authors_LOSE authors_DRAW].
    rewrite !length_map.
    assert (D : List.length
                  (filter
                     (fun r =>
                        (String.eqb (f_shipname1 r) n1
                         && String.eqb (f_shipname2 r) n2
                         && Z.eqb (f_result r) FIGHT_RESULT.DRAW)
                        || (String.eqb (f_shipname1 r) n2
                            && String.eqb (f_shipname2 r) n1
                            && Z.eqb (f_result r) FIGHT_RESULT.DRAW))
                     (Fights t))
                = draws_between n1 n2 t).
    { unfold draws_between. f_equal. apply filter_ext. intros r.
      destruct (Z.eqb (f_result r) FIGHT_RESULT.DRAW);
        rewrite ?andb_true_r, ?andb_false_r; reflexivity. }
    rewrite D. split; [reflexivity|]. split; [reflexivity|].
    split; [reflexivity|]. apply get_average_match_counts.
Qed.

Lemma simulate_fight_tally_witness :
  exists ra,
    simulate_fight "A" "B" (view tally_db) = Ok ra
    /\ List.length (authors_WIN ra) = wins_over "A" "B" (view tally_db)
    /\ List.length (authors_LOSE ra) = wins_over "B" "A" (view tally_db)
    /\ List.length (authors_DRAW ra) = draws_between "A" "B" (view tally_db)
    /\ get_average_match "A" "B" (view tally_db)
       = if ((List.length (authors_LOSE ra) <? List.length (authors_WIN ra))
             && (List.length (authors_DRAW ra)
                 <? List.length (authors_WIN ra)))%nat
         then FIGHT_RESULT.WIN
         else if ((List.length (authors_WIN ra)
                   <? List.length (authors_LOSE ra))
                  && (List.length (authors_DRAW ra)
                      <? List.length (authors_LOSE ra)))%nat
              then FIGHT_RESULT.LOSE
              else FIGHT_RESULT.DRAW.
Proof.
  apply (proj2 (proj2 (simulate_fight_tally (view tally_db) "A" "B")));
    reflexivity.
Defined.

(** X6.  Swapping the two names swaps the sides: the prediction
    [get_average_match n2 n1] is the opposite of [get_average_match n1 n2],
    and when [simulate_fight n1 n2] returns, [simulate_fight n2 n1] returns
    the same DRAW list with the WIN and LOSE lists exchanged. *)
Theorem swap_sides (t : Tables) (n1 n2 : string) :
  get_average_match n2 n1 t = - get_average_match n1 n2 t
  /\ match simulate_fight n1 n2 t with
     | Ok ra =>
         simulate_fight n2 n1 t
         = Ok (mk_result_authors (authors_LOSE ra) (authors_DRAW ra)
                 (authors_WIN ra))
     | Raise _ => exists e, simulate_fight n2 n1 t = Raise e
     end.
Proof.
  split.
  - unfold get_average_match.
    set (w := count_fights n1 n2 1 t). set (l := count_fights n2 n1 1 t).
    rewrite (Z.add_comm (count_fights n2 n1 0 t)).
    set (d := count_fights n1 n2 0 t + count_fights n2 n1 0 t).
    rewrite !Z.gtb_ltb.
    destruct (Z.ltb_spec l w), (Z.ltb_spec d w), (Z.ltb_spec w l),
      (Z.ltb_spec d l); simpl; try lia; reflexivity.
  - unfold simulate_fight.
    destruct (archetype_exists n1 t), (archetype_exists n2 t); cbn [negb];
      eauto.
    cbn [authors_WIN authors_DRAW authors_LOSE].
    f_equal. f_equal. f_equal. apply filter_ext. intros r. apply orb_comm.
Qed.

(** * What each method leaves alone *)

Lemma for_each_Archetypes {A} (xs : list A) (body : A -> M unit) :
  (forall x s, Archetypes (view (run (body x) s)) = Archetypes (view s)) ->
  forall s, Archetypes (view (run (for_each xs body) s)) = Archetypes (view s).
Proof.
  intros Hb. induction xs as [|x xs IH]; intros s; [reflexivity|].
  simpl. rewrite run_bind. destruct (snd (body x s)); [|apply Hb].
  now rewrite IH, Hb.
Qed.

Lemma insert_fight_Archetypes (depth : nat) :
  forall n1 n2 x an res s,
    Archetypes (view (run (insert_fight depth n1 n2 x an res) s))
    = Archetypes (view s).
Proof.
  induction depth as [|depth IH]; intros n1 n2 x an res s; [reflexivity|].
  unfold run. rewrite insert_fight_unfold.
  destruct (negb (archetype_exists n1 (view s))); [reflexivity|].
  destruct (negb (archetype_exists n2 (view s))); [reflexivity|].
  assert (loop : forall cs (body : string -> M unit),
            (forall c s0, Archetypes (view (run (body c) s0))
                          = Archetypes (view s0)) ->
            Archetypes (view (fst ((for_each cs body ;;; commit) s)))
            = Archetypes (view s)).
  { intros cs body Hb. fold (run (for_each cs body ;;; commit) s).
    rewrite run_bind.
    assert (E := for_each_Archetypes cs body Hb s).
    destruct (snd _); [exact E | exact E]. }
  destruct (ship_is_leaf n1 (view s)) as [[|]|e]; try reflexivity.
  - destruct (ship_is_leaf n2 (view s)) as [[|]|e]; try reflexivity.
    + cbn [fst view]. apply leaf_write_Archetypes.
    + destruct (archetypes_children n2 (view s)) as [cs|e]; [|reflexivity].
      apply loop. intros c s0. apply IH.
  - destruct (archetypes_children n1 (view s)) as [cs|e]; [|reflexivity].
    apply loop. intros c s0. apply IH.
Qed.

Lemma rename_ship_Fights (old : string) (np nd : option string)
  (s : FightDB) :
  Fights (view (run (rename_ship old None np nd) s)) = Fights (view s).
Proof.
  unfold run. rewrite rename_ship_unfold, rename_new_name_run.
  destruct (negb _); [reflexivity|]. cbn [fst snd].
  rewrite rename_new_parent_run.
  assert (D : forall m s2, Fights (view (fst
                match rename_new_description old m nd s2 with
                | (s3, Ok msg') => (mkFightDB (view s3) (view s3), Ok msg')
                | (s3, Raise e) => (s3, Raise e)
                end)) = Fights (view s2)).
  { intros m s2. rewrite rename_new_description_run. now destruct nd. }
  destruct np as [p|]; [|apply D].
  destruct (negb _); [reflexivity|].
  destruct (String.eqb _ _); [reflexivity|].
  destruct (archetypes_children _ _); [|reflexivity].
  destruct (existsb _ _); [reflexivity|].
  destruct (get_ship_id _ _); [|reflexivity].
  now rewrite D.
Qed.

(** X7.  The write path and the hierarchy do not touch each other's table:
    [insert_fight] (at any depth, whatever it returns or raises) and
    [remove_fight] leave the Archetypes table as it was; [add_ship] and a
    [rename_ship] without a new name leave the Fights table as it was. *)
Theorem tables_left_alone (s : FightDB) :
  (forall depth n1 n2 x an res,
      Archetypes (view (run (insert_fight depth n1 n2 x an res) s))
      = Archetypes (view s))
  /\ (forall n1 n2 x,
         Archetypes (view (run (remove_fight n1 n2 x) s))
         = Archetypes (view s))
  /\ (forall n p d,
         Fights (view (run (add_ship n p d) s)) = Fights (view s))
  /\ (forall old np nd,
         Fights (view (run (rename_ship old None np nd) s))
         = Fights (view s)).
Proof.
  split; [|split; [|split]].
  - intros depth n1 n2 x an res. apply insert_fight_Archetypes.
  - reflexivity.
  - intros n p d. unfold run, add_ship, bind, query, execute, commit, ret.
    simpl. destruct (archetype_exists n (view s)); simpl; [reflexivity|].
    destruct (get_ship_id p (view s)); reflexivity.
  - intros old np nd. apply rename_ship_Fights.
Qed.

(** * Referential integrity of the hierarchy *)

Lemma hierarchy_wf_same (t t' : Tables) :
  Archetypes t' = Archetypes t -> hierarchy_wf t -> hierarchy_wf t'.
Proof. unfold hierarchy_wf. now intros ->. Qed.

Lemma get_ship_id_In (n : option string) (i : Z) (t : Tables) :
  get_ship_id n t = Ok (Some i) -> In i (map a_id (Archetypes t)).
Proof.
  unfold get_ship_id. destruct n as [n|]; [|discriminate].
  destruct (find _ _) as [r|] eqn:Ef; [|discriminate].
  intros H. injection H as <-. apply find_some in Ef as [Hr _].
  now apply in_map.
Qed.

Lemma hierarchy_wf_insert_archetype (n : string) (p : option string)
  (pid : option Z) (d : option string) (t : Tables) :
  hierarchy_wf t -> get_ship_id p t = Ok pid ->
  hierarchy_wf (insert_archetype n pid d t).
Proof.
  intros [Hid Hp] Eg. split; simpl; rewrite map_app; simpl.
  - apply NoDup_app; [exact Hid | repeat constructor; intros [] |].
    intros i Hin [<-|[]]. now apply next_id_fresh in Hin.
  - intros r q Hr Hq. apply in_app_iff.
    apply in_app_iff in Hr as [Hr|[<-|[]]]; left.
    + eapply Hp; eauto.
    + simpl in Hq. subst pid. eapply get_ship_id_In; eauto.
Qed.

Lemma hierarchy_wf_map_archetypes (f : Archetype -> Archetype) (t : Tables) :
  (forall r, a_id (f r) = a_id r) ->
  (forall r p, In r (Archetypes t) -> a_parentid (f r) = Some p ->
               In p (map a_id (Archetypes t))) ->
  hierarchy_wf t -> hierarchy_wf (map_archetypes f t).
Proof.
  intros Hid Hpar [Hn Hp].
  assert (E : map a_id (map f (Archetypes t)) = map a_id (Archetypes t)).
  { rewrite map_map. now apply map_ext. }
  split; simpl; rewrite E; [exact Hn|].
  intros r p Hr Hq. apply in_map_iff in Hr as (r0 & <- & Hr0). eauto.
Qed.

Lemma hierarchy_wf_renamed (new old : string) (t : Tables) :
  hierarchy_wf t -> hierarchy_wf (renamed new old t).
Proof.
  intros H. unfold renamed. apply hierarchy_wf_map_archetypes.
  - apply update_shipname_id.
  - intros r p Hr Hq. destruct H as [_ Hp]. apply (Hp r p Hr).
    rewrite <- Hq. unfold update_shipname. now destruct (String.eqb _ _).
  - eapply hierarchy_wf_same; [|exact H]. reflexivity.
Qed.

Lemma hierarchy_wf_step (o : op) (s : FightDB) :
  hierarchy_wf (view s) -> hierarchy_wf (view (step o s)).
Proof.
  intros H. destruct o as [n p d|depth n1 n2 x an res|n1 n2 x|old nn np nd];
    simpl.
  - unfold run, add_ship, bind, query, execute, commit, ret. simpl.
    destruct (archetype_exists n (view s)); simpl; [exact H|].
    destruct (get_ship_id p (view s)) eqn:Eg; simpl; [|exact H].
    eapply hierarchy_wf_insert_archetype; eauto.
  - eapply hierarchy_wf_same; [apply insert_fight_Archetypes|exact H].
  - exact H.
  - unfold run. rewrite rename_ship_unfold, rename_new_name_run.
    destruct (negb _); [exact H|].
    assert (H1 : hierarchy_wf
                   (view (fst match nn with
                              | Some n =>
                                  if archetype_exists n (view s)
                                  then (s, Raise (ShipAlreadyExists n))
                                  else
                                    (mkFightDB (renamed n old (view s))
                                       (committed s),
                                     Ok (n, ("Changes of " ++ old ++ ": ")
                                            ++ " renamed to " ++ n ++ ", "))
                              | None =>
                                  (s, Ok (old, "Changes of " ++ old ++ ": "))
                              end))).
    { destruct nn as [n|]; [|exact H].
      destruct (archetype_exists n (view s)); [exact H|].
      now apply hierarchy_wf_renamed. }
    destruct (match nn with Some _ => _ | None => _ end) as [s1 [st|e]];
      cbn [fst] in H1; [|exact H1].
    rewrite rename_new_parent_run.
    assert (D : forall m s2, hierarchy_wf (view s2) ->
                hierarchy_wf (view (fst
                  match rename_new_description old m nd s2 with
                  | (s3, Ok msg') => (mkFightDB (view s3) (view s3), Ok msg')
                  | (s3, Raise e) => (s3, Raise e)
                  end))).
    { intros m s2 H2. rewrite rename_new_description_run.
      destruct nd as [d|]; cbn [fst view]; [|exact H2].
      apply hierarchy_wf_map_archetypes; [| |exact H2].
      - intros r. unfold update_description. now destruct (String.eqb _ _).
      - intros r p Hr Hq. destruct H2 as [_ Hp]. apply (Hp r p Hr).
        rewrite <- Hq. unfold update_description.
        now destruct (String.eqb _ _). }
    destruct np as [p|]; [|now apply D].
    destruct (negb _); [exact H1|].
    destruct (String.eqb _ _); [exact H1|].
    destruct (archetypes_children _ _); [|exact H1].
    destruct (existsb _ _); [exact H1|].
    destruct (get_ship_id _ _) as [pid|e] eqn:Eg; [|exact H1].
    apply D. cbn [view].
    apply hierarchy_wf_map_archetypes; [| |exact H1].
    + intros r. unfold update_parentid. now destruct (String.eqb _ _).
    + intros r q Hr Hq. unfold update_parentid in Hq.
      destruct (String.eqb _ _); simpl in Hq.
      * subst pid. eapply get_ship_id_In; eauto.
      * destruct H1 as [_ Hp]. eauto.
Qed.

Lemma reachable_hierarchy_wf (s : FightDB) :
  reachable s -> hierarchy_wf (view s).
Proof.
  induction 1 as [|o s _ IH]; [|now apply hierarchy_wf_step].
  split; simpl; [constructor|]. intros r p [].
Qed.

(** X8.  In every reachable state the tables seen by the connection keep
    their keys and references: archetype names are unique, archetype ids are
    unique, every parentid is the id of an archetype row, Fight ids are
    unique, and both names of every Fight row are names of archetypes. *)
Theorem reachable_integrity (s : FightDB) :
  reachable s ->
  NoDup (map a_shipname (Archetypes (view s)))
  /\ NoDup (map a_id (Archetypes (view s)))
  /\ (forall r p, In r (Archetypes (view s)) -> a_parentid r = Some p ->
                  exists r', In r' (Archetypes (view s)) /\ a_id r' = p)
  /\ NoDup (map f_id (Fights (view s)))
  /\ (forall r, In r (Fights (view s)) ->
                archetype_exists (f_shipname1 r) (view s) = true
                /\ archetype_exists (f_shipname2 r) (view s) = true).
Proof.
  intros R. destruct (reachable_db_wf s R) as [[Hn Hi Hk _] _].
  destruct (reachable_hierarchy_wf s R) as [Hid Hp].
  split; [exact Hn|]. split; [exact Hid|]. split; [|split; [exact Hi|]].
  - intros r p Hr Hq. specialize (Hp r p Hr Hq).
    apply in_map_iff in Hp as (r' & E & Hr'). eauto.
  - unfold fight_names_known in Hk. rewrite Forall_forall in Hk. exact Hk.
Qed.

Lemma reachable_integrity_witness :
  NoDup (map a_shipname (Archetypes (view fleet_fought_db)))
  /\ NoDup (map a_id (Archetypes (view fleet_fought_db)))
  /\ (forall r p, In r (Archetypes (view fleet_fought_db)) ->
                  a_parentid r = Some p ->
                  exists r', In r' (Archetypes (view fleet_fought_db))
                             /\ a_id r' = p)
  /\ NoDup (map f_id (Fights (view fleet_fought_db)))
  /\ (forall r, In r (Fights (view fleet_fought_db)) ->
                archetype_exists (f_shipname1 r) (view fleet_fought_db) = true
                /\ archetype_exists (f_shipname2 r) (view fleet_fought_db)
                   = true).
Proof.
  apply (reachable_integrity fleet_fought_db).
  unfold fleet_fought_db, fleet_db. repeat apply reachable_step.
  apply reachable_empty.
Defined.

(** * Sequences of leaf writes *)









(** * Fan-out over children *)


















(** * Removing fights *)

Lemma remove_fight_run (n1 n2 x : string) (s : FightDB) :
  remove_fight n1 n2 x s
  = (mkFightDB (delete_fight_pair n1 n2 x (view s))
       (delete_fight_pair n1 n2 x (view s)), Ok tt).
Proof. reflexivity. Qed.

(** X12.  [remove_fight] never raises and commits; it deletes every row of
    the unordered pair and author and no other row, so the order of the two
    names does not matter and a second call changes nothing. *)
Theorem remove_fight_pair (s : FightDB) (n1 n2 x : string) :
  exists s',
    remove_fight n1 n2 x s = (s', Ok tt)
    /\ committed s' = view s'
    /\ Archetypes (view s') = Archetypes (view s)
    /\ filter (pair_author_match n1 n2 x) (Fights (view s')) = []
    /\ filter (fun r => negb (pair_author_match n1 n2 x r)) (Fights (view s'))
       = filter (fun r => negb (pair_author_match n1 n2 x r))
           (Fights (view s))
    /\ remove_fight n2 n1 x s = (s', Ok tt)
    /\ remove_fight n1 n2 x s' = (s', Ok tt).
Proof.
  eexists. split; [apply remove_fight_run|]. cbn [view committed].
  split; [reflexivity|]. split; [reflexivity|].
  assert (E : filter (pair_author_match n1 n2 x)
                (Fights (delete_fight_pair n1 n2 x (view s))) = []).
  { simpl. apply filter_none. intros r Hr.
    apply filter_In in Hr as [_ Hr]. now apply negb_true_iff in Hr. }
  assert (I : filter (fun r => negb (pair_author_match n1 n2 x r))
                (Fights (delete_fight_pair n1 n2 x (view s)))
              = Fights (delete_fight_pair n1 n2 x (view s))).
  { simpl. apply filter_filter_same. auto. }
  split; [exact E|]. split; [exact I|]. split.
  - rewrite remove_fight_run.
    assert (D : delete_fight_pair n2 n1 x (view s)
                = delete_fight_pair n1 n2 x (view s)).
    { unfold delete_fight_pair. f_equal. apply filter_ext. intros r.
      now rewrite pair_author_match_sym. }
    now rewrite D.
  - rewrite remove_fight_run. cbn [view].
    assert (D : delete_fight_pair n1 n2 x
                  (delete_fight_pair n1 n2 x (view s))
                = delete_fight_pair n1 n2 x (view s)).
    { unfold delete_fight_pair at 1. cbn [Archetypes].
      change (Fights (delete_fight_pair n1 n2 x (view s)))
        with (filter (fun r => negb (pair_author_match n1 n2 x r))
                (Fights (view s))) in I |- *.
      now rewrite I. }
    now rewrite D.
Qed.



(** * From a report to the read path *)

Lemma leaf_write_Fights (a b x an : string) (res : Z) (t : Tables) :
  Fights (leaf_write a b x an res t)
  = (Fights (dedupe a b x t)
     ++ [mkFight (next_id (map f_id (Fights (dedupe a b x t)))) a b x an res])%list.
Proof. reflexivity. Qed.



(** X15.  [insert_fight] stores the result it is given: a LOSE report on two
    leaves with no earlier row of the pair by the author appends the row with
    result -1, and no count of [simulate_fight] or [get_average_match] sees
    it: for any two names the tallies are those before the report. *)
Theorem insert_fight_lose_stored (depth : nat) (s : FightDB)
  (a b x an : string) :
  ship_is_leaf a (view s) = Ok true ->
  ship_is_leaf b (view s) = Ok true ->
  filter (pair_author_match a b x) (Fights (view s)) = [] ->
  exists s' i,
    insert_fight (S depth) a b x an FIGHT_RESULT.LOSE s = (s', Ok tt)
    /\ Fights (view s')
       = (Fights (view s) ++ [mkFight i a b x an FIGHT_RESULT.LOSE])%list
    /\ forall n1 n2,
         simulate_fight n1 n2 (view s') = simulate_fight n1 n2 (view s)
         /\ get_average_match n1 n2 (view s')
            = get_average_match n1 n2 (view s).
Proof.
  intros La Lb Hnone.
  set (t' := leaf_write a b x an FIGHT_RESULT.LOSE (view s)).
  assert (A : Archetypes t' = Archetypes (view s))
    by apply leaf_write_Archetypes.
  assert (D : dedupe a b x (view s) = view s).
  { unfold dedupe. destruct (find _ _) as [r|] eqn:Ef; [|reflexivity].
    apply find_some in Ef as [Hr Hm].
    rewrite (filter_nil_inv _ _ r Hnone Hr) in Hm. discriminate. }
  assert (F : Fights t'
              = (Fights (view s)
                 ++ [mkFight (next_id (map f_id (Fights (view s)))) a b x an
                       FIGHT_RESULT.LOSE])%list).
  { unfold t'. now rewrite leaf_write_Fights, D. }
  exists (mkFightDB t' t'), (next_id (map f_id (Fights (view s)))).
  split; [now apply insert_fight_leaves|]. cbn [view].
  split; [exact F|]. intros n1 n2. split.
  - unfold simulate_fight. rewrite !(archetype_exists_same _ _ _ A).
    rewrite F, !filter_app. cbn. rewrite !andb_false_r. cbn.
    now rewrite !app_nil_r.
  - unfold get_average_match, count_fights.
    rewrite F, !filter_app. cbn. rewrite !andb_false_r. cbn.
    now rewrite !app_nil_r.
Qed.

Lemma insert_fight_lose_stored_witness :
  exists s' i,
    insert_fight 1 "Destroyer" "Corvette" "u1" "Alice" FIGHT_RESULT.LOSE
      two_roots_db = (s', Ok tt)
    /\ Fights (view s')
       = (Fights (view two_roots_db)
          ++ [mkFight i "Destroyer" "Corvette" "u1" "Alice"
                FIGHT_RESULT.LOSE])%list
    /\ forall n1 n2,
         simulate_fight n1 n2 (view s')
         = simulate_fight n1 n2 (view two_roots_db)
         /\ get_average_match n1 n2 (view s')
            = get_average_match n1 n2 (view two_roots_db).
Proof.
  apply (insert_fight_lose_stored 0 two_roots_db "Destroyer" "Corvette" "u1"
           "Alice"); reflexivity.
Defined.

(** * Adding archetypes *)

Lemma add_ship_run (n : string) (p d : option string) (s : FightDB) :
  add_ship n p d s =
  if archetype_exists n (view s) then (s, Ok tt)
  else
    match get_ship_id p (view s) with
    | Raise e => (s, Raise e)
    | Ok pid =>
        (mkFightDB (insert_archetype n pid d (view s))
           (insert_archetype n pid d (view s)), Ok tt)
    end.
Proof.
  unfold add_ship, bind, query, execute, commit, ret. simpl.
  destruct (archetype_exists n (view s)); simpl; [reflexivity|].
  destruct (get_ship_id p (view s)); reflexivity.
Qed.

Lemma find_app_none {A} (f : A -> bool) (l1 l2 : list A) :
  find f l1 = None -> find f (l1 ++ l2)%list = find f l2.
Proof.
  induction l1 as [|a l1 IH]; simpl; [reflexivity|].
  destruct (f a); [discriminate|exact IH].
Qed.

Lemma find_app_some {A} (f : A -> bool) (l1 l2 : list A) (a : A) :
  find f l1 = Some a -> find f (l1 ++ l2)%list = Some a.
Proof.
  induction l1 as [|b l1 IH]; simpl; [discriminate|].
  destruct (f b); [trivial|exact IH].
Qed.

Lemma archetype_missing_find (n : string) (t : Tables) :
  archetype_exists n t = false ->
  find (fun r => String.eqb (a_shipname r) n) (Archetypes t) = None.
Proof.
  intros E. destruct (find _ _) as [r|] eqn:Ef; [|reflexivity].
  apply find_some in Ef as [Hr Hn].
  assert (archetype_exists n t = true); [|congruence].
  apply existsb_exists. eauto.
Qed.

(** X16.  Adding and looking up: for a name that no archetype has and a
    parent that is [None] or the name of an archetype, [add_ship] returns
    normally and commits; afterwards the name exists, its id is a new one,
    [get_ships_parentid] gives the id of the parent, [get_ship_description]
    the description (the empty string when none was given), every earlier
    name keeps its id, and the Fights table is untouched. *)
Theorem add_ship_lookup (s : FightDB) (n : string) (p d : option string)
  (pid : option Z) :
  archetype_exists n (view s) = false ->
  get_ship_id p (view s) = Ok pid ->
  exists s',
    add_ship n p d s = (s', Ok tt)
    /\ committed s' = view s'
    /\ archetype_exists n (view s') = true
    /\ get_ship_id (Some n) (view s')
       = Ok (Some (next_id (map a_id (Archetypes (view s)))))
    /\ ~ In (next_id (map a_id (Archetypes (view s))))
         (map a_id (Archetypes (view s)))
    /\ get_ships_parentid (Some n) (view s') = pid
    /\ get_ship_description (Some n) (view s')
       = Ok (Some (match d with Some text => text | None => "" end))
    /\ (forall m i, get_ship_id (Some m) (view s) = Ok i ->
                    get_ship_id (Some m) (view s') = Ok i)
    /\ Fights (view s') = Fights (view s).
Proof.
  intros En Eg. rewrite add_ship_run, En, Eg.
  eexists. split; [reflexivity|]. cbn [view committed].
  assert (Fn := archetype_missing_find n _ En).
  split; [reflexivity|]. split.
  { apply archetype_exists_In. simpl. rewrite map_app, in_app_iff.
    right. now left. }
  unfold get_ship_id, get_ships_parentid, get_ship_description.
  cbn [insert_archetype Archetypes Fights].
  rewrite (find_app_none _ _ _ Fn). cbn. rewrite String.eqb_refl. cbn.
  split; [reflexivity|]. split; [apply next_id_fresh|].
  split; [reflexivity|]. split; [now destruct d|]. split; [|reflexivity].
  intros m i.
  destruct (find (fun r => String.eqb (a_shipname r) m)
              (Archetypes (view s))) as [r|] eqn:Ef;
    [|intros H; discriminate].
  now rewrite (find_app_some _ _ _ _ Ef).
Qed.

Lemma add_ship_lookup_witness :
  exists s',
    add_ship "Scout" (Some "Corvette") (Some "fast") fleet_db = (s', Ok tt)
    /\ committed s' = view s'
    /\ archetype_exists "Scout" (view s') = true
    /\ get_ship_id (Some "Scout") (view s')
       = Ok (Some (next_id (map a_id (Archetypes (view fleet_db)))))
    /\ ~ In (next_id (map a_id (Archetypes (view fleet_db))))
         (map a_id (Archetypes (view fleet_db)))
    /\ get_ships_parentid (Some "Scout") (view s') = Some 2
    /\ get_ship_description (Some "Scout") (view s')
       = Ok (Some "fast")
    /\ (forall m i, get_ship_id (Some m) (view fleet_db) = Ok i ->
                    get_ship_id (Some m) (view s') = Ok i)
    /\ Fights (view s') = Fights (view fleet_db).
Proof.
  apply (add_ship_lookup fleet_db "Scout" (Some "Corvette") (Some "fast")
           (Some 2)); reflexivity.
Defined.

(** X17.  [add_ship] on a name that exists returns normally and changes
    nothing, not even what is committed; with a parent name that no archetype
    has it raises TypeError (from [get_ship_id]) and changes nothing; and
    calling it twice with the same arguments leaves the state of the first
    call. *)
Theorem add_ship_again (s : FightDB) (n : string) (p d : option string) :
  (archetype_exists n (view s) = true -> add_ship n p d s = (s, Ok tt))
  /\ (forall q, archetype_exists n (view s) = false ->
                archetype_exists q (view s) = false ->
                add_ship n (Some q) d s = (s, Raise TypeError))
  /\ run (add_ship n p d) (run (add_ship n p d) s) = run (add_ship n p d) s.
Proof.
  split; [|split].
  - intros E. now rewrite add_ship_run, E.
  - intros q En Eq. rewrite add_ship_run, En.
    now rewrite (get_ship_id_missing q _ Eq).
  - unfold run. rewrite (add_ship_run n p d s).
    destruct (archetype_exists n (view s)) eqn:En.
    + cbn [fst]. now rewrite add_ship_run, En.
    + destruct (get_ship_id p (view s)) as [pid|e] eqn:Eg; cbn [fst].
      * rewrite add_ship_run. cbn [view].
        assert (E : archetype_exists n (insert_archetype n pid d (view s))
                    = true).
        { apply archetype_exists_In. simpl. rewrite map_app, in_app_iff.
          right. now left. }
        now rewrite E.
      * now rewrite add_ship_run, En, Eg.
Qed.

Lemma add_ship_again_witness :
  add_ship "Destroyer" (Some "Corvette") None fleet_db = (fleet_db, Ok tt).
Proof.
  apply (proj1 (add_ship_again fleet_db "Destroyer" (Some "Corvette") None)).
  reflexivity.
Defined.

(** * What rename sets *)

Lemma find_map_same {A} (f : A -> bool) (g : A -> A) (l : list A) :
  (forall a, f (g a) = f a) ->
  find f (map g l) = option_map g (find f l).
Proof.
  intros H. induction l as [|a l IH]; simpl; [reflexivity|].
  rewrite H. destruct (f a); [reflexivity|exact IH].
Qed.

Lemma find_name_update (m : string) (g : Archetype -> Archetype)
  (l : list Archetype) :
  (forall r, a_shipname (g r) = a_shipname r) ->
  find (fun r => String.eqb (a_shipname r) m) (map g l)
  = option_map g (find (fun r => String.eqb (a_shipname r) m) l).
Proof.
  intros H. apply (find_map_same (fun r => String.eqb (a_shipname r) m)).
  intros r. now rewrite H.
Qed.

Lemma rename_ship_description_only (s : FightDB) (old d : string) :
  archetype_exists old (view s) = true ->
  rename_ship old None None (Some d) s
  = (mkFightDB (map_archetypes (update_description d old) (view s))
       (map_archetypes (update_description d old) (view s)),
     Ok (("Changes of " ++ old ++ ": ") ++ " description changed to " ++ d)).
Proof.
  intros Eo. rewrite rename_ship_unfold, rename_new_name_run, Eo.
  reflexivity.
Qed.

(** X18.  [rename_ship old (new_description = d)] on an existing archetype
    returns normally and commits; afterwards [get_ship_description old] is
    [d], every other name keeps its description, every row keeps its id, name
    and parent, and the Fights table is untouched. *)
Theorem rename_ship_sets_description (s : FightDB) (old d : string) :
  archetype_exists old (view s) = true ->
  exists s',
    rename_ship old None None (Some d) s
    = (s', Ok (("Changes of " ++ old ++ ": ")
               ++ " description changed to " ++ d))
    /\ committed s' = view s'
    /\ get_ship_description (Some old) (view s') = Ok (Some d)
    /\ (forall m, m <> old ->
                  get_ship_description (Some m) (view s')
                  = get_ship_description (Some m) (view s))
    /\ map (fun r => (a_id r, a_shipname r, a_parentid r))
         (Archetypes (view s'))
       = map (fun r => (a_id r, a_shipname r, a_parentid r))
           (Archetypes (view s))
    /\ Fights (view s') = Fights (view s).
Proof.
  intros Eo. eexists. split; [now apply rename_ship_description_only|].
  cbn [view committed]. split; [reflexivity|].
  unfold get_ship_description. cbn [map_archetypes Archetypes Fights].
  assert (N : forall m,
            find (fun r => String.eqb (a_shipname r) m)
              (map (update_description d old) (Archetypes (view s)))
            = option_map (update_description d old)
                (find (fun r => String.eqb (a_shipname r) m)
                   (Archetypes (view s)))).
  { intros m. apply find_name_update. apply update_description_name. }
  split; [|split; [|split]].
  - rewrite N. apply get_ship_id_exists in Eo as [i Ei].
    unfold get_ship_id in Ei.
    destruct (find _ _) as [r|] eqn:Ef; [|discriminate]. cbn.
    apply find_some in Ef as [_ En]. unfold update_description.
    now rewrite En.
  - intros m Hm. rewrite N.
    destruct (find _ _) as [r|] eqn:Ef; [|reflexivity]. cbn.
    apply find_some in Ef as [_ En]. apply String.eqb_eq in En.
    unfold update_description.
    destruct (String.eqb_spec (a_shipname r) old); [congruence|reflexivity].
  - rewrite map_map. apply map_ext. intros r. unfold update_description.
    now destruct (String.eqb _ _).
  - reflexivity.
Qed.

Lemma rename_ship_sets_description_witness :
  exists s',
    rename_ship "Corvette" None None (Some "escort") fleet_db
    = (s', Ok (("Changes of " ++ "Corvette" ++ ": ")
               ++ " description changed to " ++ "escort"))
    /\ committed s' = view s'
    /\ get_ship_description (Some "Corvette") (view s') = Ok (Some "escort")
    /\ (forall m, m <> "Corvette" ->
                  get_ship_description (Some m) (view s')
                  = get_ship_description (Some m) (view fleet_db))
    /\ map (fun r => (a_id r, a_shipname r, a_parentid r))
         (Archetypes (view s'))
       = map (fun r => (a_id r, a_shipname r, a_parentid r))
           (Archetypes (view fleet_db))
    /\ Fights (view s') = Fights (view fleet_db).
Proof.
  apply (rename_ship_sets_description fleet_db "Corvette" "escort").
  reflexivity.
Defined.

(** X19.  [rename_ship old (new_parent_name = p)], for existing [old] and
    [p] with [p] neither [old] nor a direct child of [old], returns normally
    and commits; afterwards [get_ships_parentid old] is the id of [p], [old]
    is among the children of [p], [p] is not a leaf, every row keeps its id,
    name and description, and the Fights table is untouched. *)
Theorem rename_ship_sets_parent (s : FightDB) (old p : string) (pid : Z)
  (cs : list string) :
  get_ship_id (Some p) (view s) = Ok (Some pid) ->
  archetypes_children old (view s) = Ok cs ->
  p <> old -> ~ In p cs ->
  exists s',
    rename_ship old None (Some p) None s
    = (s', Ok (("Changes of " ++ old ++ ": ")
               ++ " parent changed to " ++ p ++ ", "))
    /\ committed s' = view s'
    /\ get_ships_parentid (Some old) (view s') = Some pid
    /\ (exists cs', archetypes_children p (view s') = Ok cs' /\ In old cs')
    /\ ship_is_leaf p (view s') = Ok false
    /\ map (fun r => (a_id r, a_shipname r, a_description r))
         (Archetypes (view s'))
       = map (fun r => (a_id r, a_shipname r, a_description r))
           (Archetypes (view s))
    /\ Fights (view s') = Fights (view s).
Proof.
  intros Eg Hc Hpo Hnc.
  assert (Eo := archetypes_children_exists _ _ _ Hc).
  assert (Ep : archetype_exists p (view s) = true)
    by (apply get_ship_id_exists; eauto).
  assert (X : existsb (fun child => String.eqb child p) cs = false).
  { apply not_true_is_false. intros H. apply existsb_exists in H as (c & Hc' & E).
    apply String.eqb_eq in E. subst c. contradiction. }
  set (t' := map_archetypes (update_parentid (Some pid) old) (view s)).
  assert (R : rename_ship old None (Some p) None s
              = (mkFightDB t' t',
                 Ok (("Changes of " ++ old ++ ": ")
                     ++ " parent changed to " ++ p ++ ", "))).
  { rewrite rename_ship_unfold, rename_new_name_run, Eo. cbn [negb fst snd].
    rewrite rename_new_parent_run, Ep, Hc, X, Eg. cbn [negb].
    rewrite (proj2 (String.eqb_neq p old) Hpo). reflexivity. }
  exists (mkFightDB t' t'). split; [exact R|]. cbn [view committed].
  split; [reflexivity|].
  assert (N : forall m,
            find (fun r => String.eqb (a_shipname r) m) (Archetypes t')
            = option_map (update_parentid (Some pid) old)
                (find (fun r => String.eqb (a_shipname r) m)
                   (Archetypes (view s)))).
  { intros m. apply find_name_update. apply update_parentid_name. }
  assert (Io : forall r, a_id (update_parentid (Some pid) old r) = a_id r).
  { intros r. unfold update_parentid. now destruct (String.eqb _ _). }
  assert (Gp : get_ship_id (Some p) t' = Ok (Some pid)).
  { unfold get_ship_id in *. rewrite N.
    destruct (find _ (Archetypes (view s))) as [r|]; [|discriminate].
    cbn. now rewrite Io. }
  assert (Ro : exists r, In r (Archetypes t') /\ a_shipname r = old
                         /\ a_parentid r = Some pid).
  { apply get_ship_id_exists in Eo as [i Ei]. unfold get_ship_id in Ei.
    destruct (find _ _) as [r|] eqn:Ef; [|discriminate].
    apply find_some in Ef as [Hr En].
    exists (update_parentid (Some pid) old r). split.
    - unfold t'. simpl. now apply in_map.
    - unfold update_parentid. rewrite En. simpl.
      apply String.eqb_eq in En. auto. }
  destruct Ro as (ro & Hro & Nro & Pro).
  assert (Sel : sql_eqZ (a_parentid ro) (Some pid) = true)
    by (rewrite Pro; simpl; apply Z.eqb_refl).
  split; [|split; [|split; [|split]]].
  - unfold get_ships_parentid. rewrite N.
    apply get_ship_id_exists in Eo as [i Ei]. unfold get_ship_id in Ei.
    destruct (find _ _) as [r|] eqn:Ef; [|discriminate]. cbn.
    apply find_some in Ef as [_ En]. unfold update_parentid.
    now rewrite En.
  - unfold archetypes_children. rewrite Gp. eexists. split; [reflexivity|].
    apply in_map_iff. exists ro. split; [exact Nro|].
    apply filter_In. auto.
  - unfold ship_is_leaf. rewrite Gp. f_equal. apply negb_false_iff.
    apply existsb_exists. eauto.
  - unfold t'. simpl. rewrite map_map. apply map_ext. intros r.
    unfold update_parentid. now destruct (String.eqb _ _).
  - reflexivity.
Qed.

Lemma rename_ship_sets_parent_witness :
  exists s',
    rename_ship "Destroyer" None (Some "Corvette") None fleet_db
    = (s', Ok (("Changes of " ++ "Destroyer" ++ ": ")
               ++ " parent changed to " ++ "Corvette" ++ ", "))
    /\ committed s' = view s'
    /\ get_ships_parentid (Some "Destroyer") (view s') = Some 2
    /\ (exists cs', archetypes_children "Corvette" (view s') = Ok cs'
                    /\ In "Destroyer" cs')
    /\ ship_is_leaf "Corvette" (view s') = Ok false
    /\ map (fun r => (a_id r, a_shipname r, a_description r))
         (Archetypes (view s'))
       = map (fun r => (a_id r, a_shipname r, a_description r))
           (Archetypes (view fleet_db))
    /\ Fights (view s') = Fights (view fleet_db).
Proof.
  apply (rename_ship_sets_parent fleet_db "Destroyer" "Corvette" 2 []).
  - reflexivity.
  - reflexivity.
  - discriminate.
  - intros [].
Defined.

Lemma find_renamed (new old m : string) (l : list Archetype) :
  m <> old -> m <> new ->
  find (fun r => String.eqb (a_shipname r) m)
    (map (update_shipname new old) l)
  = option_map (update_shipname new old)
      (find (fun r => String.eqb (a_shipname r) m) l).
Proof.
  intros Hmo Hmn. induction l as [|r l IH]; simpl; [reflexivity|].
  rewrite update_shipname_name. unfold subst_name.
  destruct (String.eqb_spec (a_shipname r) old) as [Eo|Eo].
  - rewrite (proj2 (String.eqb_neq new m)) by congruence.
    rewrite (proj2 (String.eqb_neq (a_shipname r) m)) by congruence.
    exact IH.
  - destruct (String.eqb (a_shipname r) m); [reflexivity|exact IH].
Qed.

Lemma find_renamed_old (new old : string) (l : list Archetype) :
  find (fun r => String.eqb (a_shipname r) new) l = None ->
  find (fun r => String.eqb (a_shipname r) new)
    (map (update_shipname new old) l)
  = option_map (update_shipname new old)
      (find (fun r => String.eqb (a_shipname r) old) l).
Proof.
  intros Hn. induction l as [|r l IH]; simpl in *; [reflexivity|].
  destruct (String.eqb_spec (a_shipname r) new) as [E|E]; [discriminate|].
  rewrite update_shipname_name. unfold subst_name.
  destruct (String.eqb_spec (a_shipname r) old) as [Eo|Eo].
  - now rewrite String.eqb_refl.
  - rewrite (proj2 (String.eqb_neq _ _) E). now apply IH.
Qed.

(** X20.  [rename_ship old (new_name = n)], for an existing [old] and a name
    [n] that no archetype has, returns normally and commits; afterwards no
    archetype is named [old], and [n] has the id, the parent and the
    description that [old] had; every other name keeps its id. *)
Theorem rename_ship_keeps_identity (s : FightDB) (old n : string) :
  archetype_exists old (view s) = true ->
  archetype_exists n (view s) = false ->
  exists s',
    rename_ship old (Some n) None None s
    = (s', Ok (("Changes of " ++ old ++ ": ")
               ++ " renamed to " ++ n ++ ", "))
    /\ committed s' = view s'
    /\ archetype_exists old (view s') = false
    /\ archetype_exists n (view s') = true
    /\ get_ship_id (Some n) (view s') = get_ship_id (Some old) (view s)
    /\ get_ships_parentid (Some n) (view s')
       = get_ships_parentid (Some old) (view s)
    /\ get_ship_description (Some n) (view s')
       = get_ship_description (Some old) (view s)
    /\ (forall m, m <> old -> m <> n ->
                  get_ship_id (Some m) (view s') = get_ship_id (Some m) (view s)).
Proof.
  intros Eo En.
  assert (Hne : n <> old) by (intros ->; congruence).
  exists (mkFightDB (renamed n old (view s)) (renamed n old (view s))).
  split; [now apply rename_ship_name_only|]. cbn [view committed].
  split; [reflexivity|]. split; [now apply renamed_old_gone|].
  assert (Fn := archetype_missing_find n _ En).
  assert (A : Archetypes (renamed n old (view s))
              = map (update_shipname n old) (Archetypes (view s)))
    by reflexivity.
  assert (Fo := find_renamed_old n old _ Fn).
  assert (row : forall r,
            a_id (update_shipname n old r) = a_id r
            /\ a_parentid (update_shipname n old r) = a_parentid r
            /\ a_description (update_shipname n old r) = a_description r).
  { intros r. unfold update_shipname. now destruct (String.eqb _ _). }
  split; [|split; [|split; [|split]]].
  - apply archetype_exists_In. rewrite renamed_names.
    apply archetype_exists_In in Eo.
    apply (in_map (subst_name n old)) in Eo.
    unfold subst_name at 1 in Eo. now rewrite String.eqb_refl in Eo.
  - unfold get_ship_id. rewrite A, Fo.
    destruct (find (fun r => String.eqb (a_shipname r) old)
                (Archetypes (view s))) as [r|]; cbn; [|reflexivity].
    now rewrite (proj1 (row r)).
  - unfold get_ships_parentid. rewrite A, Fo.
    destruct (find (fun r => String.eqb (a_shipname r) old)
                (Archetypes (view s))) as [r|]; cbn; [|reflexivity].
    apply (row r).
  - unfold get_ship_description. rewrite A, Fo.
    destruct (find (fun r => String.eqb (a_shipname r) old)
                (Archetypes (view s))) as [r|]; cbn; [|reflexivity].
    destruct (row r) as (_ & _ & ->). reflexivity.
  - intros m Hmo Hmn. unfold get_ship_id. rewrite A.
    rewrite (find_renamed n old m _ Hmo Hmn).
    destruct (find (fun r => String.eqb (a_shipname r) m)
                (Archetypes (view s))) as [r|]; cbn; [|reflexivity].
    now rewrite (proj1 (row r)).
Qed.

Lemma rename_ship_keeps_identity_witness :
  exists s',
    rename_ship "RaiderMk2" (Some "Raptor") None None fleet_fought_db
    = (s', Ok (("Changes of " ++ "RaiderMk2" ++ ": ")
               ++ " renamed to " ++ "Raptor" ++ ", "))
    /\ committed s' = view s'
    /\ archetype_exists "RaiderMk2" (view s') = false
    /\ archetype_exists "Raptor" (view s') = true
    /\ get_ship_id (Some "Raptor") (view s')
       = get_ship_id (Some "RaiderMk2") (view fleet_fought_db)
    /\ get_ships_parentid (Some "Raptor") (view s')
       = get_ships_parentid (Some "RaiderMk2") (view fleet_fought_db)
    /\ get_ship_description (Some "Raptor") (view s')
       = get_ship_description (Some "RaiderMk2") (view fleet_fought_db)
    /\ (forall m, m <> "RaiderMk2" -> m <> "Raptor" ->
                  get_ship_id (Some m) (view s')
                  = get_ship_id (Some m) (view fleet_fought_db)).
Proof.
  apply (rename_ship_keeps_identity fleet_fought_db "RaiderMk2" "Raptor");
    reflexivity.
Defined.

Lemma map_filter_map {A B} (g : A -> A) (h : A -> B) (p q : A -> bool)
  (l : list A) :
  (forall a, In a l -> p (g a) = q a /\ h (g a) = h a) ->
  map h (filter p (map g l)) = map h (filter q l).
Proof.
  induction l as [|a l IH]; simpl; intros H; [reflexivity|].
  destruct (H a (or_introl eq_refl)) as [-> Eh].
  assert (IH' := IH (fun b Hb => H b (or_intror Hb))).
  destruct (q a); simpl; [now rewrite Eh, IH'|exact IH'].
Qed.

(** X21.  History follows a rename: in a reachable store, after
    [rename_ship old (new_name = n)] with [n] a new name, [get_matchups n]
    lists against every opponent other than [old] and [n] the wins, draws and
    losses that [get_matchups old] listed before, for every player filter. *)
Theorem rename_ship_keeps_matchups (s : FightDB) (old n : string)
  (pn : option string) :
  reachable s ->
  archetype_exists old (view s) = true ->
  archetype_exists n (view s) = false ->
  exists s' w d l w' d' l',
    rename_ship old (Some n) None None s
    = (s', Ok (("Changes of " ++ old ++ ": ")
               ++ " renamed to " ++ n ++ ", "))
    /\ get_matchups old pn (view s) = Ok (w, d, l)
    /\ get_matchups n pn (view s') = Ok (w', d', l')
    /\ forall o, o <> old -> o <> n ->
         dict_values o w' = dict_values o w
         /\ dict_values o d' = dict_values o d
         /\ dict_values o l' = dict_values o l.
Proof.
  intros R Eo En.
  destruct (reachable_db_wf s R) as [[_ _ Hk _] _].
  unfold fight_names_known in Hk. rewrite Forall_forall in Hk.
  set (t' := renamed n old (view s)).
  assert (En' : archetype_exists n t' = true).
  { apply archetype_exists_In. unfold t'. rewrite renamed_names.
    apply archetype_exists_In in Eo.
    apply (in_map (subst_name n old)) in Eo.
    unfold subst_name at 1 in Eo. now rewrite String.eqb_refl in Eo. }
  destruct (get_matchups_rows (view s) old pn Eo)
    as (w & d & l & Eg & _ & _ & _ & V & _).
  destruct (get_matchups_rows t' n pn En')
    as (w' & d' & l' & Eg' & _ & _ & _ & V' & _).
  exists (mkFightDB t' t'), w, d, l, w', d', l'.
  split; [now apply rename_ship_name_only|]. split; [exact Eg|].
  split; [exact Eg'|]. intros o Ho Hn.
  destruct (V o) as (Vw & Vd & Vl). destruct (V' o) as (Vw' & Vd' & Vl').
  rewrite Vw, Vd, Vl, Vw', Vd', Vl'. unfold t'. rewrite renamed_Fights.
  assert (side : forall r, In r (Fights (view s)) ->
            let r' := update_shipname2 n old (update_shipname1 n old r) in
            player_matches pn r' = player_matches pn r
            /\ f_result r' = f_result r
            /\ f_author_name r' = f_author_name r
            /\ String.eqb (f_shipname1 r') n = String.eqb (f_shipname1 r) old
            /\ String.eqb (f_shipname2 r') n = String.eqb (f_shipname2 r) old
            /\ String.eqb (f_shipname1 r') o = String.eqb (f_shipname1 r) o
            /\ String.eqb (f_shipname2 r') o = String.eqb (f_shipname2 r) o).
  { intros r Hr. cbv zeta.
    destruct (rename_fight_fields n old r) as (_ & _ & Ean & Eres & E1 & E2).
    cbv zeta in Ean, Eres, E1, E2.
    destruct (Hk r Hr) as [K1 K2].
    assert (N1 : f_shipname1 r <> n) by (intros E; rewrite E in K1; congruence).
    assert (N2 : f_shipname2 r <> n) by (intros E; rewrite E in K2; congruence).
    rewrite E1, E2, Eres, Ean. unfold player_matches. rewrite Ean.
    unfold subst_name.
    split; [reflexivity|]. split; [reflexivity|]. split; [reflexivity|].
    destruct (String.eqb_spec (f_shipname1 r) old),
      (String.eqb_spec (f_shipname2 r) old);
      repeat split;
      repeat match goal with
             | |- context [String.eqb ?u ?v] =>
                 destruct (String.eqb_spec u v); try congruence
             end; reflexivity. }
  split; [|split]; apply map_filter_map; intros r Hr;
    destruct (side r Hr) as (Sp & Sr & Sa & S1n & S2n & S1o & S2o);
    (split; [|exact Sa]);
    unfold won_against, drew_against, lost_against;
    rewrite ?Sp, ?Sr, ?S1n, ?S2n, ?S1o, ?S2o; reflexivity.
Qed.

Lemma rename_ship_keeps_matchups_witness :
  exists s' w d l w' d' l',
    rename_ship "RaiderMk1" (Some "Raptor") None None fleet_fought_db
    = (s', Ok (("Changes of " ++ "RaiderMk1" ++ ": ")
               ++ " renamed to " ++ "Raptor" ++ ", "))
    /\ get_matchups "RaiderMk1" None (view fleet_fought_db) = Ok (w, d, l)
    /\ get_matchups "Raptor" None (view s') = Ok (w', d', l')
    /\ forall o, o <> "RaiderMk1" -> o <> "Raptor" ->
         dict_values o w' = dict_values o w
         /\ dict_values o d' = dict_values o d
         /\ dict_values o l' = dict_values o l.
Proof.
  apply (rename_ship_keeps_matchups fleet_fought_db "RaiderMk1" "Raptor" None).
  - unfold fleet_fought_db, fleet_db. repeat apply reachable_step.
    apply reachable_empty.
  - reflexivity.
  - reflexivity.
Defined.

(** * Lookups by name *)

(** X22.  Lookups of a name without a row differ: [get_ships_parentid]
    returns [None], while [get_ship_description] raises TypeError like
    [get_ship_id]; for a name with a row [get_ship_description] returns a
    string, the empty one when the description is NULL, and
    [get_ships_parentid] returns the parentid of the row whose id
    [get_ship_id] returns. *)
Theorem lookups_by_name (t : Tables) (n : string) :
  (archetype_exists n t = false ->
   get_ships_parentid (Some n) t = None
   /\ get_ship_description (Some n) t = Raise TypeError
   /\ get_ship_id (Some n) t = Raise TypeError)
  /\ (archetype_exists n t = true ->
      exists r,
        In r (Archetypes t) /\ a_shipname r = n
        /\ get_ship_id (Some n) t = Ok (Some (a_id r))
        /\ get_ships_parentid (Some n) t = a_parentid r
        /\ get_ship_description (Some n) t
           = Ok (Some (match a_description r with
                       | Some text => text
                       | None => ""
                       end))).
Proof.
  unfold get_ships_parentid, get_ship_description, get_ship_id. split.
  - intros E. now rewrite (archetype_missing_find n t E).
  - intros E. apply get_ship_id_exists in E as [i Ei].
    unfold get_ship_id in Ei.
    destruct (find _ _) as [r|] eqn:Ef; [|discriminate].
    apply find_some in Ef as [Hr En]. apply String.eqb_eq in En.
    exists r. split; [exact Hr|]. split; [exact En|].
    split; [reflexivity|]. split; [reflexivity|].
    now destruct (a_description r).
Qed.

Lemma lookups_by_name_witness :
  get_ships_parentid (Some "Ghost") (view fleet_db) = None
  /\ get_ship_description (Some "Ghost") (view fleet_db) = Raise TypeError
  /\ get_ship_id (Some "Ghost") (view fleet_db) = Raise TypeError.
Proof.
  apply (proj1 (lookups_by_name (view fleet_db) "Ghost")). reflexivity.
Defined.

(** * New archetypes and unknown matchups *)

(** X23.  In a reachable store, an archetype just added under a new name is
    a leaf and an unknown matchup of every ship that existed before, for
    every player filter. *)
Theorem new_leaf_is_unknown (s : FightDB) (n ship : string)
  (p d pn : option string) (pid : option Z) :
  reachable s ->
  archetype_exists n (view s) = false ->
  get_ship_id p (view s) = Ok pid ->
  archetype_exists ship (view s) = true ->
  exists s' l,
    add_ship n p d s = (s', Ok tt)
    /\ ship_is_leaf n (view s') = Ok true
    /\ get_unknown_matchups ship pn (view s') = Ok l
    /\ In n l.
Proof.
  intros R En Eg Es.
  destruct (reachable_db_wf s R) as [[_ _ Hk _] _].
  destruct (reachable_hierarchy_wf s R) as [_ Hp].
  unfold fight_names_known in Hk. rewrite Forall_forall in Hk.
  set (t' := insert_archetype n pid d (view s)).
  set (i := next_id (map a_id (Archetypes (view s)))).
  assert (Fn := archetype_missing_find n _ En).
  assert (Gn : get_ship_id (Some n) t' = Ok (Some i)).
  { unfold get_ship_id, t'. cbn [insert_archetype Archetypes].
    rewrite (find_app_none _ _ _ Fn). cbn. now rewrite String.eqb_refl. }
  assert (Ln : ship_is_leaf n t' = Ok true).
  { unfold ship_is_leaf. rewrite Gn. f_equal. apply negb_true_iff.
    apply not_true_is_false. intros H.
    apply existsb_exists in H as (r & Hr & Hm).
    unfold sql_eqZ in Hm. destruct (a_parentid r) as [q|] eqn:Eq;
      [|discriminate].
    apply Z.eqb_eq in Hm. subst q.
    assert (In i (map a_id (Archetypes (view s)))).
    { unfold t' in Hr. cbn [insert_archetype Archetypes] in Hr.
      apply in_app_iff in Hr as [Hr|[<-|[]]].
      - eapply Hp; eauto.
      - simpl in Eq. subst pid. eapply get_ship_id_In; eauto. }
    now apply next_id_fresh in H. }
  assert (Es' : archetype_exists ship t' = true).
  { apply archetype_exists_In. unfold t'. simpl.
    rewrite map_app, in_app_iff. left. now apply archetype_exists_In. }
  destruct (proj2 (get_unknown_matchups_run t' ship pn) Es')
    as (l & El & _ & Hl).
  exists (mkFightDB t' t'), l. split.
  { rewrite add_ship_run, En, Eg. reflexivity. }
  cbn [view]. split; [exact Ln|]. split; [exact El|].
  apply Hl. split; [exact Ln|]. intros r Hr _ Hpair.
  destruct (Hk r Hr) as [K1 K2].
  destruct Hpair as [[_ E]|[E _]]; rewrite E in *; congruence.
Qed.

Lemma new_leaf_is_unknown_witness :
  exists s' l,
    add_ship "Scout" (Some "Corvette") None fleet_fought_db = (s', Ok tt)
    /\ ship_is_leaf "Scout" (view s') = Ok true
    /\ get_unknown_matchups "Destroyer" None (view s') = Ok l
    /\ In "Scout" l.
Proof.
  apply (new_leaf_is_unknown fleet_fought_db "Scout" "Destroyer"
           (Some "Corvette") None None (Some 2)).
  - unfold fleet_fought_db, fleet_db. repeat apply reachable_step.
    apply reachable_empty.
  - reflexivity.
  - reflexivity.
  - reflexivity.
Defined.

(** * One entry per author *)

Lemma fights_unique_tail (r : Fight) (fs : list Fight) :
  fights_unique (r :: fs) -> fights_unique fs.
Proof.
  intros H a b x. specialize (H a b x). simpl in H.
  destruct (pair_author_match a b x r); simpl in H; lia.
Qed.

Lemma fights_unique_authors (a b : string) (fs : list Fight) :
  fights_unique fs ->
  NoDup
    (map f_author
       (filter (fun r => (String.eqb (f_shipname1 r) a
                          && String.eqb (f_shipname2 r) b)
                         || (String.eqb (f_shipname1 r) b
                             && String.eqb (f_shipname2 r) a)) fs)).
Proof.
  set (pairb := fun r => (String.eqb (f_shipname1 r) a
                          && String.eqb (f_shipname2 r) b)
                         || (String.eqb (f_shipname1 r) b
                             && String.eqb (f_shipname2 r) a)).
  assert (key : forall r, pairb r = true ->
                          pair_author_match a b (f_author r) r = true).
  { intros r H. unfold pairb in H. unfold pair_author_match.
    rewrite String.eqb_refl, !andb_true_r. exact H. }
  induction fs as [|r fs IH]; intros Hu; simpl; [constructor|].
  assert (Hu' := fights_unique_tail r fs Hu).
  destruct (pairb r) eqn:Er; simpl; [|now apply IH].
  constructor; [|now apply IH].
  intros Hin. apply in_map_iff in Hin as (r' & Ea & Hr').
  apply filter_In in Hr' as [Hr' Er'].
  specialize (Hu a b (f_author r)). simpl in Hu. rewrite (key r Er) in Hu.
  simpl in Hu.
  assert (In r' (filter (pair_author_match a b (f_author r)) fs)).
  { apply filter_In. split; [exact Hr'|]. rewrite <- Ea. now apply key. }
  destruct (filter (pair_author_match a b (f_author r)) fs);
    [contradiction|simpl in Hu; lia].
Qed.

(** X24.  In a reachable store, for an existing ship and any opponent [o],
    the entries that [get_matchups] without player filter lists under [o] in
    its three dicts are as many as the Fight rows naming the two, and those
    rows have pairwise different authors: an author is counted at most once
    against an opponent, in only one of wins, draws and losses. *)
Theorem get_matchups_once_per_author (s : FightDB) (ship o : string) :
  reachable s ->
  archetype_exists ship (view s) = true ->
  exists w d l,
    get_matchups ship None (view s) = Ok (w, d, l)
    /\ (List.length (dict_values o w) + List.length (dict_values o d)
        + List.length (dict_values o l))%nat
       = List.length
           (filter (fun r => (String.eqb (f_shipname1 r) ship
                              && String.eqb (f_shipname2 r) o)
                             || (String.eqb (f_shipname1 r) o
                                 && String.eqb (f_shipname2 r) ship))
              (Fights (view s)))
    /\ NoDup
         (map f_author
            (filter (fun r => (String.eqb (f_shipname1 r) ship
                               && String.eqb (f_shipname2 r) o)
                              || (String.eqb (f_shipname1 r) o
                                  && String.eqb (f_shipname2 r) ship))
               (Fights (view s)))).
Proof.
  intros R E.
  destruct (reachable_db_wf s R) as [[_ _ _ Hu] _].
  destruct (get_matchups_rows (view s) ship None E)
    as (w & d & l & Eg & _ & _ & _ & V & _).
  exists w, d, l. split; [exact Eg|]. split.
  - destruct (V o) as (Vw & Vd & Vl). rewrite Vw, Vd, Vl, !length_map.
    rewrite (filter_length_split
               (fun r => (String.eqb (f_shipname1 r) ship
                          && String.eqb (f_shipname2 r) o)
                         || (String.eqb (f_shipname1 r) o
                             && String.eqb (f_shipname2 r) ship))
               (fun r => won_against ship o None r
                         || drew_against ship o None r)
               (lost_against ship o None)).
    + rewrite (filter_length_split
                 (fun r => won_against ship o None r
                           || drew_against ship o None r)
                 (won_against ship o None) (drew_against ship o None));
        [reflexivity|reflexivity|].
      intros r. unfold won_against, drew_against.
      destruct (Z.eqb (f_result r) FIGHT_RESULT.DRAW); simpl;
        rewrite ?andb_false_r; reflexivity.
    + intros r. now rewrite matchup_row_pair.
    + intros r. unfold won_against, drew_against, lost_against.
      destruct (Z.eqb (f_result r) FIGHT_RESULT.DRAW),
        (String.eqb (f_shipname1 r) ship); simpl;
        rewrite ?andb_false_r; reflexivity.
  - now apply fights_unique_authors.
Qed.

Lemma get_matchups_once_per_author_witness :
  exists w d l,
    get_matchups "Destroyer" None (view fleet_fought_db) = Ok (w, d, l)
    /\ (List.length (dict_values "RaiderMk1" w)
        + List.length (dict_values "RaiderMk1" d)
        + List.length (dict_values "RaiderMk1" l))%nat
       = List.length
           (filter (fun r => (String.eqb (f_shipname1 r) "Destroyer"
                              && String.eqb (f_shipname2 r) "RaiderMk1")
                             || (String.eqb (f_shipname1 r) "RaiderMk1"
                                 && String.eqb (f_shipname2 r) "Destroyer"))
              (Fights (view fleet_fought_db)))
    /\ NoDup
         (map f_author
            (filter (fun r => (String.eqb (f_shipname1 r) "Destroyer"
                               && String.eqb (f_shipname2 r) "RaiderMk1")
                              || (String.eqb (f_shipname1 r) "RaiderMk1"
                                  && String.eqb (f_shipname2 r) "Destroyer"))
               (Fights (view fleet_fought_db)))).
Proof.
  apply (get_matchups_once_per_author fleet_fought_db "Destroyer" "RaiderMk1").
  - unfold fleet_fought_db, fleet_db. repeat apply reachable_step.
    apply reachable_empty.
  - reflexivity.
Defined.

(** * The player filter *)

Lemma filter_player (p : string) (c : Fight -> bool) (fs : list Fight) :
  map f_author_name
    (filter (fun r => player_matches (Some p) r && c r) fs)
  = filter (fun an => String.eqb an p)
      (map f_author_name (filter (fun r => player_matches None r && c r) fs)).
Proof.
  unfold player_matches.
  induction fs as [|r fs IH]; simpl; [reflexivity|].
  destruct (String.eqb (f_author_name r) p) eqn:Ep, (c r); simpl;
    rewrite ?Ep, IH; reflexivity.
Qed.

(** X25.  The player filter of [get_matchups] only selects: for an existing
    ship and every opponent, the list it gives with [player_name = p] is the
    list it gives without filter restricted to the author names equal to
    [p], in each of the three dicts. *)
Theorem get_matchups_player_filter (t : Tables) (ship p : string) :
  archetype_exists ship t = true ->
  exists w d l wp dp lp,
    get_matchups ship None t = Ok (w, d, l)
    /\ get_matchups ship (Some p) t = Ok (wp, dp, lp)
    /\ forall o,
         dict_values o wp
         = filter (fun an => String.eqb an p) (dict_values o w)
         /\ dict_values o dp
            = filter (fun an => String.eqb an p) (dict_values o d)
         /\ dict_values o lp
            = filter (fun an => String.eqb an p) (dict_values o l).
Proof.
  intros E.
  destruct (get_matchups_rows t ship None E)
    as (w & d & l & Eg & _ & _ & _ & V & _).
  destruct (get_matchups_rows t ship (Some p) E)
    as (wp & dp & lp & Egp & _ & _ & _ & Vp & _).
  exists w, d, l, wp, dp, lp. split; [exact Eg|]. split; [exact Egp|].
  intros o. destruct (V o) as (Vw & Vd & Vl).
  destruct (Vp o) as (Vwp & Vdp & Vlp).
  rewrite Vw, Vd, Vl, Vwp, Vdp, Vlp.
  set (cw := fun r => negb (Z.eqb (f_result r) FIGHT_RESULT.DRAW)
                      && (String.eqb (f_shipname1 r) ship
                          && String.eqb (f_shipname2 r) o)).
  set (cd := fun r => Z.eqb (f_result r) FIGHT_RESULT.DRAW
                      && ((String.eqb (f_shipname1 r) ship
                           && String.eqb (f_shipname2 r) o)
                          || (negb (String.eqb (f_shipname1 r) ship)
                              && String.eqb (f_shipname2 r) ship
                              && String.eqb (f_shipname1 r) o))).
  set (cl := fun r => negb (Z.eqb (f_result r) FIGHT_RESULT.DRAW)
                      && (negb (String.eqb (f_shipname1 r) ship)
                          && (String.eqb (f_shipname2 r) ship
                              && String.eqb (f_shipname1 r) o))).
  assert (W : forall pn,
            filter (won_against ship o pn) (Fights t)
            = filter (fun r => player_matches pn r && cw r) (Fights t)).
  { intros pn. apply filter_ext. intros r. unfold won_against, cw.
    now rewrite <- !andb_assoc. }
  assert (D : forall pn,
            filter (drew_against ship o pn) (Fights t)
            = filter (fun r => player_matches pn r && cd r) (Fights t)).
  { intros pn. apply filter_ext. intros r. unfold drew_against, cd.
    now rewrite <- !andb_assoc. }
  assert (L : forall pn,
            filter (lost_against ship o pn) (Fights t)
            = filter (fun r => player_matches pn r && cl r) (Fights t)).
  { intros pn. apply filter_ext. intros r. unfold lost_against, cl.
    now rewrite <- !andb_assoc. }
  rewrite (W None), (W (Some p)), (D None), (D (Some p)), (L None),
    (L (Some p)).
  split; [|split]; apply filter_player.
Qed.

Lemma get_matchups_player_filter_witness :
  exists w d l wp dp lp,
    get_matchups "A" None (view tally_db) = Ok (w, d, l)
    /\ get_matchups "A" (Some "Bob") (view tally_db) = Ok (wp, dp, lp)
    /\ forall o,
         dict_values o wp
         = filter (fun an => String.eqb an "Bob") (dict_values o w)
         /\ dict_values o dp
            = filter (fun an => String.eqb an "Bob") (dict_values o d)
         /\ dict_values o lp
            = filter (fun an => String.eqb an "Bob") (dict_values o l).
Proof.
  apply (get_matchups_player_filter (view tally_db) "A" "Bob"). reflexivity.
Defined.

(** * The hierarchy checks of rename *)

(** X26.  [rename_ship old (new_parent_name = p)] without a new name raises
    "Ship cant be its own parent" when [p] is [old], and "Cant have a child
    as parent" when [p] is another name among the direct children of [old];
    in both cases no statement has run: the connection and what is committed
    are as before the call. *)
Theorem rename_ship_direct_cycle (s : FightDB) (old p : string)
  (nd : option string) (cs : list string) :
  archetypes_children old (view s) = Ok cs ->
  (p = old -> rename_ship old None (Some p) nd s = (s, Raise OwnParent))
  /\ (p <> old -> In p cs ->
      rename_ship old None (Some p) nd s = (s, Raise ChildAsParent)).
Proof.
  intros Hc. assert (Eo := archetypes_children_exists _ _ _ Hc).
  split.
  - intros ->. rewrite rename_ship_unfold, rename_new_name_run, Eo.
    cbn [negb fst snd]. rewrite rename_new_parent_run, Eo. cbn [negb].
    now rewrite String.eqb_refl.
  - intros Hne Hin.
    destruct (rename_ship_rejects_direct_cycle s old p nd cs Hc
                (or_intror Hin)) as (e & E & He).
    rewrite E. f_equal. f_equal.
    rewrite rename_ship_unfold, rename_new_name_run, Eo in E.
    cbn [negb fst snd] in E. rewrite rename_new_parent_run, Hc in E.
    destruct (negb (archetype_exists p (view s))); [now inversion E; subst|].
    rewrite (proj2 (String.eqb_neq p old) Hne) in E.
    assert (X : existsb (fun child => String.eqb child p) cs = true).
    { apply existsb_exists. exists p. split; [exact Hin|].
      apply String.eqb_refl. }
    rewrite X in E. now inversion E.
Qed.

Lemma rename_ship_direct_cycle_witness :
  rename_ship "Corvette" None (Some "RaiderMk2") None fleet_db
  = (fleet_db, Raise ChildAsParent).
Proof.
  apply (proj2 (rename_ship_direct_cycle fleet_db "Corvette" "RaiderMk2" None
                  ["RaiderMk1"; "RaiderMk2"] eq_refl)).
  - discriminate.
  - simpl. auto.
Defined.

(** * Growing the hierarchy *)

(** X27.  Adding a child turns its parent into an internal archetype: after
    [add_ship n (parent_name = p)] for a new name [n] and an existing [p],
    [n] is among the children of [p], [p] is not a leaf and is not returned
    by [get_ships], while the Fight rows that name [p] stay in the table. *)
Theorem add_ship_makes_parent_internal (s : FightDB) (n p : string)
  (d : option string) :
  archetype_exists n (view s) = false ->
  archetype_exists p (view s) = true ->
  exists s' cs ships,
    add_ship n (Some p) d s = (s', Ok tt)
    /\ archetypes_children p (view s') = Ok cs /\ In n cs
    /\ ship_is_leaf p (view s') = Ok false
    /\ get_ships (view s') = Ok ships /\ ~ In p ships
    /\ Fights (view s') = Fights (view s).
Proof.
  intros En Ep.
  apply get_ship_id_exists in Ep as [pid Eg].
  set (t' := insert_archetype n (Some pid) d (view s)).
  assert (Gp : get_ship_id (Some p) t' = Ok (Some pid)).
  { unfold get_ship_id in *. unfold t'. cbn [insert_archetype Archetypes].
    destruct (find _ (Archetypes (view s))) as [r|] eqn:Ef; [|discriminate].
    now rewrite (find_app_some _ _ _ _ Ef). }
  assert (Hc : archetypes_children p t'
               = Ok (map a_shipname
                       (filter (fun r => sql_eqZ (a_parentid r) (Some pid))
                          (Archetypes t')))).
  { unfold archetypes_children. now rewrite Gp. }
  assert (Hin : In n (map a_shipname
                        (filter (fun r => sql_eqZ (a_parentid r) (Some pid))
                           (Archetypes t')))).
  { apply in_map_iff.
    exists (mkArchetype (next_id (map a_id (Archetypes (view s)))) n
              (Some pid) d).
    split; [reflexivity|]. apply filter_In. split.
    - unfold t'. simpl. apply in_app_iff. right. now left.
    - simpl. apply Z.eqb_refl. }
  assert (Lp : ship_is_leaf p t' = Ok false).
  { rewrite (archetypes_children_leaf _ _ _ Hc).
    destruct (map _ _); [destruct Hin|reflexivity]. }
  destruct (get_ships_run t') as (ships & Es & _ & Hs).
  exists (mkFightDB t' t'). eexists. exists ships.
  split; [now rewrite add_ship_run, En, Eg|]. cbn [view].
  split; [exact Hc|]. split; [exact Hin|]. split; [exact Lp|].
  split; [exact Es|]. split; [|reflexivity].
  intros H. apply Hs in H as [_ H]. congruence.
Qed.

Lemma add_ship_makes_parent_internal_witness :
  exists s' cs ships,
    add_ship "Escort" (Some "Destroyer") None fleet_fought_db = (s', Ok tt)
    /\ archetypes_children "Destroyer" (view s') = Ok cs /\ In "Escort" cs
    /\ ship_is_leaf "Destroyer" (view s') = Ok false
    /\ get_ships (view s') = Ok ships /\ ~ In "Destroyer" ships
    /\ Fights (view s') = Fights (view fleet_fought_db).
Proof.
  apply (add_ship_makes_parent_internal fleet_fought_db "Escort" "Destroyer"
           None); reflexivity.
Defined.

(** * Failures of a report *)





